(** * gtctl bare-metal components: metasrv and frontend

    A shallow embedding of the two [ClusterComponent]s of package
    [components], [metaSrv] and [frontend] (pkg/components/frontend.go and
    the file of the metasrv next to it): they create the per-replica
    working directories, build the command line of each replica, launch it
    and probe its HTTP health endpoint.

    The Go functions are embedded as functions of a small state monad.
    The state holds the [allocatedDirs] of the component and the list of
    the effects performed so far; the outside world (file system, process
    runner, network, Go scheduler) is a family of oracles that answer
    each request from the effects performed before it. *)

From Stdlib Require Import ZArith List Bool Ascii String Decimal DecimalString
  DecimalPos DecimalZ Lia.
Import ListNotations.

#[local] Open Scope string_scope.
#[local] Open Scope Z_scope.

Set Implicit Arguments.

(* ================================================================== *)
(** * Go strings *)

Module GoString.

(** [bytealg.IndexByteString]: the first position of [c] in [s]. *)
Fixpoint IndexByteString (s : string) (c : ascii) : option nat :=
  match s with
  | EmptyString => None
  | String a s' =>
      if Ascii.eqb a c then Some O
      else option_map S (IndexByteString s' c)
  end.

(** [bytealg.LastIndexByteString]: the last position of [c] in [s]. *)
Fixpoint LastIndexByteString (s : string) (c : ascii) : option nat :=
  match s with
  | EmptyString => None
  | String a s' =>
      match LastIndexByteString s' c with
      | Some j => Some (S j)
      | None => if Ascii.eqb a c then Some O else None
      end
  end.

(** [s[:n]] *)
Fixpoint upto (n : nat) (s : string) : string :=
  match n, s with
  | S n', String a s' => String a (upto n' s')
  | _, _ => EmptyString
  end.

(** [s[n:]] *)
Fixpoint from (n : nat) (s : string) : string :=
  match n, s with
  | S n', String _ s' => from n' s'
  | _, _ => s
  end.

(** [s[lo:hi]] *)
Definition slice (lo hi : nat) (s : string) : string :=
  upto (hi - lo) (from lo s).

(** [s[n]], when [n] is in range. *)
Definition byteAt (n : nat) (s : string) : option ascii := String.get n s.

Definition hasByte (s : string) (c : ascii) : bool :=
  match IndexByteString s c with Some _ => true | None => false end.

Definition isByte (o : option ascii) (c : ascii) : bool :=
  match o with Some a => Ascii.eqb a c | None => false end.

(** [strings.HasPrefix] *)
Fixpoint HasPrefix (s p : string) {struct p} : bool :=
  match p with
  | EmptyString => true
  | String b p' =>
      match s with
      | EmptyString => false
      | String a s' => Ascii.eqb a b && HasPrefix s' p'
      end
  end.

End GoString.
Import GoString.

(** The builtin [append(l, x)] of one element to a slice. *)
Definition append {A : Type} (l : list A) (x : A) : list A := (l ++ [x])%list.

(* ================================================================== *)
(** * Go errors *)

(** An [error] value is kept as the text its [Error()] method returns. *)
Inductive error : Type := errorString (text : string).

Definition Error (e : error) : string :=
  match e with errorString t => t end.

(** The [Error] method of [net.AddrError]. *)
Definition AddrError (Err Addr : string) : error :=
  errorString
    (match Addr with
     | EmptyString => Err
     | _ => "address " ++ Addr ++ ": " ++ Err
     end).

(* ================================================================== *)
(** * The Go standard library functions the components call *)

Module net.

Definition missingPort := "missing port in address".
Definition tooManyColons := "too many colons in address".

Definition addrErr (addr why : string) : string * string * option error :=
  ("", "", Some (AddrError why addr)).

(** The tail of [SplitHostPort], after [host], [j] and [k] are known. *)
Definition splitTail (hostport host : string) (i j k : nat)
  : string * string * option error :=
  if hasByte (from j hostport) "[" then
    addrErr hostport "unexpected '[' in address"
  else if hasByte (from k hostport) "]" then
    addrErr hostport "unexpected ']' in address"
  else (host, from (S i) hostport, None).

(** [net.SplitHostPort] *)
Definition SplitHostPort (hostport : string) : string * string * option error :=
  match LastIndexByteString hostport ":" with
  | None => addrErr hostport missingPort
  | Some i =>
      if isByte (byteAt 0 hostport) "[" then
        match IndexByteString hostport "]" with
        | None => addrErr hostport "missing ']' in address"
        | Some end_ =>
            if Nat.eqb (S end_) (String.length hostport) then
              addrErr hostport missingPort
            else if Nat.eqb (S end_) i then
              splitTail hostport (slice 1 end_ hostport) i 1 (S end_)
            else if isByte (byteAt (S end_) hostport) ":" then
              addrErr hostport tooManyColons
            else addrErr hostport missingPort
        end
      else
        let host := upto i hostport in
        if hasByte host ":" then addrErr hostport tooManyColons
        else splitTail hostport host i 0 0
  end.

(** [net.JoinHostPort] *)
Definition JoinHostPort (host port : string) : string :=
  if hasByte host ":" then "[" ++ host ++ "]:" ++ port
  else host ++ ":" ++ port.

End net.

Module strconv.

Definition minInt : Z := - 2 ^ 63.
Definition maxInt : Z := 2 ^ 63 - 1.

(** [strconv.Itoa] *)
Definition Itoa (n : Z) : string := NilEmpty.string_of_int (Z.to_int n).

(** The value of a non-empty string of decimal digits. *)
Definition digits (s : string) : option Z :=
  match s with
  | EmptyString => None
  | _ => option_map Z.of_uint (NilEmpty.uint_of_string s)
  end.

Definition inRange (o : option Z) : option Z :=
  match o with
  | Some n => if (minInt <=? n) && (n <=? maxInt) then Some n else None
  | None => None
  end.

(** [strconv.Atoi]: an optional sign and at least one decimal digit, the
    value within the range of [int]; [None] for the error results. *)
Definition Atoi (s : string) : option Z :=
  match s with
  | String a r =>
      if Ascii.eqb a "-" then inRange (option_map Z.opp (digits r))
      else if Ascii.eqb a "+" then inRange (digits r)
      else inRange (digits s)
  | EmptyString => None
  end.

(** [strconv.FormatBool] *)
Definition FormatBool (b : bool) : string := if b then "true" else "false".

End strconv.

(* ================================================================== *)
(** * Data of the package *)

(** Modelled from the spec: [WorkingDirs], declared in another file of the
    package: the two root paths (logs, pids) under which the replicas get
    their directories, with the field names the two files use. *)
Record WorkingDirs : Type := { LogsDir : string; PidsDir : string }.

(** Modelled from the spec: [allocatedDirs], declared in another file of
    the package: the accumulated log-directory and pid-directory paths,
    embedded in both components and appended to by [Start]. *)
Record allocatedDirs : Type :=
  { logsDirs : list string; pidsDirs : list string }.

Module RunOptions.
(** Modelled from the spec: [RunOptions], declared in another file of the
    package: one launch of a binary (binary path, display name, log
    directory, pid directory, arguments), handed to [runBinary]. *)
Record t : Type :=
  { Binary : string; Name : string; logDir : string; pidDir : string;
    args : list string }.
End RunOptions.

Module config.

Module MetaSrv.
(** Modelled from the spec: [config.MetaSrv], declared in package
    [config]: the settings of the role, with the fields the component
    reads.  [Replicas] is a Go [int]. *)
Record t : Type :=
  { Replicas : Z; BindAddr : string; HTTPAddr : string; StoreAddr : string;
    ServerAddr : string; LogLevel : string; Config : string }.
End MetaSrv.

Module Frontend.
(** Modelled from the spec: [config.Frontend], declared in package
    [config]: the settings of the role, with the fields the component
    reads.  [Replicas] is a Go [int]. *)
Record t : Type :=
  { Replicas : Z; HTTPAddr : string; GRPCAddr : string; MysqlAddr : string;
    PostgresAddr : string; LogLevel : string; Config : string;
    UserProvider : string }.
End Frontend.

End config.

(* ================================================================== *)
(** * The outside world *)

(** An [*http.Response] as far as [IsRunning] looks at it: the status code
    and what closing its body will return. *)
Record Response : Type := { StatusCode : Z; Body_Close : option error }.

Definition StatusOK : Z := 200.

(** An argument of a log line. *)
Inductive logArg : Type :=
| argString (s : string)
| argError (e : error)
| argResponse (r : Response).

(** What a [select] of the readiness loop took. *)
Inductive selected : Type :=
| tick                 (* [case <-ticker.C] *)
| done (err : error).  (* [case <-ctx.Done()], with the value of [ctx.Err()] *)

(** The effects of the two components, in the order they happen. *)
Inductive event : Type :=
| EnsureDir_ (dir : string)
| runBinary_ (opt : RunOptions.t)
| Get_ (url : string)
| Close_ (url : string)
| Infof_ (v : Z) (format : string) (a : list logArg)
| NewTicker_ (d : Z)
| Stop_
| select_ (c : selected).

(** The collaborators outside the two source files: the directory-ensure
    utility and the process runner of the repository, and [path.Join] and
    [http.Get] of the Go library.  They are parameters of the development;
    each answer may depend on everything that happened before the
    request. *)
Class World : Type :=
  { (** [path.Join] of two elements *)
    path_Join : string -> string -> string;
    (** [fileutils.EnsureDir]: [None] is a nil error *)
    EnsureDir_result : list event -> string -> option error;
    (** [runBinary], once the process is launched or has failed to *)
    runBinary_result : list event -> RunOptions.t -> option error;
    (** [http.Get]: a response or a transport error *)
    Get_result : list event -> string -> Response + error }.

(** What the Go runtime finds at one [select] of the readiness loop:
    whether a tick is waiting in [ticker.C], whether [ctx.Done()] is closed
    (and then the value of [ctx.Err()]), and which case it picks when both
    can proceed. *)
Record selectEnv : Type :=
  { tickReady : bool; ctxErr : option error; pickTick : bool }.

(** The [select] statement over [ticker.C] and [ctx.Done()]: the only case
    that can proceed, a pseudo-random one of the two when both can, and
    [None] when the goroutine stays blocked. *)
Definition select (s : selectEnv) : option selected :=
  match tickReady s, ctxErr s with
  | true, None => Some tick
  | false, Some e => Some (done e)
  | true, Some e => if pickTick s then Some tick else Some (done e)
  | false, None => None
  end.

(** How a call of [Start] ends: it returns, or it is still blocked in the
    [select] when the observations of the runtime run out. *)
Inductive outcome (A : Type) : Type :=
| Returned (a : A)
| Blocked.
Arguments Blocked {A}.

(** ** The state monad *)

Record State : Type := { dirs : allocatedDirs; effects : list event }.

Definition M (A : Type) : Type := State -> A * State.

Definition ret {A} (a : A) : M A := fun s => (a, s).

Definition bind {A B} (m : M A) (k : A -> M B) : M B :=
  fun s => let (a, s') := m s in k a s'.

Declare Scope go_scope.
Delimit Scope go_scope with go.
Notation "x <- m ;; k" := (bind m (fun x => k))
  (at level 61, m at next level, right associativity) : go_scope.
Notation "m ;; k" := (bind m (fun _ => k))
  (at level 61, right associativity) : go_scope.
#[local] Open Scope go_scope.

Definition emit (e : event) : M unit :=
  fun s => (tt, {| dirs := dirs s; effects := effects s ++ [e] |}).

Definition ask {A} (f : list event -> A) : M A :=
  fun s => (f (effects s), s).

(** [x.logsDirs = append(x.logsDirs, dir)] *)
Definition append_logsDirs (dir : string) : M unit :=
  fun s => (tt, {| dirs := {| logsDirs := append (logsDirs (dirs s)) dir;
                              pidsDirs := pidsDirs (dirs s) |};
                   effects := effects s |}).

(** [x.pidsDirs = append(x.pidsDirs, dir)] *)
Definition append_pidsDirs (dir : string) : M unit :=
  fun s => (tt, {| dirs := {| logsDirs := logsDirs (dirs s);
                              pidsDirs := append (pidsDirs (dirs s)) dir |};
                   effects := effects s |}).

Module fileutils.
Definition EnsureDir `{World} (dir : string) : M (option error) :=
  r <- ask (fun h => EnsureDir_result h dir) ;;
  emit (EnsureDir_ dir) ;;
  ret r.
End fileutils.

Module http.
Definition Get `{World} (url : string) : M (Response + error) :=
  r <- ask (fun h => Get_result h url) ;;
  emit (Get_ url) ;;
  ret r.

(** [rsp.Body.Close()], for the response to [url]. *)
Definition Close (url : string) (rsp : Response) : M (option error) :=
  emit (Close_ url) ;;
  ret (Body_Close rsp).
End http.

(** [logger.V(v).Infof(format, a...)] *)
Definition Infof (v : Z) (format : string) (a : list logArg) : M unit :=
  emit (Infof_ v format a).

Module time.
Definition Millisecond : Z := 1000000.
Definition NewTicker (d : Z) : M unit := emit (NewTicker_ d).
Definition Stop : M unit := emit Stop_.
End time.

(** [fmt.Errorf(format ++ "%v", err)] for a format that ends in its only
    verb. *)
Definition Errorf_v (before : string) (err : error) : error :=
  errorString (before ++ Error err).

(** [fmt.Sprintf("%s.%d", name, i)] *)
Definition Sprintf_s_d (name : string) (i : Z) : string :=
  name ++ "." ++ strconv.Itoa i.

(* ================================================================== *)
(** * Package [components] *)

(** What the two files use of the rest of the package and of the operator
    API, whose declarations are elsewhere: the constant [DefaultLogLevel],
    the constant [FrontendComponentKind], and what the address helper
    returns for a string that is not a [host:port] address. *)
Class Package : Type :=
  { DefaultLogLevel : string;
    FrontendComponentKind : string;
    malformedAddr : string -> Z -> string }.

(** Modelled from the spec: [FormatAddrArg], declared in a file of the
    package that is not among the sources.  For a valid [host:port] address
    the port is incremented by the replica index.  The call sites show a
    single string result; for an address that does not parse the result is
    the [malformedAddr] of the [Package]. *)
Definition FormatAddrArg `{Package} (addr : string) (nodeId : Z) : string :=
  match net.SplitHostPort addr with
  | (host, port, None) =>
      match strconv.Atoi port with
      | Some p => net.JoinHostPort host (strconv.Itoa (p + nodeId))
      | None => malformedAddr addr nodeId
      end
  | (_, _, Some _) => malformedAddr addr nodeId
  end.

(** Modelled from the spec: [GenerateAddrArg], declared next to
    [FormatAddrArg].  It appends [flag=derivedAddr] to the arguments and
    returns the extended list; the callers pass the flag with its dashes
    ([--http-addr]). *)
Definition GenerateAddrArg `{Package} (flag addr : string) (nodeId : Z)
    (args : list string) : list string :=
  append args (flag ++ "=" ++ FormatAddrArg addr nodeId).

(** [runBinary(ctx, stop, opt, wg, logger)]: the process runner, seen
    from its callers. *)
Definition runBinary `{World} (opt : RunOptions.t) : M (option error) :=
  r <- ask (fun h => runBinary_result h opt) ;;
  emit (runBinary_ opt) ;;
  ret r.

(* ------------------------------------------------------------------ *)
(** ** metasrv.go *)

Module metaSrv.

Import config.MetaSrv.

Record t : Type :=
  { config : config.MetaSrv.t;
    workingDirs : WorkingDirs;
    useMemoryMeta : bool }.

Definition Name (m : t) : string := "metasrv".

(** [BuildArgs(nodeID, bindAddr)] *)
Definition BuildArgs `{Package} (m : t) (nodeID : Z) (bindAddr : string)
  : list string :=
  let logLevel :=
    if String.eqb (LogLevel (config m)) "" then DefaultLogLevel
    else LogLevel (config m) in
  let args :=
    [ "--log-level=" ++ logLevel;
      Name m; "start";
      "--store-addr=" ++ StoreAddr (config m);
      "--server-addr=" ++ ServerAddr (config m) ] in
  let args := GenerateAddrArg "--http-addr" (HTTPAddr (config m)) nodeID args in
  let args := GenerateAddrArg "--bind-addr" bindAddr nodeID args in
  let args :=
    if useMemoryMeta m then
      let useMemoryMeta := strconv.FormatBool (useMemoryMeta m) in
      GenerateAddrArg "--use-memory-store" useMemoryMeta nodeID args
    else args in
  let args :=
    if Nat.ltb 0 (String.length (Config (config m))) then
      append args ("-c=" ++ Config (config m))
    else args in
  args.

(** The body of the loop of [IsRunning], for [n] more replicas from
    index [i]. *)
Fixpoint IsRunning_from `{World} `{Package} (m : t) (n : nat) (i : Z) : M bool :=
  match n with
  | O => ret true
  | S n' =>
      let addr := FormatAddrArg (HTTPAddr (config m)) i in
      let '(_, httpPort, err) := net.SplitHostPort addr in
      match err with
      | Some e =>
          Infof 5 "failed to split host port in %s: %s"
            [argString (Name m); argError e] ;;
          ret false
      | None =>
          let url := "http://localhost:" ++ httpPort ++ "/health" in
          r <- http.Get url ;;
          match r with
          | inr e =>
              Infof 5 "failed to get %s health: %s"
                [argString (Name m); argError e] ;;
              ret false
          | inl rsp =>
              if negb (StatusCode rsp =? StatusOK) then ret false
              else
                e <- http.Close url rsp ;;
                match e with
                | Some _ => ret false
                | None => IsRunning_from m n' (i + 1)
                end
          end
      end
  end.

Definition IsRunning `{World} `{Package} (m : t) : M bool :=
  IsRunning_from m (Z.to_nat (Replicas (config m))) 0.

(** The default of [Start] for the bind address. *)
Definition bindAddrOf (m : t) : string :=
  if Nat.ltb 0 (String.length (BindAddr (config m))) then BindAddr (config m)
  else net.JoinHostPort "127.0.0.1" "3002".

(** The first loop of [Start], for [n] more replicas from index [i]:
    [Some err] when the loop returns [err], [None] when it runs to its
    end. *)
Fixpoint Start_from `{World} `{Package} (m : t) (binary bindAddr : string)
    (n : nat) (i : Z) : M (option error) :=
  match n with
  | O => ret None
  | S n' =>
      let dirName := Sprintf_s_d (Name m) i in
      let metaSrvLogDir := path_Join (LogsDir (workingDirs m)) dirName in
      err <- fileutils.EnsureDir metaSrvLogDir ;;
      match err with
      | Some e => ret (Some e)
      | None =>
          append_logsDirs metaSrvLogDir ;;
          let metaSrvPidDir := path_Join (PidsDir (workingDirs m)) dirName in
          err <- fileutils.EnsureDir metaSrvPidDir ;;
          match err with
          | Some e => ret (Some e)
          | None =>
              append_pidsDirs metaSrvPidDir ;;
              let opt :=
                {| RunOptions.Binary := binary;
                   RunOptions.Name := dirName;
                   RunOptions.logDir := metaSrvLogDir;
                   RunOptions.pidDir := metaSrvPidDir;
                   RunOptions.args := BuildArgs m i bindAddr |} in
              err <- runBinary opt ;;
              match err with
              | Some e => ret (Some e)
              | None => Start_from m binary bindAddr n' (i + 1)
              end
          end
      end
  end.

(** The loop labelled [CHECKER], run against what the runtime finds at its
    successive [select]s. *)
Fixpoint CHECKER `{World} `{Package} (m : t) (sel : list selectEnv)
  : M (outcome (option error)) :=
  match sel with
  | [] => ret Blocked
  | s :: sel' =>
      match select s with
      | None => ret Blocked
      | Some tick =>
          emit (select_ tick) ;;
          up <- IsRunning m ;;
          if up then ret (Returned None) else CHECKER m sel'
      | Some (done e) =>
          emit (select_ (done e)) ;;
          ret (Returned (Some (Errorf_v "status checking failed: " e)))
      end
  end.

(** [Start(ctx, stop, binary)].  The context and the ticker are seen
    through [sel]. *)
Definition Start `{World} `{Package} (m : t) (sel : list selectEnv)
    (binary : string) : M (outcome (option error)) :=
  let bindAddr := bindAddrOf m in
  err <- Start_from m binary bindAddr (Z.to_nat (Replicas (config m))) 0 ;;
  match err with
  | Some e => ret (Returned (Some e))
  | None =>
      time.NewTicker (500 * time.Millisecond) ;;
      r <- CHECKER m sel ;;
      match r with
      | Returned e => time.Stop ;; ret (Returned e)
      | Blocked => ret Blocked
      end
  end.

End metaSrv.

(* ------------------------------------------------------------------ *)
(** ** frontend.go *)

Module frontend.

Import config.Frontend.

Record t : Type :=
  { config : config.Frontend.t;
    metaSrvAddr : string;
    workingDirs : WorkingDirs }.

Definition Name `{Package} (f : t) : string := FrontendComponentKind.

(** [BuildArgs(nodeId)] *)
Definition BuildArgs `{Package} (f : t) (nodeId : Z) : list string :=
  let logLevel :=
    if String.eqb (LogLevel (config f)) "" then DefaultLogLevel
    else LogLevel (config f) in
  let args :=
    [ "--log-level=" ++ logLevel;
      Name f; "start";
      "--metasrv-addrs=" ++ metaSrvAddr f ] in
  let args := GenerateAddrArg "--http-addr" (HTTPAddr (config f)) nodeId args in
  let args := GenerateAddrArg "--rpc-addr" (GRPCAddr (config f)) nodeId args in
  let args := GenerateAddrArg "--mysql-addr" (MysqlAddr (config f)) nodeId args in
  let args :=
    GenerateAddrArg "--postgres-addr" (PostgresAddr (config f)) nodeId args in
  let args :=
    if Nat.ltb 0 (String.length (Config (config f))) then
      append args ("-c=" ++ Config (config f))
    else args in
  let args :=
    if Nat.ltb 0 (String.length (UserProvider (config f))) then
      append args ("--user-provider=" ++ UserProvider (config f))
    else args in
  args.

(** The body of the loop of [IsRunning], for [n] more replicas from
    index [i]. *)
Fixpoint IsRunning_from `{World} `{Package} (f : t) (n : nat) (i : Z) : M bool :=
  match n with
  | O => ret true
  | S n' =>
      let addr := FormatAddrArg (HTTPAddr (config f)) i in
      let healthy := "http://" ++ addr ++ "/health" in
      r <- http.Get healthy ;;
      match r with
      | inr e =>
          Infof 5 "Failed to get %s healthy: %s"
            [argString (Name f); argError e] ;;
          ret false
      | inl resp =>
          if negb (StatusCode resp =? StatusOK) then
            Infof 5 "%s is not healthy: %s"
              [argString (Name f); argResponse resp] ;;
            ret false
          else
            e <- http.Close healthy resp ;;
            match e with
            | Some err =>
                Infof 5 "%s is not healthy: %s, err: %s"
                  [argString (Name f); argResponse resp; argError err] ;;
                ret false
            | None => IsRunning_from f n' (i + 1)
            end
      end
  end.

Definition IsRunning `{World} `{Package} (f : t) : M bool :=
  IsRunning_from f (Z.to_nat (Replicas (config f))) 0.

(** The loop of [Start], for [n] more replicas from index [i]. *)
Fixpoint Start_from `{World} `{Package} (f : t) (binary : string)
    (n : nat) (i : Z) : M (option error) :=
  match n with
  | O => ret None
  | S n' =>
      let dirName := Sprintf_s_d (Name f) i in
      let frontendLogDir := path_Join (LogsDir (workingDirs f)) dirName in
      err <- fileutils.EnsureDir frontendLogDir ;;
      match err with
      | Some e => ret (Some e)
      | None =>
          append_logsDirs frontendLogDir ;;
          let frontendPidDir := path_Join (PidsDir (workingDirs f)) dirName in
          err <- fileutils.EnsureDir frontendPidDir ;;
          match err with
          | Some e => ret (Some e)
          | None =>
              append_pidsDirs frontendPidDir ;;
              let opt :=
                {| RunOptions.Binary := binary;
                   RunOptions.Name := dirName;
                   RunOptions.logDir := frontendLogDir;
                   RunOptions.pidDir := frontendPidDir;
                   RunOptions.args := BuildArgs f i |} in
              err <- runBinary opt ;;
              match err with
              | Some e => ret (Some e)
              | None => Start_from f binary n' (i + 1)
              end
          end
      end
  end.

(** [Start(ctx, stop, binary)] *)
Definition Start `{World} `{Package} (f : t) (binary : string)
  : M (option error) :=
  Start_from f binary (Z.to_nat (Replicas (config f))) 0.

End frontend.


(* ================================================================== *)
(** * Vocabulary of the properties *)

(** [addr] is a valid [host:port] address, of the host [host] and the port
    number [p]. *)
Definition parsesAs (addr host : string) (p : Z) : Prop :=
  exists port,
    net.SplitHostPort addr = (host, port, None) /\ strconv.Atoi port = Some p.

(** A host free of brackets and a port free of colons and brackets: what
    [net.SplitHostPort] returns without error. *)
Definition plainHost (host : string) : Prop :=
  hasByte host "[" = false /\ hasByte host "]" = false.

Definition plainPort (port : string) : Prop :=
  hasByte port ":" = false /\ hasByte port "[" = false /\
  hasByte port "]" = false.

(** The replica indices [i], [i+1], ... of [n] turns of a loop. *)
Fixpoint indices (i : Z) (n : nat) : list Z :=
  match n with
  | O => []
  | S n' => i :: indices (i + 1) n'
  end.

(** The URLs requested, the directories ensured and the launches made in a
    list of effects. *)
Definition gets (h : list event) : list string :=
  flat_map (fun e => match e with Get_ u => [u] | _ => [] end) h.

Definition ensured (h : list event) : list string :=
  flat_map (fun e => match e with EnsureDir_ d => [d] | _ => [] end) h.

Definition spawned (h : list event) : list RunOptions.t :=
  flat_map (fun e => match e with runBinary_ o => [o] | _ => [] end) h.

(** The effects a health check may have, and those a launch may have. *)
Definition isProbeEvent (e : event) : bool :=
  match e with Get_ _ | Close_ _ | Infof_ _ _ _ => true | _ => false end.

Definition isLaunchEvent (e : event) : bool :=
  match e with EnsureDir_ _ | runBinary_ _ => true | _ => false end.

(** The state after the further effects [new]. *)
Definition since (s : State) (new : list event) : State :=
  {| dirs := dirs s; effects := (effects s ++ new)%list |}.

(** The state after the further effects [new] and the further directories
    [logs] and [pids]. *)
Definition grown (s : State) (new : list event) (logs pids : list string)
  : State :=
  {| dirs := {| logsDirs := (logsDirs (dirs s) ++ logs)%list;
                pidsDirs := (pidsDirs (dirs s) ++ pids)%list |};
     effects := (effects s ++ new)%list |}.

(** ** Health *)

(** The answer of a health endpoint that counts as running: status 200
    and a body that closes without error. *)
Definition healthy (r : Response + error) : bool :=
  match r with
  | inl rsp =>
      (StatusCode rsp =? StatusOK) &&
      match Body_Close rsp with None => true | Some _ => false end
  | inr _ => false
  end.

(** Replica [i] is healthy after the effects [h]: its address parses and
    its endpoint [url i] answers as above. *)
Definition healthyAt `{World} (parses : Z -> bool) (url : Z -> string)
    (h : list event) (i : Z) : bool :=
  parses i && healthy (Get_result h (url i)).

(** The effects of probing [n] healthy replicas from index [i]. *)
Definition probed (url : Z -> string) (i : Z) (n : nat) : list event :=
  flat_map (fun j => [Get_ (url j); Close_ (url j)]) (indices i n).

(** A check is run from the state [s] with replica [i]: replica [i + k]
    is healthy when its turn comes, after [k] healthy ones. *)
Definition turn `{World} (parses : Z -> bool) (url : Z -> string)
    (s : State) (i : Z) (k : nat) : bool :=
  healthyAt parses url (effects s ++ probed url i k)%list (i + Z.of_nat k).

(** The health endpoint of replica [i] of a frontend. *)
Definition frontend_url `{Package} (f : frontend.t) (i : Z) : string :=
  "http://" ++ FormatAddrArg (config.Frontend.HTTPAddr (frontend.config f)) i
  ++ "/health".

(** The replica address of a metasrv as [IsRunning] splits it, and the
    health endpoint it requests. *)
Definition metaSrv_split `{Package} (m : metaSrv.t) (i : Z)
  : string * string * option error :=
  net.SplitHostPort
    (FormatAddrArg (config.MetaSrv.HTTPAddr (metaSrv.config m)) i).

Definition metaSrv_parses `{Package} (m : metaSrv.t) (i : Z) : bool :=
  match metaSrv_split m i with
  | (_, _, None) => true
  | (_, _, Some _) => false
  end.

Definition metaSrv_url `{Package} (m : metaSrv.t) (i : Z) : string :=
  "http://localhost:" ++ snd (fst (metaSrv_split m i)) ++ "/health".

(** ** Launch *)

(** The names of the directories and the launch of replica [i]. *)
Definition metaSrv_logDir `{World} (m : metaSrv.t) (i : Z) : string :=
  path_Join (LogsDir (metaSrv.workingDirs m)) (Sprintf_s_d (metaSrv.Name m) i).

Definition metaSrv_pidDir `{World} (m : metaSrv.t) (i : Z) : string :=
  path_Join (PidsDir (metaSrv.workingDirs m)) (Sprintf_s_d (metaSrv.Name m) i).

Definition metaSrv_opt `{World} `{Package} (m : metaSrv.t) (binary : string)
    (i : Z) : RunOptions.t :=
  {| RunOptions.Binary := binary;
     RunOptions.Name := Sprintf_s_d (metaSrv.Name m) i;
     RunOptions.logDir := metaSrv_logDir m i;
     RunOptions.pidDir := metaSrv_pidDir m i;
     RunOptions.args := metaSrv.BuildArgs m i (metaSrv.bindAddrOf m) |}.

Definition frontend_logDir `{World} `{Package} (f : frontend.t) (i : Z)
  : string :=
  path_Join (LogsDir (frontend.workingDirs f)) (Sprintf_s_d (frontend.Name f) i).

Definition frontend_pidDir `{World} `{Package} (f : frontend.t) (i : Z)
  : string :=
  path_Join (PidsDir (frontend.workingDirs f)) (Sprintf_s_d (frontend.Name f) i).

Definition frontend_opt `{World} `{Package} (f : frontend.t) (binary : string)
    (i : Z) : RunOptions.t :=
  {| RunOptions.Binary := binary;
     RunOptions.Name := Sprintf_s_d (frontend.Name f) i;
     RunOptions.logDir := frontend_logDir f i;
     RunOptions.pidDir := frontend_pidDir f i;
     RunOptions.args := frontend.BuildArgs f i |}.

(** The three requests of the launch of replica [i], and those of [n]
    replicas from index [i]. *)
Definition steps (logDir pidDir : Z -> string) (opt : Z -> RunOptions.t)
    (i : Z) : list event :=
  [EnsureDir_ (logDir i); EnsureDir_ (pidDir i); runBinary_ (opt i)].

Definition launched (logDir pidDir : Z -> string) (opt : Z -> RunOptions.t)
    (i : Z) (n : nat) : list event :=
  flat_map (steps logDir pidDir opt) (indices i n).

(** The answer of the world to a request of a launch. *)
Definition answer `{World} (h : list event) (e : event) : option error :=
  match e with
  | EnsureDir_ d => EnsureDir_result h d
  | runBinary_ o => runBinary_result h o
  | _ => None
  end.

(** Fail fast, in the words of the spec: the requests are made in order,
    the first error ends the run and is its result.  The run is given from
    the effects [h] before it; the result comes with the effects after
    it. *)
Fixpoint attempt `{World} (h : list event) (script : list event)
  : option error * list event :=
  match script with
  | [] => (None, h)
  | e :: rest =>
      match answer h e with
      | Some err => (Some err, (h ++ [e])%list)
      | None => attempt (h ++ [e])%list rest
      end
  end.

(** A world in which no directory creation and no launch fails. *)
Definition neverFails `{World} : Prop :=
  (forall h d, EnsureDir_result h d = None) /\
  (forall h o, runBinary_result h o = None).

(** The loop of both [Start]s, over the names of the directories and the
    launches: what [metaSrv.Start_from] and [frontend.Start_from] have in
    common. *)
Fixpoint launch `{World} (logDir pidDir : Z -> string)
    (opt : Z -> RunOptions.t) (n : nat) (i : Z) : M (option error) :=
  match n with
  | O => ret None
  | S n' =>
      err <- fileutils.EnsureDir (logDir i) ;;
      match err with
      | Some e => ret (Some e)
      | None =>
          append_logsDirs (logDir i) ;;
          err <- fileutils.EnsureDir (pidDir i) ;;
          match err with
          | Some e => ret (Some e)
          | None =>
              append_pidsDirs (pidDir i) ;;
              err <- runBinary (opt i) ;;
              match err with
              | Some e => ret (Some e)
              | None => launch logDir pidDir opt n' (i + 1)
              end
          end
      end
  end.

(** How the loop of a [Start] ends: after the last replica, or at the
    request of a replica that fails. *)
Inductive ending : Type :=
| allLaunched
| logDirFailed (e : error)
| pidDirFailed (e : error)
| spawnFailed (e : error).

(** The result and the state of a loop that began in [s] with replica [i],
    launched [k] replicas and then ended as [g] says. *)
Definition ended (logDir pidDir : Z -> string) (opt : Z -> RunOptions.t)
    (s : State) (i : Z) (k : nat) (g : ending) : option error * State :=
  let sk :=
    grown s (launched logDir pidDir opt i k)
      (map logDir (indices i k)) (map pidDir (indices i k)) in
  let j := i + Z.of_nat k in
  match g with
  | allLaunched => (None, sk)
  | logDirFailed e => (Some e, grown sk [EnsureDir_ (logDir j)] [] [])
  | pidDirFailed e =>
      (Some e,
       grown sk [EnsureDir_ (logDir j); EnsureDir_ (pidDir j)] [logDir j] [])
  | spawnFailed e =>
      (Some e, grown sk (steps logDir pidDir opt j) [logDir j] [pidDir j])
  end.

(** The answer of the world that makes the loop end as [g] says, at
    replica [j] and after the effects [h]. *)
Definition causes `{World} (logDir pidDir : Z -> string)
    (opt : Z -> RunOptions.t) (h : list event) (j : Z) (g : ending) : Prop :=
  match g with
  | allLaunched => True
  | logDirFailed e => EnsureDir_result h (logDir j) = Some e
  | pidDirFailed e =>
      EnsureDir_result (h ++ [EnsureDir_ (logDir j)])%list (pidDir j) = Some e
  | spawnFailed e =>
      runBinary_result
        (h ++ [EnsureDir_ (logDir j); EnsureDir_ (pidDir j)])%list (opt j)
      = Some e
  end.

(** The effects of the readiness loop: those of the health checks, and the
    [select]s. *)
Definition isPollEvent (e : event) : bool :=
  match e with
  | Get_ _ | Close_ _ | Infof_ _ _ _ | select_ _ => true
  | _ => false
  end.

(* ================================================================== *)
(** * The constructors *)

(** [NewMetaSrv(config, workingDirs, wg, logger, useMemoryMeta)]: the
    component, and its [allocatedDirs], which the struct literal leaves at
    their zero value. *)
Definition NewMetaSrv (config : config.MetaSrv.t) (workingDirs : WorkingDirs)
    (useMemoryMeta : bool) : metaSrv.t * allocatedDirs :=
  ({| metaSrv.config := config;
      metaSrv.workingDirs := workingDirs;
      metaSrv.useMemoryMeta := useMemoryMeta |},
   {| logsDirs := []; pidsDirs := [] |}).

(** [NewFrontend(config, metaSrvAddr, workingDirs, wg, logger)] *)
Definition NewFrontend (config : config.Frontend.t) (metaSrvAddr : string)
    (workingDirs : WorkingDirs) : frontend.t * allocatedDirs :=
  ({| frontend.config := config;
      frontend.metaSrvAddr := metaSrvAddr;
      frontend.workingDirs := workingDirs |},
   {| logsDirs := []; pidsDirs := [] |}).

(** The state of a component with the directories [d], after the effects
    [h] of the program so far. *)
Definition holding (d : allocatedDirs) (h : list event) : State :=
  {| dirs := d; effects := h |}.

(* ================================================================== *)
(** * More vocabulary *)

(** The bodies closed and the lines logged in a list of effects. *)
Definition closes (h : list event) : list string :=
  flat_map (fun e => match e with Close_ u => [u] | _ => [] end) h.

Definition logged (h : list event) : list (Z * string) :=
  flat_map (fun e => match e with Infof_ v format _ => [(v, format)] | _ => [] end)
    h.

(** The tickers created and the tickers stopped in a list of effects. *)
Definition tickers (h : list event) : nat :=
  List.length (filter (fun e => match e with NewTicker_ _ => true | _ => false end) h).

Definition stops (h : list event) : nat :=
  List.length (filter (fun e => match e with Stop_ => true | _ => false end) h).

(** The requests of replica [j] that the loop of a [Start] makes before
    the one at which it ends as [g] says. *)
Definition before (logDir pidDir : Z -> string) (g : ending) (j : Z)
  : list event :=
  match g with
  | allLaunched | logDirFailed _ => []
  | pidDirFailed _ => [EnsureDir_ (logDir j)]
  | spawnFailed _ => [EnsureDir_ (logDir j); EnsureDir_ (pidDir j)]
  end.

(** The state of the readiness loop of the metasrv that began in [s],
    after [k] turns in which the [select] took a tick and [IsRunning]
    ran. *)
Fixpoint waited `{World} `{Package} (m : metaSrv.t) (k : nat) (s : State)
  : State :=
  match k with
  | O => s
  | S k' => waited m k' (snd (metaSrv.IsRunning m (since s [select_ tick])))
  end.

(** The ticks the [select] of the readiness loop took in a list of
    effects. *)
Definition ticks (h : list event) : nat :=
  List.length
    (filter (fun e => match e with select_ tick => true | _ => false end) h).

(** The effects of the turn of a replica that is not healthy, by the
    answer to its request: what the loop of [frontend.IsRunning] does
    before it returns false. *)
Definition frontend_failure `{World} `{Package} (f : frontend.t)
    (h : list event) (i : Z) : list event :=
  let u := frontend_url f i in
  match Get_result h u with
  | inr e =>
      [Get_ u;
       Infof_ 5 "Failed to get %s healthy: %s"
         [argString (frontend.Name f); argError e]]
  | inl resp =>
      if negb (StatusCode resp =? StatusOK) then
        [Get_ u;
         Infof_ 5 "%s is not healthy: %s"
           [argString (frontend.Name f); argResponse resp]]
      else
        match Body_Close resp with
        | Some err =>
            [Get_ u; Close_ u;
             Infof_ 5 "%s is not healthy: %s, err: %s"
               [argString (frontend.Name f); argResponse resp; argError err]]
        | None => []
        end
  end.

(** The same for the loop of [metaSrv.IsRunning]. *)
Definition metaSrv_failure `{World} `{Package} (m : metaSrv.t)
    (h : list event) (i : Z) : list event :=
  let u := metaSrv_url m i in
  match metaSrv_split m i with
  | (_, _, Some e) =>
      [Infof_ 5 "failed to split host port in %s: %s"
         [argString (metaSrv.Name m); argError e]]
  | (_, _, None) =>
      match Get_result h u with
      | inr e =>
          [Get_ u;
           Infof_ 5 "failed to get %s health: %s"
             [argString (metaSrv.Name m); argError e]]
      | inl rsp =>
          if negb (StatusCode rsp =? StatusOK) then [Get_ u]
          else
            match Body_Close rsp with
            | Some _ => [Get_ u; Close_ u]
            | None => []
            end
      end
  end.
(* ================================================================== *)
(** * Instances for the examples *)

Module example.

(** A package with the log level [info], the component kind [frontend],
    and an address helper that leaves a malformed address as it is. *)
Definition package : Package :=
  {| DefaultLogLevel := "info";
     FrontendComponentKind := "frontend";
     malformedAddr := fun addr _ => addr |}.

(** A world in which [EnsureDir] fails for the directories in [badDirs],
    [runBinary] fails for the replicas named in [badRuns], and [http.Get]
    answers 200 except for the URLs in [down], which answer 503. *)
Definition world (badDirs badRuns down : list string) : World :=
  {| path_Join := fun a b => a ++ "/" ++ b;
     EnsureDir_result := fun _ dir =>
       if existsb (String.eqb dir) badDirs
       then Some (errorString ("mkdir " ++ dir ++ ": permission denied"))
       else None;
     runBinary_result := fun _ opt =>
       if existsb (String.eqb (RunOptions.Name opt)) badRuns
       then Some (errorString ("exec: not started: " ++ RunOptions.Name opt))
       else None;
     Get_result := fun _ url =>
       if existsb (String.eqb url) down
       then inl {| StatusCode := 503; Body_Close := None |}
       else inl {| StatusCode := 200; Body_Close := None |} |}.

(** The world in which nothing fails and every replica is healthy. *)
Definition calm : World := world [] [] [].

(** A package whose address helper goes on with an empty host and the
    port 0 when the address does not parse. *)
Definition zeroing : Package :=
  {| DefaultLogLevel := "info";
     FrontendComponentKind := "frontend";
     malformedAddr := fun _ nodeId =>
       net.JoinHostPort "" (strconv.Itoa (0 + nodeId)) |}.

Definition roots : WorkingDirs :=
  {| LogsDir := "/d/logs"; PidsDir := "/d/pids" |}.

Definition metaCfg : config.MetaSrv.t :=
  {| config.MetaSrv.Replicas := 2;
     config.MetaSrv.BindAddr := "";
     config.MetaSrv.HTTPAddr := "127.0.0.1:4000";
     config.MetaSrv.StoreAddr := "127.0.0.1:2379";
     config.MetaSrv.ServerAddr := "0.0.0.0:3002";
     config.MetaSrv.LogLevel := "";
     config.MetaSrv.Config := "" |}.

Definition meta (mem : bool) : metaSrv.t :=
  {| metaSrv.config := metaCfg;
     metaSrv.workingDirs := roots;
     metaSrv.useMemoryMeta := mem |}.

Definition frontCfg : config.Frontend.t :=
  {| config.Frontend.Replicas := 2;
     config.Frontend.HTTPAddr := "127.0.0.1:4000";
     config.Frontend.GRPCAddr := "127.0.0.1:4001";
     config.Frontend.MysqlAddr := "127.0.0.1:4002";
     config.Frontend.PostgresAddr := "127.0.0.1:4003";
     config.Frontend.LogLevel := "debug";
     config.Frontend.Config := "";
     config.Frontend.UserProvider := "" |}.

Definition front : frontend.t :=
  {| frontend.config := frontCfg;
     frontend.metaSrvAddr := "127.0.0.1:3002";
     frontend.workingDirs := roots |}.

(** A frontend with no replica, and a metasrv with a negative count. *)
Definition idleFront : frontend.t :=
  {| frontend.config :=
       {| config.Frontend.Replicas := 0;
          config.Frontend.HTTPAddr := "127.0.0.1:4000";
          config.Frontend.GRPCAddr := "";
          config.Frontend.MysqlAddr := "";
          config.Frontend.PostgresAddr := "";
          config.Frontend.LogLevel := "";
          config.Frontend.Config := "/etc/frontend.toml";
          config.Frontend.UserProvider := "static_user_provider" |};
     frontend.metaSrvAddr := "127.0.0.1:3002";
     frontend.workingDirs := roots |}.

Definition idleMeta : metaSrv.t :=
  {| metaSrv.config :=
       {| config.MetaSrv.Replicas := -1;
          config.MetaSrv.BindAddr := "";
          config.MetaSrv.HTTPAddr := "127.0.0.1:4000";
          config.MetaSrv.StoreAddr := "";
          config.MetaSrv.ServerAddr := "";
          config.MetaSrv.LogLevel := "";
          config.MetaSrv.Config := "" |};
     metaSrv.workingDirs := roots;
     metaSrv.useMemoryMeta := false |}.

(** A world in which the first replica of the metasrv never gets
    healthy. *)
Definition stuck : World := world [] [] ["http://localhost:4000/health"].

(** A world in which the replicas get healthy after the first request:
    the first GET is answered 503, every later one 200. *)
Definition warming : World :=
  {| path_Join := fun a b => a ++ "/" ++ b;
     EnsureDir_result := fun _ _ => None;
     runBinary_result := fun _ _ => None;
     Get_result := fun h _ =>
       match gets h with
       | [] => inl {| StatusCode := 503; Body_Close := None |}
       | _ :: _ => inl {| StatusCode := 200; Body_Close := None |}
       end |}.

(** A component that has not started anything yet. *)
Definition fresh : State :=
  {| dirs := {| logsDirs := []; pidsDirs := [] |}; effects := [] |}.

(** The context is cancelled and no tick is waiting. *)
Definition cancelled : selectEnv :=
  {| tickReady := false;
     ctxErr := Some (errorString "context canceled");
     pickTick := false |}.

(** The context is cancelled, a tick is waiting, and the runtime picks the
    tick. *)
Definition cancelledLate : selectEnv :=
  {| tickReady := true;
     ctxErr := Some (errorString "context canceled");
     pickTick := true |}.

(** A tick is waiting and the context is live. *)
Definition ticked : selectEnv :=
  {| tickReady := true; ctxErr := None; pickTick := false |}.

End example.


(* ================================================================== *)
(** * Facts about the library functions *)

Module GoStringFacts.

Lemma hasByte_String a s c :
  hasByte (String a s) c = Ascii.eqb a c || hasByte s c.
Proof.
  unfold hasByte; simpl.
  destruct (Ascii.eqb a c); [reflexivity|].
  destruct (IndexByteString s c); reflexivity.
Qed.

Lemma hasByte_app s t c : hasByte (s ++ t) c = hasByte s c || hasByte t c.
Proof.
  induction s as [|a s IH]; [reflexivity|].
  simpl. rewrite !hasByte_String, IH. apply orb_assoc.
Qed.

Lemma IndexByteString_app_absent s t c :
  hasByte s c = false ->
  IndexByteString (s ++ t) c
  = option_map (Nat.add (String.length s)) (IndexByteString t c).
Proof.
  induction s as [|a s IH]; simpl; intros Hs.
  - destruct (IndexByteString t c); reflexivity.
  - rewrite hasByte_String in Hs. apply orb_false_elim in Hs as [Ha Hs].
    rewrite Ha, (IH Hs). destruct (IndexByteString t c); reflexivity.
Qed.

Lemma LastIndexByteString_absent s c :
  hasByte s c = false -> LastIndexByteString s c = None.
Proof.
  induction s as [|a s IH]; simpl; [reflexivity|].
  rewrite hasByte_String. intros H. apply orb_false_elim in H as [Ha Hs].
  rewrite (IH Hs), Ha. reflexivity.
Qed.

(** The last [c] of [s ++ c :: t] is the one in the middle when [t] has
    none. *)
Lemma LastIndexByteString_middle s t c :
  hasByte t c = false ->
  LastIndexByteString (s ++ String c t) c = Some (String.length s).
Proof.
  intros Ht. induction s as [|a s IH]; simpl.
  - rewrite (LastIndexByteString_absent _ _ Ht), Ascii.eqb_refl. reflexivity.
  - rewrite IH. reflexivity.
Qed.

Lemma upto_app s t : upto (String.length s) (s ++ t) = s.
Proof. induction s as [|a s IH]; simpl; [destruct t|rewrite IH]; reflexivity. Qed.

Lemma from_app s t : from (String.length s) (s ++ t) = t.
Proof. induction s as [|a s IH]; simpl; [destruct t|]; auto. Qed.

Lemma length_app s t :
  String.length (s ++ t) = (String.length s + String.length t)%nat.
Proof. induction s as [|a s IH]; simpl; [|rewrite IH]; reflexivity. Qed.

Lemma hasByte_upto n s c : hasByte s c = false -> hasByte (upto n s) c = false.
Proof.
  revert s; induction n as [|n IH]; intros [|a s]; simpl; try reflexivity.
  rewrite !hasByte_String. intros H. apply orb_false_elim in H as [Ha Hs].
  rewrite Ha, (IH _ Hs). reflexivity.
Qed.

Lemma hasByte_from n s c : hasByte s c = false -> hasByte (from n s) c = false.
Proof.
  revert s; induction n as [|n IH]; intros [|a s]; simpl; try tauto.
  rewrite hasByte_String. intros H. apply orb_false_elim in H as [_ Hs]. auto.
Qed.

Lemma hasByte_from_le n k s c :
  hasByte (from n s) c = false -> hasByte (from (k + n) s) c = false.
Proof.
  revert s; induction n as [|n IH]; intros s.
  - rewrite Nat.add_0_r. destruct s; simpl; apply hasByte_from.
  - rewrite Nat.add_succ_r. destruct s as [|a s]; simpl; auto.
Qed.

(** Before its first occurrence there is no [c]. *)
Lemma hasByte_upto_Index s c e :
  IndexByteString s c = Some e -> hasByte (upto e s) c = false.
Proof.
  revert e; induction s as [|a s IH]; simpl; intros e; [discriminate|].
  destruct (Ascii.eqb a c) eqn:Ha.
  - intros [= <-]. reflexivity.
  - destruct (IndexByteString s c) as [e'|]; [|discriminate].
    intros [= <-]. simpl. rewrite hasByte_String, Ha. simpl. auto.
Qed.

(** After its last occurrence there is no [c]. *)
Lemma hasByte_from_LastIndex s c i :
  LastIndexByteString s c = Some i -> hasByte (from (S i) s) c = false.
Proof.
  revert i; induction s as [|a s IH]; simpl; intros i; [discriminate|].
  destruct (LastIndexByteString s c) as [j|] eqn:Hj.
  - intros [= <-]. auto.
  - destruct (Ascii.eqb a c); [|discriminate]. intros [= <-].
    simpl. clear IH. induction s as [|b s IH]; [reflexivity|].
    simpl in Hj. rewrite hasByte_String.
    destruct (LastIndexByteString s c); [discriminate|].
    destruct (Ascii.eqb b c); [discriminate|]. simpl. auto.
Qed.

End GoStringFacts.

Module netFacts.
Import GoStringFacts net.

Lemma byteAt0_app_bracket host rest :
  hasByte host "[" = false ->
  isByte (byteAt 0 (host ++ String ":" rest)) "[" = false.
Proof.
  destruct host as [|a host]; [reflexivity|].
  rewrite hasByte_String. intros H. apply orb_false_elim in H as [Ha _].
  exact Ha.
Qed.

Lemma append_assoc (a b c : string) : (a ++ b) ++ c = a ++ (b ++ c).
Proof. induction a as [|x a IH]; simpl; [|rewrite IH]; reflexivity. Qed.

Lemma from_cons n a s : from (S n) (String a s) = from n s.
Proof. reflexivity. Qed.

Lemma from_0 s : from 0 s = s.
Proof. destruct s; reflexivity. Qed.

Lemma from_S_app s c t : from (S (String.length s)) (s ++ String c t) = t.
Proof. induction s as [|a s IH]; simpl; [destruct t|]; auto. Qed.

Lemma from_SS_app s c d t :
  from (S (S (String.length s))) (s ++ String c (String d t)) = t.
Proof. induction s as [|a s IH]; simpl; [destruct t|]; auto. Qed.

(** [SplitHostPort] undoes [JoinHostPort]. *)
Lemma SplitHostPort_JoinHostPort host port :
  plainHost host -> plainPort port ->
  SplitHostPort (JoinHostPort host port) = (host, port, None).
Proof.
  intros [Hl Hr] (Hc & Hpl & Hpr). unfold JoinHostPort.
  destruct (hasByte host ":") eqn:Hcolon.
  - (* a literal IPv6 address, in brackets *)
    change ("[" ++ host ++ "]:" ++ port)
      with (String "[" (host ++ String "]" (String ":" port))).
    unfold SplitHostPort.
    replace (LastIndexByteString
               (String "[" (host ++ String "]" (String ":" port))) ":")
      with (Some (S (S (String.length host)))).
    2:{ change (String "[" (host ++ String "]" (String ":" port)))
          with ("[" ++ (host ++ ("]" ++ String ":" port))).
        rewrite <- !append_assoc.
        rewrite (LastIndexByteString_middle _ _ _ Hc).
        rewrite !length_app. simpl. f_equal. lia. }
    simpl isByte. cbv iota.
    replace (IndexByteString
               (String "[" (host ++ String "]" (String ":" port))) "]")
      with (Some (S (String.length host))).
    2:{ simpl. rewrite (IndexByteString_app_absent _ _ _ Hr). simpl.
        rewrite Nat.add_0_r. reflexivity. }
    replace (Nat.eqb (S (S (String.length host)))
               (String.length
                  (String "[" (host ++ String "]" (String ":" port)))))
      with false.
    2:{ symmetry. apply Nat.eqb_neq. simpl. rewrite length_app. simpl. lia. }
    rewrite Nat.eqb_refl. unfold splitTail, slice.
    rewrite !from_cons, from_0, from_S_app, from_SS_app.
    rewrite !hasByte_app, !hasByte_String, Hl, Hpl, Hpr. simpl.
    rewrite Nat.sub_0_r, upto_app. reflexivity.
  - (* a host name or an IPv4 address *)
    change (host ++ ":" ++ port) with (host ++ String ":" port).
    unfold SplitHostPort.
    rewrite (LastIndexByteString_middle _ _ _ Hc).
    rewrite (byteAt0_app_bracket _ _ Hl). cbv zeta.
    rewrite upto_app, Hcolon. unfold splitTail.
    rewrite from_0, from_S_app.
    rewrite !hasByte_app, !hasByte_String, Hl, Hr, Hpl, Hpr. reflexivity.
Qed.

(** What [SplitHostPort] accepts has a host free of brackets and a port
    free of colons and brackets. *)
Lemma SplitHostPort_plain hostport host port :
  SplitHostPort hostport = (host, port, None) ->
  plainHost host /\ plainPort port.
Proof.
  unfold SplitHostPort, plainHost, plainPort.
  destruct (LastIndexByteString hostport ":") as [i|] eqn:Hi; [|discriminate].
  pose proof (hasByte_from_LastIndex _ _ Hi) as Hport.
  destruct (isByte (byteAt 0 hostport) "[") eqn:Hb.
  - destruct (IndexByteString hostport "]") as [e|] eqn:He; [|discriminate].
    destruct (Nat.eqb (S e) (String.length hostport)); [discriminate|].
    destruct (Nat.eqb (S e) i) eqn:Hei.
    2:{ destruct (isByte (byteAt (S e) hostport) ":"); discriminate. }
    apply Nat.eqb_eq in Hei. subst i. unfold splitTail.
    destruct (hasByte (from 1 hostport) "[") eqn:H1; [discriminate|].
    destruct (hasByte (from (S e) hostport) "]") eqn:H2; [discriminate|].
    intros [= <- <-]. unfold slice.
    repeat split.
    + apply hasByte_upto, H1.
    + destruct hostport as [|a s]; [discriminate|].
      rewrite from_cons, from_0.
      simpl in He. destruct (Ascii.eqb a "]") eqn:Ha.
      * injection He as <-. reflexivity.
      * destruct (IndexByteString s "]") as [e'|] eqn:He'; [|discriminate].
        injection He as <-. simpl. rewrite Nat.sub_0_r.
        apply hasByte_upto_Index, He'.
    + exact Hport.
    + apply (hasByte_from_le 1 (S e)) in H1.
      replace (S e + 1)%nat with (S (S e)) in H1 by lia. exact H1.
    + apply (hasByte_from_le (S e) 1) in H2. exact H2.
  - cbv zeta. destruct (hasByte (upto i hostport) ":"); [discriminate|].
    unfold splitTail. rewrite from_0.
    destruct (hasByte hostport "[") eqn:H1; [discriminate|].
    destruct (hasByte hostport "]") eqn:H2; [discriminate|].
    intros E.
    assert (host = upto i hostport) as -> by congruence.
    assert (port = from (S i) hostport) as -> by congruence.
    repeat split;
      solve [exact Hport | auto using hasByte_upto, hasByte_from].
Qed.

End netFacts.

Module strconvFacts.
Import GoStringFacts netFacts strconv.

(** A string of decimal digits has no byte outside ["0"] .. ["9"]. *)
Lemma string_of_uint_hasByte d c :
  uint_of_char c (Some Nil) = None ->
  hasByte (NilEmpty.string_of_uint d) c = false.
Proof.
  intros Hc. induction d; simpl; [reflexivity|..];
    rewrite hasByte_String, IHd, orb_false_r;
    match goal with
    | |- Ascii.eqb ?a c = false =>
        destruct (Ascii.eqb_spec a c) as [<-|]; [discriminate|reflexivity]
    end.
Qed.

Lemma Itoa_hasByte n c :
  uint_of_char c (Some Nil) = None -> c <> "-"%char ->
  hasByte (Itoa n) c = false.
Proof.
  intros Hc Hm. unfold Itoa.
  destruct (Z.to_int n) as [d|d]; simpl.
  - apply string_of_uint_hasByte, Hc.
  - rewrite hasByte_String, (string_of_uint_hasByte _ _ Hc), orb_false_r.
    apply Ascii.eqb_neq. congruence.
Qed.

(** The text of a number is a port that [SplitHostPort] accepts. *)
Lemma Itoa_plainPort n : plainPort (Itoa n).
Proof. repeat split; apply Itoa_hasByte; (reflexivity || discriminate). Qed.

Lemma digits_string_of_uint d :
  d <> Nil -> digits (NilEmpty.string_of_uint d) = Some (Z.of_uint d).
Proof.
  intros Hd. unfold digits. rewrite NilEmpty.usu.
  destruct d; simpl; congruence.
Qed.

(** The first byte of a number without sign is a digit. *)
Lemma string_of_uint_head d :
  d <> Nil ->
  exists a r, NilEmpty.string_of_uint d = String a r /\
              Ascii.eqb a "-" = false /\ Ascii.eqb a "+" = false.
Proof. destruct d; simpl; try congruence; eauto. Qed.

(** [Atoi] reads back what [Itoa] writes. *)
Lemma Atoi_Itoa n : minInt <= n <= maxInt -> Atoi (Itoa n) = Some n.
Proof.
  intros Hn.
  assert (Hr : inRange (Some n) = Some n).
  { unfold inRange. destruct (Z.leb_spec minInt n); [|lia].
    destruct (Z.leb_spec n maxInt); [reflexivity|lia]. }
  unfold Itoa. destruct n as [|p|p]; simpl Z.to_int.
  - exact Hr.
  - pose proof (Unsigned.to_uint_nonnil p) as Hnil.
    destruct (string_of_uint_head Hnil) as (a & r & E & Hm & Hp).
    simpl NilEmpty.string_of_int. unfold Atoi. rewrite E, Hm, Hp, <- E.
    rewrite (digits_string_of_uint Hnil).
    unfold Z.of_uint. rewrite Unsigned.of_to. exact Hr.
  - pose proof (Unsigned.to_uint_nonnil p) as Hnil.
    simpl. rewrite (digits_string_of_uint Hnil).
    unfold Z.of_uint. rewrite Unsigned.of_to. exact Hr.
Qed.

End strconvFacts.

(* ================================================================== *)
(** * The address helpers *)

Section AddressHelpers.
Context `{Package}.
Import GoStringFacts netFacts strconvFacts.

Lemma FormatAddrArg_parsesAs addr host p i :
  parsesAs addr host p ->
  FormatAddrArg addr i = net.JoinHostPort host (strconv.Itoa (p + i)).
Proof.
  intros (port & Hs & Ha). unfold FormatAddrArg. rewrite Hs, Ha. reflexivity.
Qed.

(** A host and a port number written as [host:port] make a valid
    address. *)
Lemma JoinHostPort_parsesAs host p :
  plainHost host -> strconv.minInt <= p <= strconv.maxInt ->
  parsesAs (net.JoinHostPort host (strconv.Itoa p)) host p.
Proof.
  intros Hh Hp. exists (strconv.Itoa p). split.
  - apply SplitHostPort_JoinHostPort; [exact Hh|apply Itoa_plainPort].
  - apply Atoi_Itoa, Hp.
Qed.

Lemma parsesAs_plainHost addr host p : parsesAs addr host p -> plainHost host.
Proof. intros (port & Hs & _). apply (SplitHostPort_plain _ Hs). Qed.

(** C5. For a valid [host:port] address, of host [host] and port number
    [p], and a replica index [i], [GenerateAddrArg flag addr i args] is
    [args] followed by the one element [flag=host:(p+i)], and
    [FormatAddrArg addr i] is that [host:(p+i)]: the host joined to the
    decimal text of [p + i] (in brackets for a literal IPv6 host, with a
    plain colon otherwise), which is again a valid address of the same
    host and of the port number [p + i]. *)
Theorem GenerateAddrArg_valid flag addr host p i args :
  parsesAs addr host p ->
  GenerateAddrArg flag addr i args
  = (args ++
     [(flag ++ "=" ++ net.JoinHostPort host (strconv.Itoa (p + i)))%string])%list
  /\ FormatAddrArg addr i = net.JoinHostPort host (strconv.Itoa (p + i))
  /\ (hasByte host ":" = false ->
      FormatAddrArg addr i = host ++ ":" ++ strconv.Itoa (p + i))
  /\ (strconv.minInt <= p + i <= strconv.maxInt ->
      parsesAs (FormatAddrArg addr i) host (p + i)).
Proof.
  intros Hv. pose proof (FormatAddrArg_parsesAs i Hv) as E.
  unfold GenerateAddrArg, append. rewrite E. repeat split.
  - intros Hc. unfold net.JoinHostPort. rewrite Hc. reflexivity.
  - intros Hr. apply JoinHostPort_parsesAs; [|exact Hr].
    apply (parsesAs_plainHost Hv).
Qed.

End AddressHelpers.


(* ================================================================== *)
(** * Bookkeeping of states and effects *)

Lemma since_nil s : since s [] = s.
Proof. destruct s. unfold since. simpl. rewrite app_nil_r. reflexivity. Qed.

Lemma since_since s a b : since (since s a) b = since s (a ++ b)%list.
Proof. unfold since. simpl. rewrite app_assoc. reflexivity. Qed.

Lemma grown_grown s a l p b l' p' :
  grown (grown s a l p) b l' p'
  = grown s (a ++ b)%list (l ++ l')%list (p ++ p')%list.
Proof. unfold grown. simpl. rewrite !app_assoc. reflexivity. Qed.

Lemma grown_nil s : grown s [] [] [] = s.
Proof.
  destruct s as [[l p] h]. unfold grown. simpl. rewrite !app_nil_r.
  reflexivity.
Qed.

Lemma since_grown s new : since s new = grown s new [] [].
Proof.
  destruct s as [[l p] h]. unfold since, grown. simpl. rewrite !app_nil_r.
  reflexivity.
Qed.

Lemma gets_app a b : gets (a ++ b)%list = (gets a ++ gets b)%list.
Proof. apply flat_map_app. Qed.

Lemma ensured_app a b : ensured (a ++ b)%list = (ensured a ++ ensured b)%list.
Proof. apply flat_map_app. Qed.

Lemma spawned_app a b : spawned (a ++ b)%list = (spawned a ++ spawned b)%list.
Proof. apply flat_map_app. Qed.

Lemma gets_probed url i n : gets (probed url i n) = map url (indices i n).
Proof.
  revert i; induction n as [|n IH]; intros i; [reflexivity|].
  simpl. f_equal. apply IH.
Qed.

Lemma probed_S url i n :
  probed url i (S n)
  = Get_ (url i) :: Close_ (url i) :: probed url (i + 1) n.
Proof. reflexivity. Qed.

Lemma probed_isProbeEvent url i n :
  forallb isProbeEvent (probed url i n) = true.
Proof.
  revert i; induction n as [|n IH]; intros i; [reflexivity|].
  rewrite probed_S. simpl. apply IH.
Qed.

(* ================================================================== *)
(** * The loop of [IsRunning] *)

(** Both loops probe the replicas in turn and stop at the first that is
    not healthy.  The section proves what follows from that for any loop
    with the three unfoldings [loop_O], [loop_ok] and [loop_bad]; the two
    components are instances of it. *)
Section ProbeLoop.
Context `{World}.
Variables (parses : Z -> bool) (url : Z -> string).
Variable loop : nat -> Z -> M bool.

Hypothesis loop_O : forall i s, loop O i s = (true, s).

Hypothesis loop_ok : forall n i s,
  healthyAt parses url (effects s) i = true ->
  loop (S n) i s = loop n (i + 1) (since s [Get_ (url i); Close_ (url i)]).

Hypothesis loop_bad : forall n i s,
  healthyAt parses url (effects s) i = false ->
  exists new,
    loop (S n) i s = (false, since s new) /\
    gets new = (if parses i then [url i] else []) /\
    forallb isProbeEvent new = true.

Lemma turn_O s i : turn parses url s i O = healthyAt parses url (effects s) i.
Proof. unfold turn. simpl. rewrite app_nil_r, Z.add_0_r. reflexivity. Qed.

Lemma turn_S s i k :
  turn parses url s i (S k) = turn parses url (since s [Get_ (url i); Close_ (url i)]) (i + 1) k.
Proof.
  unfold turn. rewrite probed_S. simpl effects.
  rewrite <- app_assoc. simpl app.
  replace (i + Z.of_nat (S k)) with (i + 1 + Z.of_nat k) by lia.
  reflexivity.
Qed.

Lemma loop_all_healthy n : forall i s,
  (forall k, (k < n)%nat -> turn parses url s i k = true) ->
  loop n i s = (true, since s (probed url i n)).
Proof.
  induction n as [|n IH]; intros i s Hall.
  - rewrite loop_O. simpl. rewrite since_nil. reflexivity.
  - rewrite loop_ok by (rewrite <- turn_O; apply Hall; lia).
    rewrite IH.
    + rewrite since_since. reflexivity.
    + intros k Hk. rewrite <- turn_S. apply Hall. lia.
Qed.

Lemma loop_first_unhealthy n : forall i s k,
  (k < n)%nat ->
  (forall j, (j < k)%nat -> turn parses url s i j = true) ->
  turn parses url s i k = false ->
  exists new,
    loop n i s = (false, since s (probed url i k ++ new)%list) /\
    gets new = (if parses (i + Z.of_nat k) then [url (i + Z.of_nat k)] else []) /\
    forallb isProbeEvent new = true.
Proof.
  induction n as [|n IH]; intros i s k Hk Hbefore Hbad; [lia|].
  destruct k as [|k].
  - rewrite turn_O in Hbad.
    destruct (loop_bad n i s Hbad) as (new & E & Hg & Hp).
    exists new. simpl. rewrite Z.add_0_r. auto.
  - rewrite loop_ok by (rewrite <- turn_O; apply Hbefore; lia).
    destruct (IH (i + 1) (since s [Get_ (url i); Close_ (url i)]) k)
      as (new & E & Hg & Hp).
    + lia.
    + intros j Hj. rewrite <- turn_S. apply Hbefore. lia.
    + rewrite <- turn_S. exact Hbad.
    + exists new. rewrite E, since_since.
      replace (i + 1 + Z.of_nat k) with (i + Z.of_nat (S k)) in Hg by lia.
      auto.
Qed.

Lemma loop_true_iff n : forall i s,
  fst (loop n i s) = true <-> (forall k, (k < n)%nat -> turn parses url s i k = true).
Proof.
  induction n as [|n IH]; intros i s.
  - rewrite loop_O. simpl. split; [intros _ k Hk; lia|reflexivity].
  - destruct (healthyAt parses url (effects s) i) eqn:Hi.
    + rewrite (loop_ok n i s Hi), IH. split.
      * intros Hall [|k] Hk; [rewrite turn_O; exact Hi|].
        rewrite turn_S. apply Hall. lia.
      * intros Hall k Hk. rewrite <- turn_S. apply Hall. lia.
    + destruct (loop_bad n i s Hi) as (new & E & _). rewrite E. simpl.
      split; [discriminate|].
      intros Hall. specialize (Hall O ltac:(lia)).
      rewrite turn_O in Hall. congruence.
Qed.

(** A check only probes: whatever its result, it adds effects of probes
    and leaves the directories as they are. *)
Lemma loop_frame n : forall i s,
  exists new,
    snd (loop n i s) = since s new /\ forallb isProbeEvent new = true.
Proof.
  induction n as [|n IH]; intros i s.
  - exists []. rewrite loop_O, since_nil. auto.
  - destruct (healthyAt parses url (effects s) i) eqn:Hi.
    + rewrite (loop_ok n i s Hi).
      destruct (IH (i + 1) (since s [Get_ (url i); Close_ (url i)]))
        as (new & E & Hp).
      exists ([Get_ (url i); Close_ (url i)] ++ new)%list.
      rewrite E, since_since. auto.
    + destruct (loop_bad n i s Hi) as (new & E & _ & Hp).
      exists new. rewrite E. auto.
Qed.

(** The requests of a check are those of the replicas in turn, from the
    first one on; a check that returns true has made all of them. *)
Lemma loop_gets n : forall i s,
  exists k,
    (k <= n)%nat /\
    gets (effects (snd (loop n i s)))
    = (gets (effects s) ++ map url (indices i k))%list /\
    (fst (loop n i s) = true -> k = n).
Proof.
  induction n as [|n IH]; intros i s.
  - exists O. rewrite loop_O. simpl. rewrite app_nil_r. auto.
  - destruct (healthyAt parses url (effects s) i) eqn:Hi.
    + rewrite (loop_ok n i s Hi).
      destruct (IH (i + 1) (since s [Get_ (url i); Close_ (url i)]))
        as (k & Hk & Hg & Ht).
      exists (S k). split; [lia|]. split.
      * rewrite Hg. simpl effects. rewrite gets_app, <- app_assoc.
        reflexivity.
      * intros Hr. f_equal. auto.
    + destruct (loop_bad n i s Hi) as (new & E & Hg & _). rewrite E.
      simpl fst. simpl snd. simpl effects. rewrite gets_app, Hg.
      destruct (parses i).
      * exists 1%nat. split; [lia|]. split; [reflexivity|discriminate].
      * exists O. split; [lia|]. split; [reflexivity|discriminate].
Qed.

End ProbeLoop.

(** ** The two components are such loops *)

Section Components.
Context `{World} `{Package}.

(** Unfolds the monad in a goal about one turn of a loop. *)
Ltac run :=
  cbv [bind ret emit ask http.Get http.Close Infof fileutils.EnsureDir
       runBinary append_logsDirs append_pidsDirs time.NewTicker time.Stop];
  cbn [fst snd effects dirs].

Lemma frontend_loop_O (f : frontend.t) i s :
  frontend.IsRunning_from f O i s = (true, s).
Proof. reflexivity. Qed.

Lemma frontend_loop_ok (f : frontend.t) n i s :
  healthyAt (fun _ => true) (frontend_url f) (effects s) i = true ->
  frontend.IsRunning_from f (S n) i s
  = frontend.IsRunning_from f n (i + 1)
      (since s [Get_ (frontend_url f i); Close_ (frontend_url f i)]).
Proof.
  unfold healthyAt, healthy. simpl andb. intros Hi.
  cbn [frontend.IsRunning_from]. fold (frontend_url f i). run.
  destruct (Get_result (effects s) (frontend_url f i)) as [rsp|e];
    [|discriminate].
  apply andb_prop in Hi as [Hs Hc]. rewrite Hs. cbn [negb].
  destruct (Body_Close rsp); [discriminate|].
  unfold since. cbn [effects dirs]. rewrite <- app_assoc. reflexivity.
Qed.

Lemma frontend_loop_bad (f : frontend.t) n i s :
  healthyAt (fun _ => true) (frontend_url f) (effects s) i = false ->
  exists new,
    frontend.IsRunning_from f (S n) i s = (false, since s new) /\
    gets new = [frontend_url f i] /\
    forallb isProbeEvent new = true.
Proof.
  unfold healthyAt, healthy. simpl andb. intros Hi.
  cbn [frontend.IsRunning_from]. fold (frontend_url f i). run.
  destruct (Get_result (effects s) (frontend_url f i)) as [rsp|e].
  - destruct (StatusCode rsp =? StatusOK); cbn [negb].
    + destruct (Body_Close rsp) as [err|]; [|discriminate].
      eexists. split; [|split].
      * unfold since. cbn [effects dirs]. rewrite <- !app_assoc. reflexivity.
      * reflexivity.
      * reflexivity.
    + eexists. split; [|split].
      * unfold since. cbn [effects dirs]. rewrite <- !app_assoc. reflexivity.
      * reflexivity.
      * reflexivity.
  - eexists. split; [|split].
    + unfold since. cbn [effects dirs]. rewrite <- !app_assoc. reflexivity.
    + reflexivity.
    + reflexivity.
Qed.

Lemma metaSrv_loop_O (m : metaSrv.t) i s :
  metaSrv.IsRunning_from m O i s = (true, s).
Proof. reflexivity. Qed.

Lemma metaSrv_loop_ok (m : metaSrv.t) n i s :
  healthyAt (metaSrv_parses m) (metaSrv_url m) (effects s) i = true ->
  metaSrv.IsRunning_from m (S n) i s
  = metaSrv.IsRunning_from m n (i + 1)
      (since s [Get_ (metaSrv_url m i); Close_ (metaSrv_url m i)]).
Proof.
  unfold healthyAt, healthy, metaSrv_parses, metaSrv_url. intros Hi.
  cbn [metaSrv.IsRunning_from]. fold (metaSrv_split m i).
  destruct (metaSrv_split m i) as [[host port] [err|]]; [discriminate|].
  cbn [fst snd andb] in *. run.
  destruct (Get_result (effects s) _) as [rsp|e]; [|discriminate].
  apply andb_prop in Hi as [Hs Hc]. rewrite Hs. cbn [negb].
  destruct (Body_Close rsp); [discriminate|].
  unfold since. cbn [effects dirs]. rewrite <- app_assoc. reflexivity.
Qed.

Lemma metaSrv_loop_bad (m : metaSrv.t) n i s :
  healthyAt (metaSrv_parses m) (metaSrv_url m) (effects s) i = false ->
  exists new,
    metaSrv.IsRunning_from m (S n) i s = (false, since s new) /\
    gets new = (if metaSrv_parses m i then [metaSrv_url m i] else []) /\
    forallb isProbeEvent new = true.
Proof.
  unfold healthyAt, healthy, metaSrv_parses, metaSrv_url. intros Hi.
  cbn [metaSrv.IsRunning_from]. fold (metaSrv_split m i).
  destruct (metaSrv_split m i) as [[host port] [err|]];
    cbn [fst snd andb] in *; run.
  - eexists. split; [reflexivity|]. split; reflexivity.
  - destruct (Get_result (effects s) _) as [rsp|e].
    + destruct (StatusCode rsp =? StatusOK); cbn [negb].
      * destruct (Body_Close rsp) as [err|]; [|discriminate].
        eexists. split; [|split].
        -- unfold since. cbn [effects dirs]. rewrite <- !app_assoc.
           reflexivity.
        -- reflexivity.
        -- reflexivity.
      * eexists. split; [|split]; reflexivity.
    + eexists. split; [|split].
      * unfold since. cbn [effects dirs]. rewrite <- !app_assoc. reflexivity.
      * reflexivity.
      * reflexivity.
Qed.

End Components.

(* ================================================================== *)
(** * [IsRunning] *)

Lemma indices_snoc n : forall i,
  indices i (S n) = (indices i n ++ [i + Z.of_nat n])%list.
Proof.
  induction n as [|n IH]; intros i.
  - simpl. rewrite Z.add_0_r. reflexivity.
  - change (indices i (S (S n))) with (i :: indices (i + 1) (S n)).
    rewrite IH. simpl. do 3 f_equal. lia.
Qed.

Section IsRunning.
Context `{World} `{Package}.

(** The facts of the section [ProbeLoop], for the two components. *)
Lemma frontend_true_iff (f : frontend.t) n i s :
  fst (frontend.IsRunning_from f n i s) = true <->
  (forall k, (k < n)%nat -> turn (fun _ => true) (frontend_url f) s i k = true).
Proof.
  exact (loop_true_iff (fun _ => true) (frontend_url f)
           (frontend.IsRunning_from f) (frontend_loop_O f)
           (frontend_loop_ok f) (frontend_loop_bad f) n i s).
Qed.

Lemma frontend_first_unhealthy (f : frontend.t) n i s k :
  (k < n)%nat ->
  (forall j, (j < k)%nat ->
     turn (fun _ => true) (frontend_url f) s i j = true) ->
  turn (fun _ => true) (frontend_url f) s i k = false ->
  exists new,
    frontend.IsRunning_from f n i s
    = (false, since s (probed (frontend_url f) i k ++ new)%list) /\
    gets new = [frontend_url f (i + Z.of_nat k)] /\
    forallb isProbeEvent new = true.
Proof.
  exact (@loop_first_unhealthy _ (fun _ => true) (frontend_url f)
           (frontend.IsRunning_from f) (frontend_loop_ok f)
           (frontend_loop_bad f) n i s k).
Qed.

Lemma frontend_gets (f : frontend.t) n i s :
  exists k,
    (k <= n)%nat /\
    gets (effects (snd (frontend.IsRunning_from f n i s)))
    = (gets (effects s) ++ map (frontend_url f) (indices i k))%list /\
    (fst (frontend.IsRunning_from f n i s) = true -> k = n).
Proof.
  exact (loop_gets (fun _ => true) (frontend_url f)
           (frontend.IsRunning_from f) (frontend_loop_O f)
           (frontend_loop_ok f) (frontend_loop_bad f) n i s).
Qed.

Lemma frontend_frame (f : frontend.t) n i s :
  exists new,
    snd (frontend.IsRunning_from f n i s) = since s new /\
    forallb isProbeEvent new = true.
Proof.
  exact (loop_frame (fun _ => true) (frontend_url f)
           (frontend.IsRunning_from f) (frontend_loop_O f)
           (frontend_loop_ok f) (frontend_loop_bad f) n i s).
Qed.

Lemma metaSrv_true_iff (m : metaSrv.t) n i s :
  fst (metaSrv.IsRunning_from m n i s) = true <->
  (forall k, (k < n)%nat ->
     turn (metaSrv_parses m) (metaSrv_url m) s i k = true).
Proof.
  exact (loop_true_iff (metaSrv_parses m) (metaSrv_url m)
           (metaSrv.IsRunning_from m) (metaSrv_loop_O m)
           (metaSrv_loop_ok m) (metaSrv_loop_bad m) n i s).
Qed.

Lemma metaSrv_first_unhealthy (m : metaSrv.t) n i s k :
  (k < n)%nat ->
  (forall j, (j < k)%nat ->
     turn (metaSrv_parses m) (metaSrv_url m) s i j = true) ->
  turn (metaSrv_parses m) (metaSrv_url m) s i k = false ->
  exists new,
    metaSrv.IsRunning_from m n i s
    = (false, since s (probed (metaSrv_url m) i k ++ new)%list) /\
    gets new = (if metaSrv_parses m (i + Z.of_nat k)
                then [metaSrv_url m (i + Z.of_nat k)] else []) /\
    forallb isProbeEvent new = true.
Proof.
  exact (@loop_first_unhealthy _ (metaSrv_parses m) (metaSrv_url m)
           (metaSrv.IsRunning_from m) (metaSrv_loop_ok m)
           (metaSrv_loop_bad m) n i s k).
Qed.

Lemma metaSrv_gets (m : metaSrv.t) n i s :
  exists k,
    (k <= n)%nat /\
    gets (effects (snd (metaSrv.IsRunning_from m n i s)))
    = (gets (effects s) ++ map (metaSrv_url m) (indices i k))%list /\
    (fst (metaSrv.IsRunning_from m n i s) = true -> k = n).
Proof.
  exact (loop_gets (metaSrv_parses m) (metaSrv_url m)
           (metaSrv.IsRunning_from m) (metaSrv_loop_O m)
           (metaSrv_loop_ok m) (metaSrv_loop_bad m) n i s).
Qed.

Lemma metaSrv_frame (m : metaSrv.t) n i s :
  exists new,
    snd (metaSrv.IsRunning_from m n i s) = since s new /\
    forallb isProbeEvent new = true.
Proof.
  exact (loop_frame (metaSrv_parses m) (metaSrv_url m)
           (metaSrv.IsRunning_from m) (metaSrv_loop_O m)
           (metaSrv_loop_ok m) (metaSrv_loop_bad m) n i s).
Qed.

(** C1. For both components and every replica count, [IsRunning] returns
    true if and only if every replica, probed in its turn, is healthy: its
    health endpoint answers 200 with a body that closes without error (and,
    for the metasrv, its address splits into host and port).  The first
    replica [k] that is not healthy makes the check return false at once:
    the requests made are those of the replicas before [k] and the one of
    [k] (none for [k] when its address does not split), whatever the later
    replicas would answer. *)
Theorem IsRunning_iff_all_healthy (f : frontend.t) (m : metaSrv.t) (s : State) :
  (fst (frontend.IsRunning f s) = true <->
   forall k, (k < Z.to_nat (config.Frontend.Replicas (frontend.config f)))%nat ->
     turn (fun _ => true) (frontend_url f) s 0 k = true)
  /\
  (forall k, (k < Z.to_nat (config.Frontend.Replicas (frontend.config f)))%nat ->
     (forall j, (j < k)%nat ->
        turn (fun _ => true) (frontend_url f) s 0 j = true) ->
     turn (fun _ => true) (frontend_url f) s 0 k = false ->
     fst (frontend.IsRunning f s) = false /\
     gets (effects (snd (frontend.IsRunning f s)))
     = (gets (effects s) ++ map (frontend_url f) (indices 0 (S k)))%list)
  /\
  (fst (metaSrv.IsRunning m s) = true <->
   forall k, (k < Z.to_nat (config.MetaSrv.Replicas (metaSrv.config m)))%nat ->
     turn (metaSrv_parses m) (metaSrv_url m) s 0 k = true)
  /\
  (forall k, (k < Z.to_nat (config.MetaSrv.Replicas (metaSrv.config m)))%nat ->
     (forall j, (j < k)%nat ->
        turn (metaSrv_parses m) (metaSrv_url m) s 0 j = true) ->
     turn (metaSrv_parses m) (metaSrv_url m) s 0 k = false ->
     fst (metaSrv.IsRunning m s) = false /\
     gets (effects (snd (metaSrv.IsRunning m s)))
     = (gets (effects s) ++
        map (metaSrv_url m)
          (indices 0 (if metaSrv_parses m (Z.of_nat k) then S k else k)))%list).
Proof.
  unfold frontend.IsRunning, metaSrv.IsRunning.
  split; [apply frontend_true_iff|]. split.
  { intros k Hk Hbefore Hbad.
    destruct (frontend_first_unhealthy f 0 s Hk Hbefore Hbad)
      as (new & E & Hg & Hp).
    rewrite E. split; [reflexivity|]. cbn [fst snd effects since].
    rewrite !gets_app, gets_probed, Hg, indices_snoc, map_app. reflexivity. }
  split; [apply metaSrv_true_iff|].
  intros k Hk Hbefore Hbad.
  destruct (metaSrv_first_unhealthy m 0 s Hk Hbefore Hbad)
    as (new & E & Hg & Hp).
  rewrite E. split; [reflexivity|]. cbn [fst snd effects since].
  rewrite !Z.add_0_l in Hg. rewrite !gets_app, gets_probed, Hg.
  destruct (metaSrv_parses m (Z.of_nat k)).
  - rewrite indices_snoc, map_app. reflexivity.
  - rewrite app_nil_r. reflexivity.
Qed.


Lemma metaSrv_split_valid (m : metaSrv.t) host p i :
  parsesAs (config.MetaSrv.HTTPAddr (metaSrv.config m)) host p ->
  metaSrv_split m i = (host, strconv.Itoa (p + i), None).
Proof.
  intros Hv. unfold metaSrv_split. rewrite (FormatAddrArg_parsesAs i Hv).
  apply netFacts.SplitHostPort_JoinHostPort.
  - apply (parsesAs_plainHost Hv).
  - apply strconvFacts.Itoa_plainPort.
Qed.

Lemma metaSrv_url_valid (m : metaSrv.t) host p i :
  parsesAs (config.MetaSrv.HTTPAddr (metaSrv.config m)) host p ->
  metaSrv_url m i = "http://localhost:" ++ strconv.Itoa (p + i) ++ "/health".
Proof.
  intros Hv. unfold metaSrv_url. rewrite (metaSrv_split_valid m i Hv).
  reflexivity.
Qed.


End IsRunning.

(* ================================================================== *)
(** * The loop of [Start] *)

Section Launch.
Context `{World}.
Variables (logDir pidDir : Z -> string) (opt : Z -> RunOptions.t).

Ltac run :=
  cbv [bind ret emit ask http.Get http.Close Infof fileutils.EnsureDir
       runBinary append_logsDirs append_pidsDirs time.NewTicker time.Stop];
  cbn [fst snd effects dirs].

Ltac proj := cbn [fst snd effects dirs logsDirs pidsDirs].

Lemma launched_S i n :
  launched logDir pidDir opt i (S n)
  = (steps logDir pidDir opt i ++ launched logDir pidDir opt (i + 1) n)%list.
Proof. reflexivity. Qed.

(** One replica launched without error. *)
Lemma launch_step n i s :
  EnsureDir_result (effects s) (logDir i) = None ->
  EnsureDir_result (effects s ++ [EnsureDir_ (logDir i)]) (pidDir i) = None ->
  runBinary_result
    (effects s ++ [EnsureDir_ (logDir i); EnsureDir_ (pidDir i)]) (opt i)
  = None ->
  launch logDir pidDir opt (S n) i s
  = launch logDir pidDir opt n (i + 1)
      (grown s (steps logDir pidDir opt i) [logDir i] [pidDir i]).
Proof.
  intros H1 H2 H3. cbn [launch]. run.
  change [EnsureDir_ (logDir i); EnsureDir_ (pidDir i)]
    with ([EnsureDir_ (logDir i)] ++ [EnsureDir_ (pidDir i)])%list in H3.
  rewrite app_assoc in H3.
  rewrite H1. proj. rewrite H2. proj. rewrite H3. proj.
  unfold grown, steps, append. proj.
  rewrite <- !app_assoc. reflexivity.
Qed.

(** The three ways a replica fails to launch. *)
Lemma launch_logDirFailed n i s e :
  EnsureDir_result (effects s) (logDir i) = Some e ->
  launch logDir pidDir opt (S n) i s
  = (Some e, grown s [EnsureDir_ (logDir i)] [] []).
Proof.
  intros H1. cbn [launch]. run. rewrite H1. unfold grown. proj.
  rewrite !app_nil_r. destruct s as [[l p] h]. reflexivity.
Qed.

Lemma launch_pidDirFailed n i s e :
  EnsureDir_result (effects s) (logDir i) = None ->
  EnsureDir_result (effects s ++ [EnsureDir_ (logDir i)]) (pidDir i) = Some e ->
  launch logDir pidDir opt (S n) i s
  = (Some e,
     grown s [EnsureDir_ (logDir i); EnsureDir_ (pidDir i)] [logDir i] []).
Proof.
  intros H1 H2. cbn [launch]. run. rewrite H1. proj. rewrite H2.
  unfold grown, append. proj. rewrite !app_nil_r, <- app_assoc. reflexivity.
Qed.

Lemma launch_spawnFailed n i s e :
  EnsureDir_result (effects s) (logDir i) = None ->
  EnsureDir_result (effects s ++ [EnsureDir_ (logDir i)]) (pidDir i) = None ->
  runBinary_result
    (effects s ++ [EnsureDir_ (logDir i); EnsureDir_ (pidDir i)]) (opt i)
  = Some e ->
  launch logDir pidDir opt (S n) i s
  = (Some e, grown s (steps logDir pidDir opt i) [logDir i] [pidDir i]).
Proof.
  intros H1 H2 H3. cbn [launch]. run.
  change [EnsureDir_ (logDir i); EnsureDir_ (pidDir i)]
    with ([EnsureDir_ (logDir i)] ++ [EnsureDir_ (pidDir i)])%list in H3.
  rewrite app_assoc in H3.
  rewrite H1. proj. rewrite H2. proj. rewrite H3.
  unfold grown, steps, append. proj. rewrite <- !app_assoc. reflexivity.
Qed.

(** The loop launches some replicas and then ends in one of four ways. *)
Lemma launch_cases n : forall i s,
  exists k g,
    launch logDir pidDir opt n i s = ended logDir pidDir opt s i k g /\
    causes logDir pidDir opt
      (effects s ++ launched logDir pidDir opt i k) (i + Z.of_nat k) g /\
    match g with allLaunched => k = n | _ => (k < n)%nat end.
Proof.
  induction n as [|n IH]; intros i s.
  - exists O, allLaunched. simpl. rewrite grown_nil. auto.
  - destruct (EnsureDir_result (effects s) (logDir i)) as [e|] eqn:H1.
    { exists O, (logDirFailed e). unfold ended, causes. simpl launched.
      simpl indices. simpl map. rewrite grown_nil, app_nil_r, Z.add_0_r.
      split; [|split; [exact H1|lia]]. apply launch_logDirFailed, H1. }
    destruct (EnsureDir_result (effects s ++ [EnsureDir_ (logDir i)])
                (pidDir i)) as [e|] eqn:H2.
    { exists O, (pidDirFailed e). unfold ended, causes. simpl launched.
      simpl indices. simpl map. rewrite grown_nil, app_nil_r, Z.add_0_r.
      split; [|split; [exact H2|lia]]. apply launch_pidDirFailed; trivial. }
    destruct (runBinary_result
                (effects s ++ [EnsureDir_ (logDir i); EnsureDir_ (pidDir i)])
                (opt i)) as [e|] eqn:H3.
    { exists O, (spawnFailed e). unfold ended, causes. simpl launched.
      simpl indices. simpl map. rewrite grown_nil, app_nil_r, Z.add_0_r.
      split; [|split; [exact H3|lia]]. apply launch_spawnFailed; trivial. }
    rewrite (launch_step n i s H1 H2 H3).
    destruct (IH (i + 1)
                (grown s (steps logDir pidDir opt i) [logDir i] [pidDir i]))
      as (k & g & E & Hc & Hk).
    exists (S k), g. rewrite E. clear E IH.
    unfold ended. cbv zeta.
    replace (i + Z.of_nat (S k)) with (i + 1 + Z.of_nat k) by lia.
    split; [|split].
    + rewrite launched_S. cbn [indices map].
      rewrite !grown_grown. reflexivity.
    + rewrite launched_S, app_assoc. exact Hc.
    + destruct g; lia.
Qed.

(** The loop makes the requests of its replicas in order and ends at the
    first error, which is its result. *)
Lemma launch_attempt n : forall i s,
  fst (launch logDir pidDir opt n i s)
  = fst (attempt (effects s) (launched logDir pidDir opt i n)) /\
  effects (snd (launch logDir pidDir opt n i s))
  = snd (attempt (effects s) (launched logDir pidDir opt i n)).
Proof.
  induction n as [|n IH]; intros i s; [simpl; auto|].
  rewrite launched_S. unfold steps at 1. simpl app. simpl attempt.
  destruct (EnsureDir_result (effects s) (logDir i)) as [e|] eqn:H1.
  { rewrite (launch_logDirFailed n i s H1). auto. }
  destruct (EnsureDir_result (effects s ++ [EnsureDir_ (logDir i)])
              (pidDir i)) as [e|] eqn:H2.
  { rewrite (launch_pidDirFailed n i s H1 H2). simpl.
    rewrite <- app_assoc. auto. }
  assert (Hh : ((effects s ++ [EnsureDir_ (logDir i)]) ++
                [EnsureDir_ (pidDir i)])%list
               = (effects s ++
                  [EnsureDir_ (logDir i); EnsureDir_ (pidDir i)])%list)
    by (rewrite <- app_assoc; reflexivity).
  rewrite Hh.
  destruct (runBinary_result
              (effects s ++ [EnsureDir_ (logDir i); EnsureDir_ (pidDir i)])
              (opt i)) as [e|] eqn:H3.
  { rewrite (launch_spawnFailed n i s H1 H2 H3). simpl.
    unfold steps. rewrite <- app_assoc. auto. }
  rewrite (launch_step n i s H1 H2 H3).
  destruct (IH (i + 1)
              (grown s (steps logDir pidDir opt i) [logDir i] [pidDir i]))
    as [E1 E2].
  rewrite E1, E2. simpl. unfold steps. rewrite <- !app_assoc. auto.
Qed.

(** What [attempt] returns as an error is the answer to the last request
    it made; the requests before it were answered without error. *)
Lemma attempt_Some script : forall h e h',
  attempt h script = (Some e, h') ->
  exists before last rest,
    script = (before ++ last :: rest)%list /\
    h' = (h ++ before ++ [last])%list /\
    answer (h ++ before) last = Some e /\
    attempt h before = (None, (h ++ before)%list).
Proof.
  induction script as [|ev script IH]; intros h e h'; simpl; [discriminate|].
  destruct (answer h ev) as [e0|] eqn:Ha.
  - intros [= <- <-]. exists [], ev, script. simpl.
    rewrite app_nil_r. auto.
  - intros Hrest. destruct (IH _ _ _ Hrest) as (b & l & r & -> & -> & Hl & Hb).
    exists (ev :: b), l, r. simpl. rewrite Ha.
    rewrite <- !app_assoc in *. simpl in *. auto.
Qed.

Lemma attempt_None script : forall h h',
  attempt h script = (None, h') -> h' = (h ++ script)%list.
Proof.
  induction script as [|ev script IH]; intros h h'; simpl.
  - intros [= <-]. rewrite app_nil_r. reflexivity.
  - destruct (answer h ev); [discriminate|].
    intros Hrest. rewrite (IH _ _ Hrest), <- app_assoc. reflexivity.
Qed.

(** [attempt] over two scripts in a row. *)
Lemma attempt_app a : forall h b,
  attempt h (a ++ b)
  = match attempt h a with
    | (None, h') => attempt h' b
    | (Some e, h') => (Some e, h')
    end.
Proof.
  induction a as [|ev a IH]; intros h b; simpl; [reflexivity|].
  destruct (answer h ev); [reflexivity|apply IH].
Qed.

Lemma attempt_fst_None script h :
  fst (attempt h script) = None ->
  attempt h script = (None, (h ++ script)%list).
Proof.
  destruct (attempt h script) as [[e|] h'] eqn:E; simpl; [discriminate|].
  intros _. rewrite (attempt_None _ _ E). reflexivity.
Qed.

Lemma attempt_app_None a b h :
  fst (attempt h (a ++ b)) = None ->
  fst (attempt h a) = None /\ fst (attempt (h ++ a) b) = None.
Proof.
  rewrite attempt_app.
  destruct (attempt h a) as [[e|] h'] eqn:E; simpl; [discriminate|].
  rewrite (attempt_None _ _ E). auto.
Qed.

Lemma attempt_steps h i :
  fst (attempt h (steps logDir pidDir opt i)) = None ->
  EnsureDir_result h (logDir i) = None /\
  EnsureDir_result (h ++ [EnsureDir_ (logDir i)]) (pidDir i) = None /\
  runBinary_result (h ++ [EnsureDir_ (logDir i); EnsureDir_ (pidDir i)])
    (opt i) = None.
Proof.
  unfold steps. simpl.
  destruct (EnsureDir_result h (logDir i)); [discriminate|].
  destruct (EnsureDir_result (h ++ [EnsureDir_ (logDir i)]) (pidDir i));
    [discriminate|].
  rewrite <- app_assoc. simpl.
  destruct (runBinary_result _ (opt i)); [discriminate|]. auto.
Qed.

(** While the requests are answered without error the loop goes on: after
    [k] replicas it is at replica [i + k], with their directories held. *)
Lemma launch_reaches k : forall n i s,
  (k <= n)%nat ->
  fst (attempt (effects s) (launched logDir pidDir opt i k)) = None ->
  launch logDir pidDir opt n i s
  = launch logDir pidDir opt (n - k) (i + Z.of_nat k)
      (grown s (launched logDir pidDir opt i k)
         (map logDir (indices i k)) (map pidDir (indices i k))).
Proof.
  induction k as [|k IH]; intros n i s Hk Ha.
  - simpl. rewrite grown_nil, Z.add_0_r, Nat.sub_0_r. reflexivity.
  - destruct n as [|n]; [lia|]. rewrite launched_S in Ha.
    apply attempt_app_None in Ha as [Hs Hr].
    apply attempt_steps in Hs as (H1 & H2 & H3).
    rewrite (launch_step n i s H1 H2 H3).
    rewrite (IH n (i + 1)
               (grown s (steps logDir pidDir opt i) [logDir i] [pidDir i]));
      [|lia|exact Hr].
    rewrite grown_grown, launched_S. cbn [indices map app Nat.sub].
    replace (i + 1 + Z.of_nat k) with (i + Z.of_nat (S k)) by lia.
    reflexivity.
Qed.

(** The loop ends as the answers of the world say: what [launch_cases]
    finds, from the other side. *)
Lemma launch_ends n k g i s :
  match g with allLaunched => k = n | _ => (k < n)%nat end ->
  fst (attempt (effects s)
         (launched logDir pidDir opt i k ++
          before logDir pidDir g (i + Z.of_nat k))) = None ->
  causes logDir pidDir opt
    (effects s ++ launched logDir pidDir opt i k) (i + Z.of_nat k) g ->
  launch logDir pidDir opt n i s = ended logDir pidDir opt s i k g.
Proof.
  intros Hk Ha Hc. apply attempt_app_None in Ha as [Hl Hb].
  rewrite (@launch_reaches k n i s); [|destruct g; lia|exact Hl].
  unfold ended. cbv zeta.
  destruct g as [|e|e|e]; simpl in Hc, Hb.
  - subst k. rewrite Nat.sub_diag. reflexivity.
  - destruct (n - k)%nat as [|r] eqn:En; [lia|].
    apply launch_logDirFailed. exact Hc.
  - destruct (n - k)%nat as [|r] eqn:En; [lia|].
    apply launch_pidDirFailed; [|exact Hc].
    cbn [grown effects].
    destruct (EnsureDir_result _ (logDir (i + Z.of_nat k)));
      [discriminate|reflexivity].
  - destruct (n - k)%nat as [|r] eqn:En; [lia|].
    cbn [grown effects] in *.
    destruct (EnsureDir_result
                (effects s ++ launched logDir pidDir opt i k)
                (logDir (i + Z.of_nat k))) eqn:H1; [discriminate|].
    destruct (EnsureDir_result
                ((effects s ++ launched logDir pidDir opt i k) ++
                 [EnsureDir_ (logDir (i + Z.of_nat k))])
                (pidDir (i + Z.of_nat k))) eqn:H2; [discriminate|].
    apply launch_spawnFailed; cbn [grown effects]; assumption.
Qed.

End Launch.

(** ** The two [Start]s run that loop *)

Section StartLoops.
Context `{World} `{Package}.

Lemma frontend_Start_from_launch (f : frontend.t) binary n : forall i s,
  frontend.Start_from f binary n i s
  = launch (frontend_logDir f) (frontend_pidDir f) (frontend_opt f binary)
      n i s.
Proof.
  induction n as [|n IH]; intros i s; [reflexivity|].
  cbn [frontend.Start_from launch].
  unfold frontend_logDir, frontend_pidDir, frontend_opt. cbv [bind].
  destruct (fileutils.EnsureDir _ s) as [[e|] s1]; [reflexivity|].
  destruct (append_logsDirs _ s1) as [[] s2].
  destruct (fileutils.EnsureDir _ s2) as [[e|] s3]; [reflexivity|].
  destruct (append_pidsDirs _ s3) as [[] s4].
  destruct (runBinary _ s4) as [[e|] s5]; [reflexivity|].
  apply IH.
Qed.

Lemma metaSrv_Start_from_launch (m : metaSrv.t) binary n : forall i s,
  metaSrv.Start_from m binary (metaSrv.bindAddrOf m) n i s
  = launch (metaSrv_logDir m) (metaSrv_pidDir m) (metaSrv_opt m binary) n i s.
Proof.
  induction n as [|n IH]; intros i s; [reflexivity|].
  cbn [metaSrv.Start_from launch].
  unfold metaSrv_logDir, metaSrv_pidDir, metaSrv_opt. cbv [bind].
  destruct (fileutils.EnsureDir _ s) as [[e|] s1]; [reflexivity|].
  destruct (append_logsDirs _ s1) as [[] s2].
  destruct (fileutils.EnsureDir _ s2) as [[e|] s3]; [reflexivity|].
  destruct (append_pidsDirs _ s3) as [[] s4].
  destruct (runBinary _ s4) as [[e|] s5]; [reflexivity|].
  apply IH.
Qed.

(** ** The readiness loop of the metasrv *)

Lemma isProbeEvent_isPollEvent new :
  forallb isProbeEvent new = true -> forallb isPollEvent new = true.
Proof.
  induction new as [|e new IH]; simpl; [reflexivity|].
  intros Hp. apply andb_prop in Hp as [He Hn]. rewrite (IH Hn).
  destruct e; try discriminate; reflexivity.
Qed.

Lemma poll_events_quiet new :
  forallb isPollEvent new = true -> ensured new = [] /\ spawned new = [].
Proof.
  induction new as [|e new IH]; simpl; [auto|].
  intros Hp. apply andb_prop in Hp as [He Hn].
  destruct (IH Hn) as [E1 E2]. destruct e; try discriminate; simpl; auto.
Qed.

Lemma metaSrv_IsRunning_frame (m : metaSrv.t) s :
  exists new,
    snd (metaSrv.IsRunning m s) = since s new /\
    forallb isProbeEvent new = true.
Proof. apply metaSrv_frame. Qed.

(** One turn of the loop [CHECKER], by what the [select] takes. *)
Lemma CHECKER_tick (m : metaSrv.t) s0 sel s :
  select s0 = Some tick ->
  metaSrv.CHECKER m (s0 :: sel) s
  = (let (up, s') := metaSrv.IsRunning m (since s [select_ tick]) in
     if up then (Returned None, s') else metaSrv.CHECKER m sel s').
Proof.
  intros Hs. cbn [metaSrv.CHECKER]. rewrite Hs. cbv [bind emit ret].
  fold (since s [select_ tick]).
  destruct (metaSrv.IsRunning m (since s [select_ tick])) as [[|] s'];
    reflexivity.
Qed.

Lemma CHECKER_done (m : metaSrv.t) s0 sel s e :
  select s0 = Some (done e) ->
  metaSrv.CHECKER m (s0 :: sel) s
  = (Returned (Some (Errorf_v "status checking failed: " e)),
     since s [select_ (done e)]).
Proof. intros Hs. cbn [metaSrv.CHECKER]. rewrite Hs. reflexivity. Qed.

Lemma CHECKER_blocked (m : metaSrv.t) s0 sel s :
  select s0 = None -> metaSrv.CHECKER m (s0 :: sel) s = (Blocked, s).
Proof. intros Hs. cbn [metaSrv.CHECKER]. rewrite Hs. reflexivity. Qed.

(** The loop only polls. *)
Lemma CHECKER_frame (m : metaSrv.t) sel : forall s,
  exists polls,
    snd (metaSrv.CHECKER m sel s) = since s polls /\
    forallb isPollEvent polls = true.
Proof.
  induction sel as [|s0 sel IH]; intros s.
  - exists []. simpl. rewrite since_nil. auto.
  - destruct (select s0) as [[|e]|] eqn:Hs.
    + rewrite (CHECKER_tick m s0 sel s Hs).
      destruct (metaSrv_IsRunning_frame m (since s [select_ tick]))
        as (new & E & Hp).
      destruct (metaSrv.IsRunning m (since s [select_ tick])) as [up s'].
      simpl in E. subst s'. apply isProbeEvent_isPollEvent in Hp.
      destruct up.
      * exists (select_ tick :: new). simpl. rewrite since_since. auto.
      * destruct (IH (since (since s [select_ tick]) new)) as (polls & E & Hq).
        exists ((select_ tick :: new) ++ polls)%list.
        rewrite E, !since_since. simpl. rewrite forallb_app, Hp, Hq.
        auto.
    + rewrite (CHECKER_done m s0 sel s Hs). exists [select_ (done e)]. auto.
    + rewrite (CHECKER_blocked m s0 sel s Hs). exists []. simpl.
      rewrite since_nil. auto.
Qed.

(** How the loop returns: with nil after a [select] that took the tick
    and a check that returned true, or with the error of a [select] that
    took the cancellation. *)
Lemma CHECKER_Returned (m : metaSrv.t) sel : forall s r s',
  metaSrv.CHECKER m sel s = (Returned r, s') ->
  (r = None /\
   exists polls,
     forallb isPollEvent polls = true /\
     metaSrv.IsRunning m (since s (polls ++ [select_ tick])) = (true, s'))
  \/
  (exists e polls,
     r = Some (Errorf_v "status checking failed: " e) /\
     forallb isPollEvent polls = true /\
     s' = since s (polls ++ [select_ (done e)])).
Proof.
  induction sel as [|s0 sel IH]; intros s r s'; [discriminate|].
  destruct (select s0) as [[|e]|] eqn:Hs.
  - rewrite (CHECKER_tick m s0 sel s Hs).
    destruct (metaSrv_IsRunning_frame m (since s [select_ tick]))
      as (new & E & Hp).
    destruct (metaSrv.IsRunning m (since s [select_ tick])) as [up s1] eqn:Hr.
    simpl in E. apply isProbeEvent_isPollEvent in Hp. destruct up.
    + intros [= <- <-]. left. split; [reflexivity|]. exists []. auto.
    + intros Hc. subst s1. destruct (IH _ _ _ Hc) as
        [[-> (polls & Hq & Hi)]|(e & polls & -> & Hq & ->)].
      * left. split; [reflexivity|].
        exists ((select_ tick :: new) ++ polls)%list. split.
        -- simpl. rewrite forallb_app, Hp, Hq. reflexivity.
        -- rewrite !since_since in Hi. simpl in *.
           rewrite <- !app_assoc. exact Hi.
      * right. exists e, ((select_ tick :: new) ++ polls)%list.
        split; [reflexivity|]. split.
        -- simpl. rewrite forallb_app, Hp, Hq. reflexivity.
        -- rewrite !since_since. simpl. rewrite <- !app_assoc. reflexivity.
  - rewrite (CHECKER_done m s0 sel s Hs). intros [= <- <-]. right.
    exists e, []. auto.
  - rewrite (CHECKER_blocked m s0 sel s Hs). discriminate.
Qed.

(** Turns that take a tick and find the component not running lead the
    loop from [s] to [waited]. *)
Lemma CHECKER_waited (m : metaSrv.t) pre : forall rest s,
  Forall (fun o => select o = Some tick) pre ->
  (forall j, (j < List.length pre)%nat ->
     fst (metaSrv.IsRunning m (since (waited m j s) [select_ tick])) = false) ->
  metaSrv.CHECKER m (pre ++ rest) s
  = metaSrv.CHECKER m rest (waited m (List.length pre) s).
Proof.
  induction pre as [|o pre IH]; intros rest s Ht Hd; [reflexivity|].
  inversion Ht as [|? ? Ho Hpre]; subst.
  change ((o :: pre) ++ rest)%list with (o :: (pre ++ rest))%list.
  cbn [List.length waited].
  rewrite (CHECKER_tick m o (pre ++ rest) s Ho).
  pose proof (Hd O ltac:(simpl; lia)) as Hfirst. cbn [waited] in Hfirst.
  destruct (metaSrv.IsRunning m (since s [select_ tick])) as [up s'] eqn:Er.
  simpl in Hfirst. subst up. cbn [snd].
  apply IH; [exact Hpre|].
  intros j Hj. specialize (Hd (S j) ltac:(simpl; lia)).
  cbn [waited] in Hd. rewrite Er in Hd. exact Hd.
Qed.

End StartLoops.

(* ================================================================== *)
(** * [Start] *)

Lemma ensured_launched logDir pidDir opt n : forall i,
  ensured (launched logDir pidDir opt i n)
  = flat_map (fun j => [logDir j; pidDir j]) (indices i n).
Proof.
  induction n as [|n IH]; intros i; [reflexivity|].
  simpl. f_equal. f_equal. apply IH.
Qed.

Lemma spawned_launched logDir pidDir opt n : forall i,
  spawned (launched logDir pidDir opt i n) = map opt (indices i n).
Proof.
  induction n as [|n IH]; intros i; [reflexivity|].
  simpl. f_equal. apply IH.
Qed.

Lemma launched_isLaunchEvent logDir pidDir opt n : forall i,
  forallb isLaunchEvent (launched logDir pidDir opt i n) = true.
Proof.
  induction n as [|n IH]; intros i; [reflexivity|].
  change (launched logDir pidDir opt i (S n))
    with (steps logDir pidDir opt i ++ launched logDir pidDir opt (i + 1) n)%list.
  rewrite forallb_app, IH. reflexivity.
Qed.

Lemma indices_length n : forall i, List.length (indices i n) = n.
Proof. induction n as [|n IH]; intros i; simpl; [|rewrite IH]; reflexivity. Qed.

Lemma nth_error_indices n : forall i j,
  (j < n)%nat -> nth_error (indices i n) j = Some (i + Z.of_nat j).
Proof.
  induction n as [|n IH]; intros i j Hj; [lia|].
  destruct j as [|j]; simpl.
  - rewrite Z.add_0_r. reflexivity.
  - rewrite IH by lia. f_equal. lia.
Qed.

Lemma launched_snoc logDir pidDir opt i k :
  launched logDir pidDir opt i (S k)
  = (launched logDir pidDir opt i k ++
     steps logDir pidDir opt (i + Z.of_nat k))%list.
Proof.
  unfold launched. rewrite indices_snoc, flat_map_app. f_equal.
Qed.

Section Start.
Context `{World} `{Package}.

(** [metaSrv.Start] is its first loop, then the ticker and the readiness
    loop, then the deferred [Stop]. *)
Lemma metaSrv_Start_unfold (m : metaSrv.t) sel binary s :
  metaSrv.Start m sel binary s
  = (let (err, s1) :=
       launch (metaSrv_logDir m) (metaSrv_pidDir m) (metaSrv_opt m binary)
         (Z.to_nat (config.MetaSrv.Replicas (metaSrv.config m))) 0 s in
     match err with
     | Some e => (Returned (Some e), s1)
     | None =>
         let (r, s2) :=
           metaSrv.CHECKER m sel
             (since s1 [NewTicker_ (500 * time.Millisecond)]) in
         match r with
         | Returned e => (Returned e, since s2 [Stop_])
         | Blocked => (Blocked, s2)
         end
     end).
Proof.
  unfold metaSrv.Start. cbv [bind]. rewrite metaSrv_Start_from_launch.
  destruct (launch _ _ _ _ 0 s) as [[e|] s1]; [reflexivity|].
  cbv [time.NewTicker emit]. fold (since s1 [NewTicker_ (500 * time.Millisecond)]).
  destruct (metaSrv.CHECKER m sel _) as [[r|] s2]; reflexivity.
Qed.

Lemma frontend_Start_launch (f : frontend.t) binary s :
  frontend.Start f binary s
  = launch (frontend_logDir f) (frontend_pidDir f) (frontend_opt f binary)
      (Z.to_nat (config.Frontend.Replicas (frontend.config f))) 0 s.
Proof. apply frontend_Start_from_launch. Qed.

(** In a world that never fails the loop runs to its end. *)
Lemma launch_neverFails logDir pidDir opt n i s :
  neverFails ->
  launch logDir pidDir opt n i s
  = (None,
     grown s (launched logDir pidDir opt i n)
       (map logDir (indices i n)) (map pidDir (indices i n))).
Proof.
  intros [Hd Hr].
  destruct (launch_cases logDir pidDir opt n i s) as (k & g & E & Hc & Hk).
  rewrite E. destruct g; simpl in Hc.
  - subst k. reflexivity.
  - rewrite Hd in Hc. discriminate.
  - rewrite Hd in Hc. discriminate.
  - rewrite Hr in Hc. discriminate.
Qed.

(** C3, as amended. In a world where no directory creation and no launch
    fails, [Start] of either component with [N] replicas ensures, for
    [i = 0 .. N-1] in this order, the log directory and the pid directory of
    replica [i], named [component.i] under the two roots, and then launches
    replica [i]: [N] log directories and [N] pid directories, each pair
    before the launch of its replica, and [allocatedDirs] gains these [N]
    pairs.  The readiness loop of the metasrv that follows ensures no
    directory and launches nothing. *)
Theorem Start_creates_directories (f : frontend.t) (m : metaSrv.t)
    sel binary s :
  neverFails ->
  (forall i,
     frontend_logDir f i
     = path_Join (LogsDir (frontend.workingDirs f))
         (frontend.Name f ++ "." ++ strconv.Itoa i) /\
     frontend_pidDir f i
     = path_Join (PidsDir (frontend.workingDirs f))
         (frontend.Name f ++ "." ++ strconv.Itoa i) /\
     metaSrv_logDir m i
     = path_Join (LogsDir (metaSrv.workingDirs m))
         ("metasrv." ++ strconv.Itoa i) /\
     metaSrv_pidDir m i
     = path_Join (PidsDir (metaSrv.workingDirs m))
         ("metasrv." ++ strconv.Itoa i))
  /\
  frontend.Start f binary s
  = (None,
     grown s
       (flat_map
          (fun i => [EnsureDir_ (frontend_logDir f i);
                     EnsureDir_ (frontend_pidDir f i);
                     runBinary_ (frontend_opt f binary i)])
          (indices 0 (Z.to_nat (config.Frontend.Replicas (frontend.config f)))))
       (map (frontend_logDir f)
          (indices 0 (Z.to_nat (config.Frontend.Replicas (frontend.config f)))))
       (map (frontend_pidDir f)
          (indices 0 (Z.to_nat (config.Frontend.Replicas (frontend.config f))))))
  /\
  exists polls,
    snd (metaSrv.Start m sel binary s)
    = grown s
        (flat_map
           (fun i => [EnsureDir_ (metaSrv_logDir m i);
                      EnsureDir_ (metaSrv_pidDir m i);
                      runBinary_ (metaSrv_opt m binary i)])
           (indices 0 (Z.to_nat (config.MetaSrv.Replicas (metaSrv.config m))))
         ++ NewTicker_ (500 * time.Millisecond) :: polls)
        (map (metaSrv_logDir m)
           (indices 0 (Z.to_nat (config.MetaSrv.Replicas (metaSrv.config m)))))
        (map (metaSrv_pidDir m)
           (indices 0 (Z.to_nat (config.MetaSrv.Replicas (metaSrv.config m)))))
    /\ ensured polls = [] /\ spawned polls = [].
Proof.
  intros Hw. split; [intros i; repeat split|]. split.
  - rewrite frontend_Start_launch. apply launch_neverFails, Hw.
  - rewrite metaSrv_Start_unfold, (launch_neverFails _ _ _ _ _ _ Hw).
    match goal with
    | |- context [metaSrv.CHECKER m sel ?s1] =>
        destruct (CHECKER_frame m sel s1) as (polls & E & Hp);
        destruct (metaSrv.CHECKER m sel s1) as [r s2]
    end.
    simpl in E. subst s2. destruct r as [r|].
    + exists (polls ++ [Stop_])%list. split.
      * rewrite !since_since, since_grown, grown_grown.
        rewrite !app_nil_r. reflexivity.
      * destruct (poll_events_quiet _ Hp) as [E1 E2].
        rewrite ensured_app, spawned_app, E1, E2. auto.
    + exists polls. split.
      * rewrite !since_since, since_grown, grown_grown.
        rewrite !app_nil_r. reflexivity.
      * apply poll_events_quiet, Hp.
Qed.

(** C8. [Start] of either component makes the requests of its replicas in
    order (log directory, pid directory, launch) and returns the first
    error a request is answered with, as it is, having made no request
    after it; for the metasrv that is a return before the readiness loop.
    [IsRunning] returns a boolean only: a replica that is not healthy in
    its turn, for a parse error, a transport error, a status other than 200
    or an error of closing the body, makes the result false, and the
    effects are those of probes. *)
Theorem Start_returns_first_error (f : frontend.t) (m : metaSrv.t)
    sel binary s :
  (fst (frontend.Start f binary s)
   = fst (attempt (effects s)
            (launched (frontend_logDir f) (frontend_pidDir f)
               (frontend_opt f binary) 0
               (Z.to_nat (config.Frontend.Replicas (frontend.config f))))) /\
   effects (snd (frontend.Start f binary s))
   = snd (attempt (effects s)
            (launched (frontend_logDir f) (frontend_pidDir f)
               (frontend_opt f binary) 0
               (Z.to_nat (config.Frontend.Replicas (frontend.config f))))))
  /\
  (forall e,
     fst (attempt (effects s)
            (launched (metaSrv_logDir m) (metaSrv_pidDir m)
               (metaSrv_opt m binary) 0
               (Z.to_nat (config.MetaSrv.Replicas (metaSrv.config m)))))
     = Some e ->
     fst (metaSrv.Start m sel binary s) = Returned (Some e) /\
     effects (snd (metaSrv.Start m sel binary s))
     = snd (attempt (effects s)
              (launched (metaSrv_logDir m) (metaSrv_pidDir m)
                 (metaSrv_opt m binary) 0
                 (Z.to_nat (config.MetaSrv.Replicas (metaSrv.config m))))))
  /\
  (forall k,
     (k < Z.to_nat (config.Frontend.Replicas (frontend.config f)))%nat ->
     (forall j, (j < k)%nat ->
        turn (fun _ => true) (frontend_url f) s 0 j = true) ->
     turn (fun _ => true) (frontend_url f) s 0 k = false ->
     exists new,
       frontend.IsRunning f s
       = (false, since s (probed (frontend_url f) 0 k ++ new)) /\
       forallb isProbeEvent new = true)
  /\
  (forall k,
     (k < Z.to_nat (config.MetaSrv.Replicas (metaSrv.config m)))%nat ->
     (forall j, (j < k)%nat ->
        turn (metaSrv_parses m) (metaSrv_url m) s 0 j = true) ->
     turn (metaSrv_parses m) (metaSrv_url m) s 0 k = false ->
     exists new,
       metaSrv.IsRunning m s
       = (false, since s (probed (metaSrv_url m) 0 k ++ new)) /\
       forallb isProbeEvent new = true).
Proof.
  split; [|split; [|split]].
  - rewrite frontend_Start_launch. apply launch_attempt.
  - intros e He. rewrite metaSrv_Start_unfold.
    destruct (launch_attempt (metaSrv_logDir m) (metaSrv_pidDir m)
                (metaSrv_opt m binary)
                (Z.to_nat (config.MetaSrv.Replicas (metaSrv.config m))) 0 s)
      as [E1 E2].
    destruct (launch _ _ _ _ 0 s) as [err s1]. simpl in E1, E2.
    rewrite <- E1 in He. subst err. simpl. auto.
  - intros k Hk Hb Hu.
    destruct (frontend_first_unhealthy f 0 s Hk Hb Hu) as (new & E & _ & Hp).
    exists new. auto.
  - intros k Hk Hb Hu.
    destruct (metaSrv_first_unhealthy m 0 s Hk Hb Hu) as (new & E & _ & Hp).
    exists new. auto.
Qed.

(** The directories a loop has appended when it ends. *)
Lemma launch_dirs logDir pidDir opt n i s :
  exists j j',
    (j' <= j <= n)%nat /\ (j <= S j')%nat /\
    logsDirs (dirs (snd (launch logDir pidDir opt n i s)))
    = (logsDirs (dirs s) ++ map logDir (indices i j))%list /\
    pidsDirs (dirs (snd (launch logDir pidDir opt n i s)))
    = (pidsDirs (dirs s) ++ map pidDir (indices i j'))%list /\
    (fst (launch logDir pidDir opt n i s) = None -> j = n /\ j' = n) /\
    (j = S j' ->
     exists e,
       fst (launch logDir pidDir opt n i s) = Some e /\
       EnsureDir_result
         ((effects s ++ launched logDir pidDir opt i j') ++
          [EnsureDir_ (logDir (i + Z.of_nat j'))])
         (pidDir (i + Z.of_nat j'))
       = Some e).
Proof.
  destruct (launch_cases logDir pidDir opt n i s) as (k & g & E & Hc & Hk).
  rewrite E. clear E.
  destruct g as [|e|e|e]; unfold ended; cbv zeta;
    cbn [fst snd dirs grown logsDirs pidsDirs]; simpl in Hc.
  - exists k, k. subst k. repeat split; lia.
  - exists k, k. rewrite !app_nil_r.
    repeat split; try lia; discriminate.
  - exists (S k), k. rewrite indices_snoc, map_app, !app_nil_r. simpl.
    rewrite <- !app_assoc.
    repeat split; try lia; try discriminate.
    intros _. exists e. split; [reflexivity|]. rewrite app_assoc. exact Hc.
  - exists (S k), (S k). rewrite indices_snoc, !map_app. simpl.
    rewrite <- !app_assoc.
    repeat split; try lia; discriminate.
Qed.

(** The readiness loop and the ticker leave the directories as the first
    loop left them, and an error of the first loop is the result. *)
Lemma metaSrv_Start_dirs (m : metaSrv.t) sel binary s :
  dirs (snd (metaSrv.Start m sel binary s))
  = dirs (snd (launch (metaSrv_logDir m) (metaSrv_pidDir m)
                 (metaSrv_opt m binary)
                 (Z.to_nat (config.MetaSrv.Replicas (metaSrv.config m))) 0 s))
  /\
  match fst (launch (metaSrv_logDir m) (metaSrv_pidDir m)
               (metaSrv_opt m binary)
               (Z.to_nat (config.MetaSrv.Replicas (metaSrv.config m))) 0 s)
  with
  | Some e => fst (metaSrv.Start m sel binary s) = Returned (Some e)
  | None => True
  end.
Proof.
  rewrite metaSrv_Start_unfold.
  destruct (launch _ _ _ _ 0 s) as [[e|] s1]; [simpl; auto|].
  match goal with
  | |- context [metaSrv.CHECKER m sel ?s1] =>
      destruct (CHECKER_frame m sel s1) as (polls & E & Hp);
      destruct (metaSrv.CHECKER m sel s1) as [r s2]
  end.
  simpl in E. subst s2. destruct r; simpl; auto.
Qed.

(** C9, as amended. During [Start] of either component [allocatedDirs]
    only grows: the entries held before stay in place, and the entries
    appended are the log directories of the replicas [0 .. j-1] and the pid
    directories of the replicas [0 .. j'-1], in index order, with
    [j' <= j <= j' + 1] and [j <= N].  After a [Start] whose first loop ran
    to its end (for the frontend: that returned nil), [j = j' = N]: one
    pair per replica.  [j = j' + 1] only when [Start] returned the error of
    ensuring the pid directory of replica [j']: then the log directory of
    that replica is held without its pid directory.  The readiness loop of
    the metasrv leaves [allocatedDirs] as the first loop left them.
    Which replica ends the loop, and how, is decided by the answers to the
    requests: when those of the replicas [0 .. k-1] and those of replica
    [k] before the failing one are answered without error, and the failing
    one with the error [e], the loop ends at replica [k] with that error,
    in the state [ended] gives: the pairs of the replicas [0 .. k-1], and
    of replica [k] nothing for its log directory, its log directory alone
    for its pid directory, and its pair for its launch; when no request
    fails, the pairs of all [N] replicas.  In particular an error of
    ensuring the pid directory of replica [k] leaves the log directories
    of [0 .. k] and the pid directories of [0 .. k-1]. *)
Theorem allocatedDirs_grow (f : frontend.t) (m : metaSrv.t) sel binary s :
  (exists j j',
     (j' <= j <= Z.to_nat (config.Frontend.Replicas (frontend.config f)))%nat /\
     (j <= S j')%nat /\
     logsDirs (dirs (snd (frontend.Start f binary s)))
     = (logsDirs (dirs s) ++ map (frontend_logDir f) (indices 0 j))%list /\
     pidsDirs (dirs (snd (frontend.Start f binary s)))
     = (pidsDirs (dirs s) ++ map (frontend_pidDir f) (indices 0 j'))%list /\
     (fst (frontend.Start f binary s) = None ->
      j = Z.to_nat (config.Frontend.Replicas (frontend.config f)) /\
      j' = Z.to_nat (config.Frontend.Replicas (frontend.config f))) /\
     (j = S j' ->
      exists e,
        fst (frontend.Start f binary s) = Some e /\
        EnsureDir_result
          ((effects s ++
            launched (frontend_logDir f) (frontend_pidDir f)
              (frontend_opt f binary) 0 j') ++
           [EnsureDir_ (frontend_logDir f (Z.of_nat j'))])
          (frontend_pidDir f (Z.of_nat j'))
        = Some e))
  /\
  (exists j j',
     (j' <= j <= Z.to_nat (config.MetaSrv.Replicas (metaSrv.config m)))%nat /\
     (j <= S j')%nat /\
     logsDirs (dirs (snd (metaSrv.Start m sel binary s)))
     = (logsDirs (dirs s) ++ map (metaSrv_logDir m) (indices 0 j))%list /\
     pidsDirs (dirs (snd (metaSrv.Start m sel binary s)))
     = (pidsDirs (dirs s) ++ map (metaSrv_pidDir m) (indices 0 j'))%list /\
     (fst (metaSrv.Start_from m binary (metaSrv.bindAddrOf m)
             (Z.to_nat (config.MetaSrv.Replicas (metaSrv.config m))) 0 s)
      = None ->
      j = Z.to_nat (config.MetaSrv.Replicas (metaSrv.config m)) /\
      j' = Z.to_nat (config.MetaSrv.Replicas (metaSrv.config m))) /\
     (j = S j' ->
      exists e,
        fst (metaSrv.Start m sel binary s) = Returned (Some e) /\
        EnsureDir_result
          ((effects s ++
            launched (metaSrv_logDir m) (metaSrv_pidDir m)
              (metaSrv_opt m binary) 0 j') ++
           [EnsureDir_ (metaSrv_logDir m (Z.of_nat j'))])
          (metaSrv_pidDir m (Z.of_nat j'))
        = Some e))
  /\
  (forall k g,
     match g with
     | allLaunched =>
         k = Z.to_nat (config.Frontend.Replicas (frontend.config f))
     | _ => (k < Z.to_nat (config.Frontend.Replicas (frontend.config f)))%nat
     end ->
     fst (attempt (effects s)
            (launched (frontend_logDir f) (frontend_pidDir f)
               (frontend_opt f binary) 0 k ++
             before (frontend_logDir f) (frontend_pidDir f) g (Z.of_nat k)))
     = None ->
     causes (frontend_logDir f) (frontend_pidDir f) (frontend_opt f binary)
       (effects s ++
        launched (frontend_logDir f) (frontend_pidDir f)
          (frontend_opt f binary) 0 k)
       (Z.of_nat k) g ->
     frontend.Start f binary s
     = ended (frontend_logDir f) (frontend_pidDir f) (frontend_opt f binary)
         s 0 k g /\
     logsDirs (dirs (snd (frontend.Start f binary s)))
     = (logsDirs (dirs s) ++
        map (frontend_logDir f)
          (indices 0
             (match g with
              | allLaunched | logDirFailed _ => k
              | pidDirFailed _ | spawnFailed _ => S k
              end)))%list /\
     pidsDirs (dirs (snd (frontend.Start f binary s)))
     = (pidsDirs (dirs s) ++
        map (frontend_pidDir f)
          (indices 0
             (match g with
              | allLaunched | logDirFailed _ | pidDirFailed _ => k
              | spawnFailed _ => S k
              end)))%list)
  /\
  (forall k e,
     (k < Z.to_nat (config.Frontend.Replicas (frontend.config f)))%nat ->
     fst (attempt (effects s)
            (launched (frontend_logDir f) (frontend_pidDir f)
               (frontend_opt f binary) 0 k ++
             [EnsureDir_ (frontend_logDir f (Z.of_nat k))]))
     = None ->
     EnsureDir_result
       ((effects s ++
         launched (frontend_logDir f) (frontend_pidDir f)
           (frontend_opt f binary) 0 k) ++
        [EnsureDir_ (frontend_logDir f (Z.of_nat k))])
       (frontend_pidDir f (Z.of_nat k))
     = Some e ->
     fst (frontend.Start f binary s) = Some e /\
     logsDirs (dirs (snd (frontend.Start f binary s)))
     = (logsDirs (dirs s) ++ map (frontend_logDir f) (indices 0 (S k)))%list /\
     pidsDirs (dirs (snd (frontend.Start f binary s)))
     = (pidsDirs (dirs s) ++ map (frontend_pidDir f) (indices 0 k))%list)
  /\
  (forall k g,
     match g with
     | allLaunched =>
         k = Z.to_nat (config.MetaSrv.Replicas (metaSrv.config m))
     | _ => (k < Z.to_nat (config.MetaSrv.Replicas (metaSrv.config m)))%nat
     end ->
     fst (attempt (effects s)
            (launched (metaSrv_logDir m) (metaSrv_pidDir m)
               (metaSrv_opt m binary) 0 k ++
             before (metaSrv_logDir m) (metaSrv_pidDir m) g (Z.of_nat k)))
     = None ->
     causes (metaSrv_logDir m) (metaSrv_pidDir m) (metaSrv_opt m binary)
       (effects s ++
        launched (metaSrv_logDir m) (metaSrv_pidDir m)
          (metaSrv_opt m binary) 0 k)
       (Z.of_nat k) g ->
     metaSrv.Start_from m binary (metaSrv.bindAddrOf m)
       (Z.to_nat (config.MetaSrv.Replicas (metaSrv.config m))) 0 s
     = ended (metaSrv_logDir m) (metaSrv_pidDir m) (metaSrv_opt m binary)
         s 0 k g /\
     dirs (snd (metaSrv.Start m sel binary s))
     = dirs (snd (ended (metaSrv_logDir m) (metaSrv_pidDir m)
                    (metaSrv_opt m binary) s 0 k g)) /\
     logsDirs (dirs (snd (metaSrv.Start m sel binary s)))
     = (logsDirs (dirs s) ++
        map (metaSrv_logDir m)
          (indices 0
             (match g with
              | allLaunched | logDirFailed _ => k
              | pidDirFailed _ | spawnFailed _ => S k
              end)))%list /\
     pidsDirs (dirs (snd (metaSrv.Start m sel binary s)))
     = (pidsDirs (dirs s) ++
        map (metaSrv_pidDir m)
          (indices 0
             (match g with
              | allLaunched | logDirFailed _ | pidDirFailed _ => k
              | spawnFailed _ => S k
              end)))%list /\
     match g with
     | allLaunched => True
     | logDirFailed e | pidDirFailed e | spawnFailed e =>
         fst (metaSrv.Start m sel binary s) = Returned (Some e)
     end)
  /\
  (forall k e,
     (k < Z.to_nat (config.MetaSrv.Replicas (metaSrv.config m)))%nat ->
     fst (attempt (effects s)
            (launched (metaSrv_logDir m) (metaSrv_pidDir m)
               (metaSrv_opt m binary) 0 k ++
             [EnsureDir_ (metaSrv_logDir m (Z.of_nat k))]))
     = None ->
     EnsureDir_result
       ((effects s ++
         launched (metaSrv_logDir m) (metaSrv_pidDir m)
           (metaSrv_opt m binary) 0 k) ++
        [EnsureDir_ (metaSrv_logDir m (Z.of_nat k))])
       (metaSrv_pidDir m (Z.of_nat k))
     = Some e ->
     fst (metaSrv.Start m sel binary s) = Returned (Some e) /\
     logsDirs (dirs (snd (metaSrv.Start m sel binary s)))
     = (logsDirs (dirs s) ++ map (metaSrv_logDir m) (indices 0 (S k)))%list /\
     pidsDirs (dirs (snd (metaSrv.Start m sel binary s)))
     = (pidsDirs (dirs s) ++ map (metaSrv_pidDir m) (indices 0 k))%list).
Proof.
  assert (unpaired : forall logDir pidDir opt n k e,
            (k < n)%nat ->
            fst (attempt (effects s)
                   (launched logDir pidDir opt 0 k ++
                    [EnsureDir_ (logDir (Z.of_nat k))])) = None ->
            EnsureDir_result
              ((effects s ++ launched logDir pidDir opt 0 k) ++
               [EnsureDir_ (logDir (Z.of_nat k))])
              (pidDir (Z.of_nat k))
            = Some e ->
            fst (launch logDir pidDir opt n 0 s) = Some e /\
            logsDirs (dirs (snd (launch logDir pidDir opt n 0 s)))
            = (logsDirs (dirs s) ++ map logDir (indices 0 (S k)))%list /\
            pidsDirs (dirs (snd (launch logDir pidDir opt n 0 s)))
            = (pidsDirs (dirs s) ++ map pidDir (indices 0 k))%list).
  { intros logDir pidDir opt n k e Hk Ha He.
    rewrite (@launch_ends _ logDir pidDir opt n k (pidDirFailed e) 0 s);
      [|exact Hk|exact Ha|exact He].
    unfold ended. cbv zeta. cbn [fst snd grown dirs logsDirs pidsDirs].
    rewrite indices_snoc, map_app, app_nil_r, <- app_assoc. auto. }
  assert (held : forall logDir pidDir opt k g,
            logsDirs (dirs (snd (ended logDir pidDir opt s 0 k g)))
            = (logsDirs (dirs s) ++
               map logDir
                 (indices 0
                    (match g with
                     | allLaunched | logDirFailed _ => k
                     | pidDirFailed _ | spawnFailed _ => S k
                     end)))%list /\
            pidsDirs (dirs (snd (ended logDir pidDir opt s 0 k g)))
            = (pidsDirs (dirs s) ++
               map pidDir
                 (indices 0
                    (match g with
                     | allLaunched | logDirFailed _ | pidDirFailed _ => k
                     | spawnFailed _ => S k
                     end)))%list).
  { intros logDir pidDir opt k g. unfold ended. cbv zeta.
    destruct g; cbn [fst snd grown dirs logsDirs pidsDirs];
      rewrite ?indices_snoc, ?map_app, ?app_nil_r, <- ?app_assoc; auto. }
  split; [|split; [|split; [|split; [|split]]]].
  - rewrite frontend_Start_launch.
    destruct (launch_dirs (frontend_logDir f) (frontend_pidDir f)
                (frontend_opt f binary)
                (Z.to_nat (config.Frontend.Replicas (frontend.config f))) 0 s)
      as (j & j' & H1 & H2 & H3 & H4 & H5 & H6).
    exists j, j'. repeat split; trivial; try lia; try apply H5; trivial.
  - destruct (metaSrv_Start_dirs m sel binary s) as [Ed Er].
    rewrite Ed, metaSrv_Start_from_launch.
    destruct (launch_dirs (metaSrv_logDir m) (metaSrv_pidDir m)
                (metaSrv_opt m binary)
                (Z.to_nat (config.MetaSrv.Replicas (metaSrv.config m))) 0 s)
      as (j & j' & H1 & H2 & H3 & H4 & H5 & H6).
    exists j, j'. repeat split; trivial; try lia; try apply H5; trivial.
    intros Hj. destruct (H6 Hj) as (e & He & Ha). exists e.
    rewrite He in Er. auto.
  - intros k g Hk Ha Hc. rewrite frontend_Start_launch.
    rewrite (@launch_ends _ (frontend_logDir f) (frontend_pidDir f)
               (frontend_opt f binary) _ k g 0 s Hk Ha Hc).
    split; [reflexivity|apply held].
  - intros k e Hk Ha He. rewrite frontend_Start_launch.
    apply unpaired; assumption.
  - intros k g Hk Ha Hc.
    destruct (metaSrv_Start_dirs m sel binary s) as [Ed _].
    rewrite Ed, metaSrv_Start_from_launch.
    destruct (metaSrv_Start_dirs m sel binary s) as [_ Er].
    rewrite (@launch_ends _ (metaSrv_logDir m) (metaSrv_pidDir m)
               (metaSrv_opt m binary) _ k g 0 s Hk Ha Hc) in *.
    destruct (held (metaSrv_logDir m) (metaSrv_pidDir m)
                (metaSrv_opt m binary) k g) as [El Ep].
    repeat split; trivial. destruct g; trivial.
  - intros k e Hk Ha He.
    destruct (metaSrv_Start_dirs m sel binary s) as [Ed Er].
    destruct (unpaired (metaSrv_logDir m) (metaSrv_pidDir m)
                (metaSrv_opt m binary) _ k e Hk Ha He) as (E1 & E2 & E3).
    rewrite Ed, E2, E3. rewrite E1 in Er. auto.
Qed.

(** A loop that runs to its end has launched every replica. *)
Lemma launch_None logDir pidDir opt n i s s1 :
  launch logDir pidDir opt n i s = (None, s1) ->
  s1 = grown s (launched logDir pidDir opt i n)
         (map logDir (indices i n)) (map pidDir (indices i n)).
Proof.
  destruct (launch_cases logDir pidDir opt n i s) as (k & g & E & _ & Hk).
  rewrite E. destruct g; try discriminate. subst k. simpl.
  intros [= <-]. reflexivity.
Qed.

(** The effects of a loop are requests of launches, and its launches are
    those of the replicas in order. *)
Lemma launch_effects logDir pidDir opt n i s :
  exists new k,
    effects (snd (launch logDir pidDir opt n i s)) = (effects s ++ new)%list /\
    forallb isLaunchEvent new = true /\
    (k <= n)%nat /\ spawned new = map opt (indices i k).
Proof.
  destruct (launch_cases logDir pidDir opt n i s) as (k & g & E & _ & Hk).
  rewrite E. clear E.
  destruct g as [|e|e|e]; unfold ended; cbv zeta; cbn [snd grown effects].
  - exists (launched logDir pidDir opt i k), k.
    rewrite launched_isLaunchEvent, spawned_launched. repeat split; lia.
  - exists (launched logDir pidDir opt i k ++
            [EnsureDir_ (logDir (i + Z.of_nat k))])%list, k.
    rewrite <- app_assoc. split; [reflexivity|].
    rewrite forallb_app, launched_isLaunchEvent, spawned_app, spawned_launched.
    simpl. rewrite app_nil_r. repeat split; lia.
  - exists (launched logDir pidDir opt i k ++
            [EnsureDir_ (logDir (i + Z.of_nat k));
             EnsureDir_ (pidDir (i + Z.of_nat k))])%list, k.
    rewrite <- app_assoc. split; [reflexivity|].
    rewrite forallb_app, launched_isLaunchEvent, spawned_app, spawned_launched.
    simpl. rewrite app_nil_r. repeat split; lia.
  - exists (launched logDir pidDir opt i k ++
            steps logDir pidDir opt (i + Z.of_nat k))%list, (S k).
    rewrite <- app_assoc. split; [reflexivity|].
    rewrite forallb_app, launched_isLaunchEvent, spawned_app, spawned_launched.
    rewrite indices_snoc, map_app. repeat split; lia.
Qed.

(** C6. After the launch of all its replicas [metaSrv.Start] creates a
    ticker of 500 milliseconds and polls: it returns nil only from a turn
    of the loop in which the [select] took a tick and [IsRunning] returned
    true, and then stops the ticker; the error it returns is the one of
    its first loop, or [status checking failed: ] followed by the text of
    [ctx.Err()], from a turn in which the [select] took the cancellation.
    [frontend.Start] makes requests of launches only, no health check, no
    ticker and no [select], and it returns nil right after the launch of
    its last replica.  And [metaSrv.Start] does poll: once its first loop
    has run to its end in the state [s1] it creates the ticker, and after
    any number of turns that took a tick and found the component not
    running (the state [waited]) it is still waiting when no further
    [select] was made or the [select] blocks, it returns the error of the
    cancellation when the [select] takes it, and it runs [IsRunning] when
    the [select] takes a tick, returning nil when that returns true, each
    time after stopping the ticker; an error of the first loop is returned
    as it is, before the ticker.  [frontend.Start] does return nil with
    all its launches made whenever no request fails. *)
Theorem Start_readiness (m : metaSrv.t) (f : frontend.t) sel binary s :
  (forall s',
     metaSrv.Start m sel binary s = (Returned None, s') ->
     exists polls s3,
       forallb isPollEvent polls = true /\
       metaSrv.IsRunning m
         (since
            (grown s
               (launched (metaSrv_logDir m) (metaSrv_pidDir m)
                  (metaSrv_opt m binary) 0
                  (Z.to_nat (config.MetaSrv.Replicas (metaSrv.config m))))
               (map (metaSrv_logDir m)
                  (indices 0
                     (Z.to_nat (config.MetaSrv.Replicas (metaSrv.config m)))))
               (map (metaSrv_pidDir m)
                  (indices 0
                     (Z.to_nat (config.MetaSrv.Replicas (metaSrv.config m))))))
            (NewTicker_ (500 * time.Millisecond) :: polls ++ [select_ tick]))
       = (true, s3) /\
       s' = since s3 [Stop_])
  /\
  (forall err s',
     metaSrv.Start m sel binary s = (Returned (Some err), s') ->
     metaSrv.Start_from m binary (metaSrv.bindAddrOf m)
       (Z.to_nat (config.MetaSrv.Replicas (metaSrv.config m))) 0 s
     = (Some err, s')
     \/
     exists e polls,
       err = errorString ("status checking failed: " ++ Error e) /\
       forallb isPollEvent polls = true /\
       effects s'
       = (effects s ++
          launched (metaSrv_logDir m) (metaSrv_pidDir m)
            (metaSrv_opt m binary) 0
            (Z.to_nat (config.MetaSrv.Replicas (metaSrv.config m))) ++
          NewTicker_ (500 * time.Millisecond) :: polls ++
          [select_ (done e); Stop_])%list)
  /\
  (exists new,
     effects (snd (frontend.Start f binary s)) = (effects s ++ new)%list /\
     forallb isLaunchEvent new = true /\
     (fst (frontend.Start f binary s) = None ->
      new = launched (frontend_logDir f) (frontend_pidDir f)
              (frontend_opt f binary) 0
              (Z.to_nat (config.Frontend.Replicas (frontend.config f)))))
  /\
  (forall s1 pre,
     metaSrv.Start_from m binary (metaSrv.bindAddrOf m)
       (Z.to_nat (config.MetaSrv.Replicas (metaSrv.config m))) 0 s
     = (None, s1) ->
     Forall (fun o => select o = Some tick) pre ->
     (forall j, (j < List.length pre)%nat ->
        fst (metaSrv.IsRunning m
               (since
                  (waited m j (since s1 [NewTicker_ (500 * time.Millisecond)]))
                  [select_ tick]))
        = false) ->
     metaSrv.Start m pre binary s
     = (Blocked,
        waited m (List.length pre)
          (since s1 [NewTicker_ (500 * time.Millisecond)]))
     /\
     (forall o post,
        select o = None ->
        metaSrv.Start m (pre ++ o :: post) binary s
        = (Blocked,
           waited m (List.length pre)
             (since s1 [NewTicker_ (500 * time.Millisecond)])))
     /\
     (forall o post e,
        select o = Some (done e) ->
        metaSrv.Start m (pre ++ o :: post) binary s
        = (Returned
             (Some (errorString ("status checking failed: " ++ Error e))),
           since
             (waited m (List.length pre)
                (since s1 [NewTicker_ (500 * time.Millisecond)]))
             [select_ (done e); Stop_]))
     /\
     (forall o post,
        select o = Some tick ->
        fst (metaSrv.IsRunning m
               (since
                  (waited m (List.length pre)
                     (since s1 [NewTicker_ (500 * time.Millisecond)]))
                  [select_ tick]))
        = true ->
        metaSrv.Start m (pre ++ o :: post) binary s
        = (Returned None,
           since
             (snd (metaSrv.IsRunning m
                     (since
                        (waited m (List.length pre)
                           (since s1 [NewTicker_ (500 * time.Millisecond)]))
                        [select_ tick])))
             [Stop_])))
  /\
  (forall e s1,
     metaSrv.Start_from m binary (metaSrv.bindAddrOf m)
       (Z.to_nat (config.MetaSrv.Replicas (metaSrv.config m))) 0 s
     = (Some e, s1) ->
     metaSrv.Start m sel binary s = (Returned (Some e), s1))
  /\
  (fst (attempt (effects s)
          (launched (frontend_logDir f) (frontend_pidDir f)
             (frontend_opt f binary) 0
             (Z.to_nat (config.Frontend.Replicas (frontend.config f)))))
   = None ->
   frontend.Start f binary s
   = (None,
      grown s
        (launched (frontend_logDir f) (frontend_pidDir f)
           (frontend_opt f binary) 0
           (Z.to_nat (config.Frontend.Replicas (frontend.config f))))
        (map (frontend_logDir f)
           (indices 0
              (Z.to_nat (config.Frontend.Replicas (frontend.config f)))))
        (map (frontend_pidDir f)
           (indices 0
              (Z.to_nat (config.Frontend.Replicas (frontend.config f))))))).
Proof.
  split; [|split; [|split; [|split; [|split]]]].
  4:{ intros s1 pre Hl Ht Hd.
      rewrite metaSrv_Start_from_launch in Hl.
      assert (go : forall rest,
                metaSrv.Start m (pre ++ rest) binary s
                = (let (r, s2) :=
                     metaSrv.CHECKER m rest
                       (waited m (List.length pre)
                          (since s1 [NewTicker_ (500 * time.Millisecond)])) in
                   match r with
                   | Returned e => (Returned e, since s2 [Stop_])
                   | Blocked => (Blocked, s2)
                   end)).
      { intros rest. rewrite metaSrv_Start_unfold, Hl.
        rewrite (@CHECKER_waited _ _ m pre rest _ Ht Hd). reflexivity. }
      split; [|split; [|split]].
      - rewrite <- (app_nil_r pre) at 1. rewrite go. reflexivity.
      - intros o post Ho. rewrite go, (CHECKER_blocked m o post _ Ho).
        reflexivity.
      - intros o post e Ho. rewrite go, (CHECKER_done m o post _ Ho).
        rewrite since_since. reflexivity.
      - intros o post Ho Hup. rewrite go, (CHECKER_tick m o post _ Ho).
        destruct (metaSrv.IsRunning m _) as [up s2]. simpl in Hup. subst up.
        reflexivity. }
  4:{ intros e s1 Hl. rewrite metaSrv_Start_from_launch in Hl.
      rewrite metaSrv_Start_unfold, Hl. reflexivity. }
  4:{ intros Ha. rewrite frontend_Start_launch.
      rewrite (@launch_ends _ (frontend_logDir f) (frontend_pidDir f)
                 (frontend_opt f binary) _ _ allLaunched 0 s eq_refl).
      - reflexivity.
      - cbn [before]. rewrite app_nil_r. exact Ha.
      - exact I. }
  - intros s'. rewrite metaSrv_Start_unfold.
    destruct (launch _ _ _ _ 0 s) as [[e|] s1] eqn:El; [discriminate|].
    apply launch_None in El. subst s1.
    match goal with
    | |- context [metaSrv.CHECKER m sel ?s1] =>
        destruct (metaSrv.CHECKER m sel s1) as [[r|] s2] eqn:Ec;
          [|discriminate]
    end.
    intros [= -> <-].
    destruct (CHECKER_Returned m sel _ Ec)
      as [[_ (polls & Hp & Hi)]|(e & polls & Hr & _)]; [|discriminate].
    exists polls, s2. rewrite since_since in Hi. auto.
  - intros err s'. rewrite metaSrv_Start_unfold, metaSrv_Start_from_launch.
    destruct (launch _ _ _ _ 0 s) as [[e|] s1] eqn:El.
    { intros [= <- <-]. left. reflexivity. }
    apply launch_None in El. subst s1.
    match goal with
    | |- context [metaSrv.CHECKER m sel ?s1] =>
        destruct (metaSrv.CHECKER m sel s1) as [[r|] s2] eqn:Ec;
          [|discriminate]
    end.
    intros [= -> <-]. right.
    destruct (CHECKER_Returned m sel _ Ec)
      as [[Hn _]|(e & polls & Hr & Hp & ->)]; [discriminate|].
    injection Hr as ->. exists e, polls. repeat split; trivial.
    rewrite !since_since. simpl. rewrite <- !app_assoc. reflexivity.
  - rewrite frontend_Start_launch.
    destruct (launch_effects (frontend_logDir f) (frontend_pidDir f)
                (frontend_opt f binary)
                (Z.to_nat (config.Frontend.Replicas (frontend.config f))) 0 s)
      as (new & k & E & Hl & _).
    exists new. repeat split; trivial.
    intros Hn.
    destruct (launch _ _ _ _ 0 s) as [r s1] eqn:El. simpl in Hn. subst r.
    apply launch_None in El. subst s1. simpl in E.
    apply app_inv_head in E. auto.
Qed.

(** C7, as amended. When the readiness loop of [metaSrv.Start] is reached
    with the context cancelled and no tick waiting, which is how a ticker
    just created is found, its first [select] takes the cancellation: the
    loop ends there, without a health check, the ticker is stopped, and
    [Start] returns the error [status checking failed: ] followed by the
    text of [ctx.Err()]. *)
Theorem Start_cancelled (m : metaSrv.t) s0 sel binary s s1 e :
  metaSrv.Start_from m binary (metaSrv.bindAddrOf m)
    (Z.to_nat (config.MetaSrv.Replicas (metaSrv.config m))) 0 s
  = (None, s1) ->
  ctxErr s0 = Some e ->
  tickReady s0 = false ->
  metaSrv.Start m (s0 :: sel) binary s
  = (Returned (Some (errorString ("status checking failed: " ++ Error e))),
     since s1
       [NewTicker_ (500 * time.Millisecond); select_ (done e); Stop_]).
Proof.
  intros Hl He Ht. rewrite metaSrv_Start_unfold.
  rewrite metaSrv_Start_from_launch in Hl. rewrite Hl.
  assert (Hs : select s0 = Some (done e))
    by (unfold select; rewrite Ht, He; reflexivity).
  rewrite (CHECKER_done m s0 sel _ Hs), !since_since. reflexivity.
Qed.

Lemma metaSrv_Start_effects (m : metaSrv.t) sel binary s :
  exists more,
    effects (snd (metaSrv.Start m sel binary s))
    = (effects (snd (launch (metaSrv_logDir m) (metaSrv_pidDir m)
                       (metaSrv_opt m binary)
                       (Z.to_nat (config.MetaSrv.Replicas (metaSrv.config m)))
                       0 s)) ++ more)%list /\
    spawned more = [].
Proof.
  rewrite metaSrv_Start_unfold.
  destruct (launch _ _ _ _ 0 s) as [[e|] s1].
  { exists []. simpl. rewrite app_nil_r. auto. }
  match goal with
  | |- context [metaSrv.CHECKER m sel ?s1] =>
      destruct (CHECKER_frame m sel s1) as (polls & Ep & Hp);
      destruct (metaSrv.CHECKER m sel s1) as [r s2]
  end.
  simpl in Ep. subst s2. destruct (poll_events_quiet _ Hp) as [_ Hq].
  destruct r as [r|]; cbn [fst snd effects since].
  - exists (NewTicker_ (500 * time.Millisecond) :: polls ++ [Stop_])%list.
    rewrite <- !app_assoc. split; [reflexivity|].
    simpl. rewrite spawned_app, Hq. reflexivity.
  - exists (NewTicker_ (500 * time.Millisecond) :: polls)%list.
    rewrite <- !app_assoc. split; [reflexivity|]. simpl. exact Hq.
Qed.

(** The launches of a loop are those of the replicas in order, of all of
    them when it runs to its end. *)
Lemma launch_spawned logDir pidDir opt n i s :
  exists new k,
    effects (snd (launch logDir pidDir opt n i s)) = (effects s ++ new)%list /\
    (k <= n)%nat /\ spawned new = map opt (indices i k) /\
    (fst (launch logDir pidDir opt n i s) = None -> k = n).
Proof.
  destruct (launch_cases logDir pidDir opt n i s) as (k & g & E & _ & Hk).
  rewrite E. clear E.
  destruct g as [|e|e|e]; unfold ended; cbv zeta; cbn [fst snd grown effects].
  - exists (launched logDir pidDir opt i k), k.
    rewrite spawned_launched. repeat split; lia.
  - exists (launched logDir pidDir opt i k ++
            [EnsureDir_ (logDir (i + Z.of_nat k))])%list, k.
    rewrite <- app_assoc, spawned_app, spawned_launched. simpl.
    rewrite app_nil_r. repeat split; try lia. discriminate.
  - exists (launched logDir pidDir opt i k ++
            [EnsureDir_ (logDir (i + Z.of_nat k));
             EnsureDir_ (pidDir (i + Z.of_nat k))])%list, k.
    rewrite <- app_assoc, spawned_app, spawned_launched. simpl.
    rewrite app_nil_r. repeat split; try lia. discriminate.
  - exists (launched logDir pidDir opt i k ++
            steps logDir pidDir opt (i + Z.of_nat k))%list, (S k).
    rewrite <- app_assoc, spawned_app, spawned_launched.
    rewrite indices_snoc, map_app. repeat split; try lia. discriminate.
Qed.

(** A replica whose turn comes, and whose two directories are ensured, is
    launched: the launch of replica [j] is the one of index [j] among the
    launches. *)
Lemma launch_spawns logDir pidDir opt n j s :
  (j < n)%nat ->
  fst (attempt (effects s)
         (launched logDir pidDir opt 0 j ++
          [EnsureDir_ (logDir (Z.of_nat j));
           EnsureDir_ (pidDir (Z.of_nat j))])) = None ->
  exists new,
    effects (snd (launch logDir pidDir opt n 0 s)) = (effects s ++ new)%list /\
    nth_error (spawned new) j = Some (opt (Z.of_nat j)).
Proof.
  intros Hj Ha.
  assert (nth : forall rest,
            nth_error
              (spawned (launched logDir pidDir opt 0 (S j) ++ rest)) j
            = Some (opt (Z.of_nat j))).
  { intros rest. rewrite spawned_app, spawned_launched.
    rewrite nth_error_app1 by (rewrite length_map, indices_length; lia).
    rewrite nth_error_map, nth_error_indices by lia. reflexivity. }
  destruct (runBinary_result
              ((effects s ++ launched logDir pidDir opt 0 j) ++
               [EnsureDir_ (logDir (Z.of_nat j));
                EnsureDir_ (pidDir (Z.of_nat j))])
              (opt (Z.of_nat j))) as [e|] eqn:Hr.
  - rewrite (@launch_ends _ logDir pidDir opt n j (spawnFailed e) 0 s Hj Ha Hr).
    unfold ended. cbv zeta. cbn [snd grown effects].
    exists (launched logDir pidDir opt 0 (S j) ++ [])%list.
    split; [|apply nth].
    rewrite app_nil_r, launched_snoc, <- app_assoc. reflexivity.
  - assert (Hall : fst (attempt (effects s)
                          (launched logDir pidDir opt 0 (S j))) = None).
    { rewrite launched_snoc.
      change (steps logDir pidDir opt (0 + Z.of_nat j))
        with ([EnsureDir_ (logDir (Z.of_nat j));
               EnsureDir_ (pidDir (Z.of_nat j))] ++
              [runBinary_ (opt (Z.of_nat j))])%list.
      rewrite app_assoc, attempt_app.
      rewrite (attempt_fst_None _ _ Ha). simpl. rewrite <- app_assoc in Hr.
      rewrite <- app_assoc. rewrite Hr. reflexivity. }
    rewrite (@launch_reaches _ logDir pidDir opt (S j) n 0 s Hj Hall).
    destruct (launch_effects logDir pidDir opt (n - S j) (0 + Z.of_nat (S j))
                (grown s (launched logDir pidDir opt 0 (S j))
                   (map logDir (indices 0 (S j)))
                   (map pidDir (indices 0 (S j)))))
      as (rest & k & E & _).
    rewrite E. cbn [grown effects].
    exists (launched logDir pidDir opt 0 (S j) ++ rest)%list.
    split; [|apply nth]. rewrite app_assoc. reflexivity.
Qed.

End Start.

(* ================================================================== *)
(** * [metaSrv.BuildArgs] *)

Section BuildArgs.
Context `{World} `{Package}.
Import config.MetaSrv.

(** The arguments, one by one. *)
Lemma BuildArgs_elements (m : metaSrv.t) i b :
  metaSrv.BuildArgs m i b
  = ([ "--log-level=" ++
       (if String.eqb (LogLevel (metaSrv.config m)) "" then DefaultLogLevel
        else LogLevel (metaSrv.config m));
       "metasrv"; "start";
       "--store-addr=" ++ StoreAddr (metaSrv.config m);
       "--server-addr=" ++ ServerAddr (metaSrv.config m);
       "--http-addr=" ++ FormatAddrArg (HTTPAddr (metaSrv.config m)) i;
       "--bind-addr=" ++ FormatAddrArg b i ]%string
     ++ (if metaSrv.useMemoryMeta m
         then ["--use-memory-store=" ++ FormatAddrArg "true" i]%string
         else [])
     ++ (if Nat.ltb 0 (String.length (Config (metaSrv.config m)))
         then ["-c=" ++ Config (metaSrv.config m)]%string
         else []))%list.
Proof.
  unfold metaSrv.BuildArgs, GenerateAddrArg, append, metaSrv.Name.
  destruct (metaSrv.useMemoryMeta m);
    destruct (Nat.ltb 0 (String.length (Config (metaSrv.config m))));
    reflexivity.
Qed.

Lemma bindAddrOf_default (m : metaSrv.t) :
  metaSrv.bindAddrOf m
  = if String.eqb (BindAddr (metaSrv.config m)) "" then "127.0.0.1:3002"
    else BindAddr (metaSrv.config m).
Proof.
  unfold metaSrv.bindAddrOf.
  destruct (BindAddr (metaSrv.config m)); reflexivity.
Qed.

Lemma FormatAddrArg_default i :
  FormatAddrArg "127.0.0.1:3002" i = "127.0.0.1:" ++ strconv.Itoa (3002 + i).
Proof. reflexivity. Qed.

(** C10. The launch of replica [i] of the metasrv carries exactly one
    [--bind-addr] argument, derived for the index [i] from the configured
    [BindAddr] when that is not empty and from the default [127.0.0.1:3002]
    when it is, which gives [--bind-addr=127.0.0.1:(3002+i)]; and the
    launches [Start] makes are those of the replicas [0], [1], ... in this
    order.  Every launch [Start] makes carries that one [--bind-addr]
    argument of its index; a [Start] whose first loop runs to its end
    makes all [N] launches; and replica [j] is launched, as the launch of
    index [j], whenever the requests of the replicas before it and those
    of its two directories are answered without error. *)
Theorem metaSrv_bind_addr (m : metaSrv.t) binary :
  (forall i,
     filter (fun a => HasPrefix a "--bind-addr=")
       (RunOptions.args (metaSrv_opt m binary i))
     = ["--bind-addr=" ++
        FormatAddrArg
          (if String.eqb (BindAddr (metaSrv.config m)) "" then "127.0.0.1:3002"
           else BindAddr (metaSrv.config m)) i])
  /\
  (forall i,
     FormatAddrArg "127.0.0.1:3002" i
     = "127.0.0.1:" ++ strconv.Itoa (3002 + i))
  /\
  (forall sel s,
     exists k,
       (k <= Z.to_nat (Replicas (metaSrv.config m)))%nat /\
       spawned (effects (snd (metaSrv.Start m sel binary s)))
       = (spawned (effects s) ++ map (metaSrv_opt m binary) (indices 0 k))%list)
  /\
  (forall sel s,
     exists new k,
       effects (snd (metaSrv.Start m sel binary s)) = (effects s ++ new)%list /\
       (k <= Z.to_nat (Replicas (metaSrv.config m)))%nat /\
       map (fun o =>
              filter (fun a => HasPrefix a "--bind-addr=") (RunOptions.args o))
         (spawned new)
       = map (fun i =>
                ["--bind-addr=" ++
                 FormatAddrArg
                   (if String.eqb (BindAddr (metaSrv.config m)) ""
                    then "127.0.0.1:3002"
                    else BindAddr (metaSrv.config m)) i])
           (indices 0 k) /\
       (fst (metaSrv.Start_from m binary (metaSrv.bindAddrOf m)
               (Z.to_nat (Replicas (metaSrv.config m))) 0 s) = None ->
        k = Z.to_nat (Replicas (metaSrv.config m))))
  /\
  (forall sel s j,
     (j < Z.to_nat (Replicas (metaSrv.config m)))%nat ->
     fst (attempt (effects s)
            (launched (metaSrv_logDir m) (metaSrv_pidDir m)
               (metaSrv_opt m binary) 0 j ++
             [EnsureDir_ (metaSrv_logDir m (Z.of_nat j));
              EnsureDir_ (metaSrv_pidDir m (Z.of_nat j))]))
     = None ->
     exists new o,
       effects (snd (metaSrv.Start m sel binary s)) = (effects s ++ new)%list /\
       nth_error (spawned new) j = Some o /\
       filter (fun a => HasPrefix a "--bind-addr=") (RunOptions.args o)
       = ["--bind-addr=" ++
          FormatAddrArg
            (if String.eqb (BindAddr (metaSrv.config m)) ""
             then "127.0.0.1:3002"
             else BindAddr (metaSrv.config m)) (Z.of_nat j)]).
Proof.
  assert (one : forall i,
            filter (fun a => HasPrefix a "--bind-addr=")
              (RunOptions.args (metaSrv_opt m binary i))
            = ["--bind-addr=" ++
               FormatAddrArg
                 (if String.eqb (BindAddr (metaSrv.config m)) ""
                  then "127.0.0.1:3002"
                  else BindAddr (metaSrv.config m)) i]).
  { intros i. unfold metaSrv_opt. cbn [RunOptions.args].
    rewrite BuildArgs_elements, bindAddrOf_default.
    destruct (metaSrv.useMemoryMeta m);
      destruct (Nat.ltb 0 (String.length (Config (metaSrv.config m))));
      cbn [app filter HasPrefix append Ascii.eqb Bool.eqb andb]; reflexivity. }
  split; [|split; [|split; [|split]]].
  4:{ intros sel s.
      destruct (metaSrv_Start_effects m sel binary s) as (more & Em & Hq).
      destruct (launch_spawned (metaSrv_logDir m) (metaSrv_pidDir m)
                  (metaSrv_opt m binary)
                  (Z.to_nat (Replicas (metaSrv.config m))) 0 s)
        as (new & k & E & Hk & Hs & Hn).
      exists (new ++ more)%list, k. rewrite Em, E, <- app_assoc.
      split; [reflexivity|]. split; [exact Hk|].
      rewrite spawned_app, Hq, app_nil_r, Hs, map_map.
      split; [apply map_ext; exact one|].
      rewrite metaSrv_Start_from_launch. exact Hn. }
  4:{ intros sel s j Hj Ha.
      destruct (metaSrv_Start_effects m sel binary s) as (more & Em & Hq).
      destruct (launch_spawns (metaSrv_logDir m) (metaSrv_pidDir m)
                  (metaSrv_opt m binary) s Hj Ha) as (new & E & Hn).
      exists (new ++ more)%list, (metaSrv_opt m binary (Z.of_nat j)).
      rewrite Em, E, <- app_assoc. split; [reflexivity|].
      rewrite spawned_app, Hq, app_nil_r. split; [exact Hn|apply one]. }
  - exact one.
  - exact FormatAddrArg_default.
  - intros sel s. rewrite metaSrv_Start_unfold.
    destruct (launch_effects (metaSrv_logDir m) (metaSrv_pidDir m)
                (metaSrv_opt m binary)
                (Z.to_nat (Replicas (metaSrv.config m))) 0 s)
      as (new & k & E & _ & Hk & Hs).
    exists k. split; [exact Hk|].
    destruct (launch _ _ _ _ 0 s) as [[e|] s1]; simpl in E.
    { simpl. rewrite E, spawned_app, Hs. reflexivity. }
    match goal with
    | |- context [metaSrv.CHECKER m sel ?s1] =>
        destruct (CHECKER_frame m sel s1) as (polls & Ep & Hp);
        destruct (metaSrv.CHECKER m sel s1) as [r s2]
    end.
    simpl in Ep. subst s2. destruct (poll_events_quiet _ Hp) as [_ Hq].
    destruct r; simpl; rewrite E, !spawned_app, Hs, Hq; simpl;
      rewrite ?app_nil_r; reflexivity.
Qed.

Lemma append_inj_l (p a b : string) : p ++ a = p ++ b -> a = b.
Proof. induction p as [|c p IH]; simpl; [auto|]. intros [= E]. auto. Qed.

(** X1, the part of C4 that the two files settle. The argument
    [--use-memory-store=true] is among the arguments exactly when the flag
    is set and the address helper returns the text [true] as it is, and
    the arguments that begin with [-c=] are the one of the configuration
    file, when a path is given, and none otherwise. *)
Theorem BuildArgs_memory_store_and_config (m : metaSrv.t) i b :
  (In "--use-memory-store=true" (metaSrv.BuildArgs m i b) <->
   metaSrv.useMemoryMeta m = true /\ FormatAddrArg "true" i = "true")
  /\
  filter (fun a => HasPrefix a "-c=") (metaSrv.BuildArgs m i b)
  = (if Nat.ltb 0 (String.length (Config (metaSrv.config m)))
     then ["-c=" ++ Config (metaSrv.config m)] else []).
Proof.
  rewrite BuildArgs_elements. split.
  - split.
    + intros Hin. apply in_app_or in Hin as [Hin|Hin].
      { simpl in Hin. repeat (destruct Hin as [Hin|Hin]; [discriminate|]).
        contradiction. }
      apply in_app_or in Hin as [Hin|Hin].
      * destruct (metaSrv.useMemoryMeta m); [|contradiction].
        destruct Hin as [Hin|[]]. split; [reflexivity|].
        apply (append_inj_l "--use-memory-store=" _ _ Hin).
      * destruct (Nat.ltb 0 _); [|contradiction].
        destruct Hin as [Hin|[]]. discriminate.
    + intros [-> Ht]. apply in_or_app. right. apply in_or_app. left.
      rewrite Ht. left. reflexivity.
  - destruct (metaSrv.useMemoryMeta m);
      destruct (Nat.ltb 0 (String.length (Config (metaSrv.config m))));
      cbn [app filter HasPrefix append Ascii.eqb Bool.eqb andb]; reflexivity.
Qed.

End BuildArgs.

(* ================================================================== *)
(** * More about [IsRunning] *)

Lemma closes_app a b : closes (a ++ b)%list = (closes a ++ closes b)%list.
Proof. apply flat_map_app. Qed.

Lemma logged_app a b : logged (a ++ b)%list = (logged a ++ logged b)%list.
Proof. apply flat_map_app. Qed.

Lemma closes_probed url n : forall i,
  closes (probed url i n) = map url (indices i n).
Proof.
  induction n as [|n IH]; intros i; [reflexivity|].
  rewrite probed_S. simpl. f_equal. apply IH.
Qed.

Lemma logged_probed url n : forall i, logged (probed url i n) = [].
Proof.
  induction n as [|n IH]; intros i; [reflexivity|].
  rewrite probed_S. simpl. apply IH.
Qed.

(** Below [n], a test holds throughout or fails at a first number. *)
Lemma first_false (P : nat -> bool) n :
  (forall k, (k < n)%nat -> P k = true) \/
  (exists k, (k < n)%nat /\ (forall j, (j < k)%nat -> P j = true) /\
             P k = false).
Proof.
  induction n as [|n [Hall|(k & Hk & Hb & Hf)]].
  - left. intros k Hk. lia.
  - destruct (P n) eqn:Hn.
    + left. intros k Hk. destruct (Nat.eq_dec k n) as [->|]; [exact Hn|].
      apply Hall. lia.
    + right. exists n. auto.
  - right. exists k. repeat split; auto.
Qed.

(** The loops again, now with the effects of the turn that fails. *)
Section ProbeLoopExact.
Context `{World}.
Variables (parses : Z -> bool) (url : Z -> string).
Variable loop : nat -> Z -> M bool.
Variable failure : list event -> Z -> list event.

Hypothesis loop_O : forall i s, loop O i s = (true, s).

Hypothesis loop_ok : forall n i s,
  healthyAt parses url (effects s) i = true ->
  loop (S n) i s = loop n (i + 1) (since s [Get_ (url i); Close_ (url i)]).

Hypothesis loop_bad : forall n i s,
  healthyAt parses url (effects s) i = false ->
  loop (S n) i s = (false, since s (failure (effects s) i)).

Lemma loop_healthy_exact n : forall i s,
  (forall k, (k < n)%nat -> turn parses url s i k = true) ->
  loop n i s = (true, since s (probed url i n)).
Proof.
  induction n as [|n IH]; intros i s Hall.
  - rewrite loop_O. simpl. rewrite since_nil. reflexivity.
  - rewrite loop_ok by (rewrite <- turn_O; apply Hall; lia).
    rewrite IH.
    + rewrite since_since. reflexivity.
    + intros k Hk. rewrite <- turn_S. apply Hall. lia.
Qed.

Lemma loop_unhealthy_exact n : forall i s k,
  (k < n)%nat ->
  (forall j, (j < k)%nat -> turn parses url s i j = true) ->
  turn parses url s i k = false ->
  loop n i s
  = (false,
     since s
       (probed url i k ++
        failure (effects s ++ probed url i k) (i + Z.of_nat k))).
Proof.
  induction n as [|n IH]; intros i s k Hk Hbefore Hbad; [lia|].
  destruct k as [|k].
  - rewrite turn_O in Hbad. rewrite (loop_bad n i s Hbad).
    simpl. rewrite app_nil_r, Z.add_0_r. reflexivity.
  - rewrite loop_ok by (rewrite <- turn_O; apply Hbefore; lia).
    rewrite (IH (i + 1) (since s [Get_ (url i); Close_ (url i)]) k).
    + rewrite since_since, probed_S. simpl effects.
      rewrite <- !app_assoc. simpl app.
      replace (i + 1 + Z.of_nat k) with (i + Z.of_nat (S k)) by lia.
      reflexivity.
    + lia.
    + intros j Hj. rewrite <- turn_S. apply Hbefore. lia.
    + rewrite <- turn_S. exact Hbad.
Qed.

(** A check ends in one of two ways. *)
Lemma loop_exact n i s :
  ((forall k, (k < n)%nat -> turn parses url s i k = true) /\
   loop n i s = (true, since s (probed url i n)))
  \/
  (exists k,
     (k < n)%nat /\
     (forall j, (j < k)%nat -> turn parses url s i j = true) /\
     turn parses url s i k = false /\
     loop n i s
     = (false,
        since s
          (probed url i k ++
           failure (effects s ++ probed url i k) (i + Z.of_nat k)))).
Proof.
  destruct (first_false (turn parses url s i) n)
    as [Hall|(k & Hk & Hb & Hf)].
  - left. split; [exact Hall|]. apply loop_healthy_exact, Hall.
  - right. exists k. repeat split; trivial.
    apply loop_unhealthy_exact; trivial.
Qed.

End ProbeLoopExact.

Section IsRunningExact.
Context `{World} `{Package}.

Ltac run :=
  cbv [bind ret emit ask http.Get http.Close Infof fileutils.EnsureDir
       runBinary append_logsDirs append_pidsDirs time.NewTicker time.Stop];
  cbn [fst snd effects dirs].

Lemma frontend_loop_bad_exact (f : frontend.t) n i s :
  healthyAt (fun _ => true) (frontend_url f) (effects s) i = false ->
  frontend.IsRunning_from f (S n) i s
  = (false, since s (frontend_failure f (effects s) i)).
Proof.
  unfold healthyAt, healthy, frontend_failure. simpl andb. intros Hi.
  cbn [frontend.IsRunning_from]. fold (frontend_url f i). run.
  destruct (Get_result (effects s) (frontend_url f i)) as [rsp|e].
  - destruct (StatusCode rsp =? StatusOK); cbn [negb].
    + destruct (Body_Close rsp) as [err|]; [|discriminate].
      unfold since. cbn [effects dirs]. rewrite <- !app_assoc. reflexivity.
    + unfold since. cbn [effects dirs]. rewrite <- !app_assoc. reflexivity.
  - unfold since. cbn [effects dirs]. rewrite <- !app_assoc. reflexivity.
Qed.

Lemma metaSrv_loop_bad_exact (m : metaSrv.t) n i s :
  healthyAt (metaSrv_parses m) (metaSrv_url m) (effects s) i = false ->
  metaSrv.IsRunning_from m (S n) i s
  = (false, since s (metaSrv_failure m (effects s) i)).
Proof.
  unfold healthyAt, healthy, metaSrv_failure, metaSrv_parses, metaSrv_url.
  intros Hi. cbn [metaSrv.IsRunning_from]. fold (metaSrv_split m i).
  destruct (metaSrv_split m i) as [[host port] [err|]];
    cbn [fst snd andb] in *; run.
  - reflexivity.
  - destruct (Get_result (effects s) _) as [rsp|e].
    + destruct (StatusCode rsp =? StatusOK); cbn [negb].
      * destruct (Body_Close rsp) as [err|]; [|discriminate].
        unfold since. cbn [effects dirs]. rewrite <- !app_assoc.
        reflexivity.
      * reflexivity.
    + unfold since. cbn [effects dirs]. rewrite <- !app_assoc. reflexivity.
Qed.

(** The two checks, with all their effects. *)
Lemma frontend_IsRunning_exact (f : frontend.t) s :
  ((forall k,
      (k < Z.to_nat (config.Frontend.Replicas (frontend.config f)))%nat ->
      turn (fun _ => true) (frontend_url f) s 0 k = true) /\
   frontend.IsRunning f s
   = (true,
      since s
        (probed (frontend_url f) 0
           (Z.to_nat (config.Frontend.Replicas (frontend.config f))))))
  \/
  (exists k,
     (k < Z.to_nat (config.Frontend.Replicas (frontend.config f)))%nat /\
     (forall j, (j < k)%nat ->
        turn (fun _ => true) (frontend_url f) s 0 j = true) /\
     turn (fun _ => true) (frontend_url f) s 0 k = false /\
     frontend.IsRunning f s
     = (false,
        since s
          (probed (frontend_url f) 0 k ++
           frontend_failure f (effects s ++ probed (frontend_url f) 0 k)
             (Z.of_nat k)))).
Proof.
  exact (loop_exact (fun _ => true) (frontend_url f)
           (frontend.IsRunning_from f) (frontend_failure f)
           (frontend_loop_O f) (frontend_loop_ok f)
           (frontend_loop_bad_exact f)
           (Z.to_nat (config.Frontend.Replicas (frontend.config f))) 0 s).
Qed.

Lemma metaSrv_IsRunning_exact (m : metaSrv.t) s :
  ((forall k,
      (k < Z.to_nat (config.MetaSrv.Replicas (metaSrv.config m)))%nat ->
      turn (metaSrv_parses m) (metaSrv_url m) s 0 k = true) /\
   metaSrv.IsRunning m s
   = (true,
      since s
        (probed (metaSrv_url m) 0
           (Z.to_nat (config.MetaSrv.Replicas (metaSrv.config m))))))
  \/
  (exists k,
     (k < Z.to_nat (config.MetaSrv.Replicas (metaSrv.config m)))%nat /\
     (forall j, (j < k)%nat ->
        turn (metaSrv_parses m) (metaSrv_url m) s 0 j = true) /\
     turn (metaSrv_parses m) (metaSrv_url m) s 0 k = false /\
     metaSrv.IsRunning m s
     = (false,
        since s
          (probed (metaSrv_url m) 0 k ++
           metaSrv_failure m (effects s ++ probed (metaSrv_url m) 0 k)
             (Z.of_nat k)))).
Proof.
  exact (loop_exact (metaSrv_parses m) (metaSrv_url m)
           (metaSrv.IsRunning_from m) (metaSrv_failure m)
           (metaSrv_loop_O m) (metaSrv_loop_ok m)
           (metaSrv_loop_bad_exact m)
           (Z.to_nat (config.MetaSrv.Replicas (metaSrv.config m))) 0 s).
Qed.

End IsRunningExact.

Section IsRunningMore.
Context `{World} `{Package}.

(** X2. A health check is read-only: [IsRunning] of either component
    leaves [allocatedDirs] as they are, and its effects are GETs, closes of
    bodies and log lines only; it ensures no directory, launches nothing
    and touches no ticker. *)
Theorem IsRunning_read_only (f : frontend.t) (m : metaSrv.t) (s : State) :
  (dirs (snd (frontend.IsRunning f s)) = dirs s /\
   exists new,
     effects (snd (frontend.IsRunning f s)) = (effects s ++ new)%list /\
     forallb isProbeEvent new = true /\
     ensured new = [] /\ spawned new = [] /\
     tickers new = O /\ stops new = O)
  /\
  (dirs (snd (metaSrv.IsRunning m s)) = dirs s /\
   exists new,
     effects (snd (metaSrv.IsRunning m s)) = (effects s ++ new)%list /\
     forallb isProbeEvent new = true /\
     ensured new = [] /\ spawned new = [] /\
     tickers new = O /\ stops new = O).
Proof.
  assert (quiet : forall new,
            forallb isProbeEvent new = true ->
            ensured new = [] /\ spawned new = [] /\
            tickers new = O /\ stops new = O).
  { induction new as [|e new IH]; simpl; [auto|].
    intros Hp. apply andb_prop in Hp as [He Hn].
    destruct (IH Hn) as (E1 & E2 & E3 & E4).
    unfold tickers, stops in *.
    destruct e; try discriminate; simpl; auto. }
  unfold frontend.IsRunning, metaSrv.IsRunning. split.
  - destruct (frontend_frame f
                (Z.to_nat (config.Frontend.Replicas (frontend.config f))) 0 s)
      as (new & E & Hp).
    rewrite E. split; [reflexivity|]. exists new.
    split; [reflexivity|]. split; [exact Hp|]. apply quiet, Hp.
  - destruct (metaSrv_frame m
                (Z.to_nat (config.MetaSrv.Replicas (metaSrv.config m))) 0 s)
      as (new & E & Hp).
    rewrite E. split; [reflexivity|]. exists new.
    split; [reflexivity|]. split; [exact Hp|]. apply quiet, Hp.
Qed.

(** X3. [IsRunning] closes the body of a response only after it has seen
    the status 200.  A check that returns true has closed the body of
    every replica, each right after its GET; a check that ends at a
    replica [k] whose endpoint answers with another status has requested
    the replicas [0 .. k] and closed the bodies of [0 .. k-1] only: the
    body of the response of [k] is left open. *)
Theorem IsRunning_closes_after_200 (f : frontend.t) (m : metaSrv.t)
    (s : State) :
  (fst (frontend.IsRunning f s) = true ->
   effects (snd (frontend.IsRunning f s))
   = (effects s ++
      flat_map (fun i => [Get_ (frontend_url f i); Close_ (frontend_url f i)])
        (indices 0 (Z.to_nat (config.Frontend.Replicas (frontend.config f)))))%list)
  /\
  (forall k rsp,
     (k < Z.to_nat (config.Frontend.Replicas (frontend.config f)))%nat ->
     (forall j, (j < k)%nat ->
        turn (fun _ => true) (frontend_url f) s 0 j = true) ->
     Get_result (effects s ++ probed (frontend_url f) 0 k)
       (frontend_url f (Z.of_nat k)) = inl rsp ->
     (StatusCode rsp =? StatusOK) = false ->
     fst (frontend.IsRunning f s) = false /\
     gets (effects (snd (frontend.IsRunning f s)))
     = (gets (effects s) ++ map (frontend_url f) (indices 0 (S k)))%list /\
     closes (effects (snd (frontend.IsRunning f s)))
     = (closes (effects s) ++ map (frontend_url f) (indices 0 k))%list)
  /\
  (fst (metaSrv.IsRunning m s) = true ->
   effects (snd (metaSrv.IsRunning m s))
   = (effects s ++
      flat_map (fun i => [Get_ (metaSrv_url m i); Close_ (metaSrv_url m i)])
        (indices 0 (Z.to_nat (config.MetaSrv.Replicas (metaSrv.config m)))))%list)
  /\
  (forall k rsp,
     (k < Z.to_nat (config.MetaSrv.Replicas (metaSrv.config m)))%nat ->
     (forall j, (j < k)%nat ->
        turn (metaSrv_parses m) (metaSrv_url m) s 0 j = true) ->
     metaSrv_parses m (Z.of_nat k) = true ->
     Get_result (effects s ++ probed (metaSrv_url m) 0 k)
       (metaSrv_url m (Z.of_nat k)) = inl rsp ->
     (StatusCode rsp =? StatusOK) = false ->
     fst (metaSrv.IsRunning m s) = false /\
     gets (effects (snd (metaSrv.IsRunning m s)))
     = (gets (effects s) ++ map (metaSrv_url m) (indices 0 (S k)))%list /\
     closes (effects (snd (metaSrv.IsRunning m s)))
     = (closes (effects s) ++ map (metaSrv_url m) (indices 0 k))%list).
Proof.
  split; [|split; [|split]].
  - intros Ht.
    destruct (frontend_IsRunning_exact f s) as [[_ E]|(k & _ & _ & _ & E)];
      rewrite E in *; [reflexivity|discriminate].
  - intros k rsp Hk Hb Hr Hs.
    assert (Hu : turn (fun _ => true) (frontend_url f) s 0 k = false).
    { unfold turn, healthyAt, healthy. rewrite Z.add_0_l, Hr, Hs.
      reflexivity. }
    unfold frontend.IsRunning.
    rewrite (loop_unhealthy_exact (fun _ => true) (frontend_url f)
               (frontend.IsRunning_from f) (frontend_failure f)
               (frontend_loop_ok f) (frontend_loop_bad_exact f) 0 s Hk Hb Hu).
    cbn [fst snd effects since]. rewrite Z.add_0_l.
    unfold frontend_failure. rewrite Hr, Hs. cbn [negb].
    rewrite !gets_app, !closes_app, gets_probed, closes_probed.
    rewrite indices_snoc, map_app. simpl. rewrite app_nil_r. auto.
  - intros Ht.
    destruct (metaSrv_IsRunning_exact m s) as [[_ E]|(k & _ & _ & _ & E)];
      rewrite E in *; [reflexivity|discriminate].
  - intros k rsp Hk Hb Hp Hr Hs.
    assert (Hu : turn (metaSrv_parses m) (metaSrv_url m) s 0 k = false).
    { unfold turn, healthyAt, healthy. rewrite Z.add_0_l, Hp, Hr, Hs.
      reflexivity. }
    unfold metaSrv.IsRunning.
    rewrite (loop_unhealthy_exact (metaSrv_parses m) (metaSrv_url m)
               (metaSrv.IsRunning_from m) (metaSrv_failure m)
               (metaSrv_loop_ok m) (metaSrv_loop_bad_exact m) 0 s Hk Hb Hu).
    cbn [fst snd effects since]. rewrite Z.add_0_l.
    unfold metaSrv_failure. unfold metaSrv_parses in Hp.
    destruct (metaSrv_split m (Z.of_nat k)) as [[host port] [err|]];
      [discriminate|].
    rewrite Hr, Hs. cbn [negb].
    rewrite !gets_app, !closes_app, gets_probed, closes_probed.
    rewrite indices_snoc, map_app. simpl. rewrite app_nil_r. auto.
Qed.

(** The log lines of a turn that fails. *)
Lemma frontend_failure_logged (f : frontend.t) h i :
  healthyAt (fun _ => true) (frontend_url f) h i = false ->
  exists format, logged (frontend_failure f h i) = [(5, format)].
Proof.
  unfold healthyAt, healthy, frontend_failure. simpl andb.
  destruct (Get_result h (frontend_url f i)) as [rsp|e].
  - destruct (StatusCode rsp =? StatusOK); cbn [negb andb].
    + destruct (Body_Close rsp); [|discriminate]. simpl. eauto.
    + simpl. eauto.
  - simpl. eauto.
Qed.

Lemma metaSrv_failure_logged (m : metaSrv.t) h i :
  (exists format, logged (metaSrv_failure m h i) = [(5, format)]) \/
  logged (metaSrv_failure m h i) = [].
Proof.
  unfold metaSrv_failure.
  destruct (metaSrv_split m i) as [[host port] [err|]]; [simpl; eauto|].
  destruct (Get_result h (metaSrv_url m i)) as [rsp|e]; [|simpl; eauto].
  destruct (StatusCode rsp =? StatusOK); cbn [negb]; [|auto].
  destruct (Body_Close rsp); auto.
Qed.

(** X4. [frontend.IsRunning] logs exactly one line, at verbosity 5, when
    it returns false, and none when it returns true.
    [metaSrv.IsRunning] logs at most one line, at verbosity 5, and none at
    all when the replica it ends at has answered its GET with a response:
    a status other than 200 and an error of closing the body make it
    return false without a word. *)
Theorem IsRunning_log_lines (f : frontend.t) (m : metaSrv.t) (s : State) :
  (exists new,
     effects (snd (frontend.IsRunning f s)) = (effects s ++ new)%list /\
     if fst (frontend.IsRunning f s) then logged new = []
     else exists format, logged new = [(5, format)])
  /\
  (exists new,
     effects (snd (metaSrv.IsRunning m s)) = (effects s ++ new)%list /\
     (logged new = [] \/ exists format, logged new = [(5, format)]) /\
     (fst (metaSrv.IsRunning m s) = true -> logged new = []) /\
     forall k rsp,
       (k < Z.to_nat (config.MetaSrv.Replicas (metaSrv.config m)))%nat ->
       (forall j, (j < k)%nat ->
          turn (metaSrv_parses m) (metaSrv_url m) s 0 j = true) ->
       turn (metaSrv_parses m) (metaSrv_url m) s 0 k = false ->
       metaSrv_parses m (Z.of_nat k) = true ->
       Get_result (effects s ++ probed (metaSrv_url m) 0 k)
         (metaSrv_url m (Z.of_nat k)) = inl rsp ->
       fst (metaSrv.IsRunning m s) = false /\ logged new = []).
Proof.
  split.
  - destruct (frontend_IsRunning_exact f s)
      as [[_ E]|(k & _ & _ & Hu & E)]; rewrite E; cbn [fst snd effects since].
    + eexists. split; [reflexivity|]. apply logged_probed.
    + eexists. split; [reflexivity|].
      rewrite logged_app, logged_probed. simpl app.
      apply frontend_failure_logged. unfold turn in Hu.
      rewrite Z.add_0_l in Hu. exact Hu.
  - destruct (metaSrv_IsRunning_exact m s)
      as [[Hall E]|(k & Hk & Hb & Hu & E)]; rewrite E;
      cbn [fst snd effects since].
    + eexists. split; [reflexivity|]. rewrite logged_probed.
      split; [auto|]. split; [auto|].
      intros k rsp Hk _ Hu _ _. rewrite (Hall k Hk) in Hu. discriminate.
    + eexists. split; [reflexivity|].
      rewrite logged_app, logged_probed. simpl app.
      split; [|split; [discriminate|]].
      * destruct (metaSrv_failure_logged m
                    (effects s ++ probed (metaSrv_url m) 0 k) (Z.of_nat k));
          auto.
      * intros k' rsp Hk' Hb' Hu' Hp Hr. split; [reflexivity|].
        assert (k' = k) as ->.
        { destruct (Nat.lt_trichotomy k' k) as [Hlt|[Heq|Hgt]]; trivial.
          - rewrite (Hb k' Hlt) in Hu'. discriminate.
          - rewrite (Hb' k Hgt) in Hu. discriminate. }
        unfold metaSrv_failure. unfold metaSrv_parses in Hp.
        destruct (metaSrv_split m (Z.of_nat k)) as [[host port] [err|]];
          [discriminate|].
        rewrite Hr. destruct (StatusCode rsp =? StatusOK); cbn [negb];
          [|reflexivity].
        destruct (Body_Close rsp); reflexivity.
Qed.

End IsRunningMore.

(* ================================================================== *)
(** * More about [Start] *)

Lemma tickers_app a b : tickers (a ++ b)%list = (tickers a + tickers b)%nat.
Proof. unfold tickers. rewrite filter_app, length_app. reflexivity. Qed.

Lemma stops_app a b : stops (a ++ b)%list = (stops a + stops b)%nat.
Proof. unfold stops. rewrite filter_app, length_app. reflexivity. Qed.

Lemma launch_events_quiet new :
  forallb isLaunchEvent new = true ->
  tickers new = O /\ stops new = O /\ gets new = [].
Proof.
  induction new as [|e new IH]; simpl; [auto|].
  intros Hp. apply andb_prop in Hp as [He Hn].
  destruct (IH Hn) as (E1 & E2 & E3). unfold tickers, stops in *.
  destruct e; try discriminate; simpl; auto.
Qed.

Lemma poll_events_no_ticker new :
  forallb isPollEvent new = true -> tickers new = O /\ stops new = O.
Proof.
  induction new as [|e new IH]; simpl; [auto|].
  intros Hp. apply andb_prop in Hp as [He Hn].
  destruct (IH Hn) as (E1 & E2). unfold tickers, stops in *.
  destruct e; try discriminate; simpl; auto.
Qed.

Lemma to_nat_nonpos n : n <= 0 -> Z.to_nat n = O.
Proof. destruct n; try reflexivity. lia. Qed.

Lemma indices_bounds n : forall i x,
  In x (indices i n) -> i <= x < i + Z.of_nat n.
Proof.
  induction n as [|n IH]; intros i x; simpl; [tauto|].
  intros [<-|Hx]; [lia|]. apply IH in Hx. lia.
Qed.

Lemma indices_NoDup n : forall i, NoDup (indices i n).
Proof.
  induction n as [|n IH]; intros i; simpl; constructor.
  - intros Hi. apply indices_bounds in Hi. lia.
  - apply IH.
Qed.

(** [strconv.Itoa] writes different numbers differently. *)
Lemma Itoa_inj a b : strconv.Itoa a = strconv.Itoa b -> a = b.
Proof.
  unfold strconv.Itoa. intros E. apply DecimalZ.to_int_inj.
  assert (Some (Z.to_int a) = Some (Z.to_int b)) as [= ->]; [|reflexivity].
  rewrite <- !NilEmpty.isi, E. reflexivity.
Qed.

Lemma Sprintf_s_d_inj name a b :
  Sprintf_s_d name a = Sprintf_s_d name b -> a = b.
Proof.
  unfold Sprintf_s_d. intros E. apply append_inj_l in E.
  apply (append_inj_l ".") in E. apply Itoa_inj, E.
Qed.

Section LaunchRecords.
Context `{World}.
Variables (logDir pidDir : Z -> string) (opt : Z -> RunOptions.t).
Hypothesis opt_logDir : forall i, RunOptions.logDir (opt i) = logDir i.
Hypothesis opt_pidDir : forall i, RunOptions.pidDir (opt i) = pidDir i.

(** What a loop records, against what it launches. *)
Lemma launch_records n i s :
  exists new rest,
    effects (snd (launch logDir pidDir opt n i s)) = (effects s ++ new)%list /\
    forallb isLaunchEvent new = true /\
    pidsDirs (dirs (snd (launch logDir pidDir opt n i s)))
    = (pidsDirs (dirs s) ++ map RunOptions.pidDir (spawned new))%list /\
    logsDirs (dirs (snd (launch logDir pidDir opt n i s)))
    = (logsDirs (dirs s) ++ map RunOptions.logDir (spawned new) ++ rest)%list /\
    (List.length rest <= 1)%nat /\
    (fst (launch logDir pidDir opt n i s) = None -> rest = []).
Proof.
  assert (Hl : forall k, map RunOptions.logDir (map opt (indices i k))
                         = map logDir (indices i k)).
  { intros k. rewrite map_map. apply map_ext. auto. }
  assert (Hp : forall k, map RunOptions.pidDir (map opt (indices i k))
                         = map pidDir (indices i k)).
  { intros k. rewrite map_map. apply map_ext. auto. }
  destruct (launch_cases logDir pidDir opt n i s) as (k & g & E & _ & Hk).
  rewrite E. clear E.
  destruct g as [|e|e|e]; unfold ended; cbv zeta;
    cbn [fst snd grown effects dirs logsDirs pidsDirs].
  - exists (launched logDir pidDir opt i k), [].
    rewrite launched_isLaunchEvent, spawned_launched, Hl, Hp, app_nil_r.
    repeat split; auto.
  - exists (launched logDir pidDir opt i k ++
            [EnsureDir_ (logDir (i + Z.of_nat k))])%list, [].
    rewrite forallb_app, launched_isLaunchEvent, spawned_app, spawned_launched.
    simpl. rewrite !app_nil_r, Hl, Hp, <- app_assoc.
    repeat split; auto.
  - exists (launched logDir pidDir opt i k ++
            [EnsureDir_ (logDir (i + Z.of_nat k));
             EnsureDir_ (pidDir (i + Z.of_nat k))])%list,
           [logDir (i + Z.of_nat k)].
    rewrite forallb_app, launched_isLaunchEvent, spawned_app, spawned_launched.
    simpl. rewrite !app_nil_r, Hl, Hp, <- !app_assoc.
    repeat split; auto. discriminate.
  - exists (launched logDir pidDir opt i k ++
            steps logDir pidDir opt (i + Z.of_nat k))%list, [].
    rewrite forallb_app, launched_isLaunchEvent, spawned_app, spawned_launched.
    simpl. rewrite !map_app, Hl, Hp. simpl.
    rewrite opt_logDir, opt_pidDir, !app_nil_r, <- !app_assoc.
    repeat split; auto.
Qed.

End LaunchRecords.

Lemma NoDup_map_injective (A B : Type) (g : A -> B) (l : list A) :
  (forall a b, g a = g b -> a = b) -> NoDup l -> NoDup (map g l).
Proof.
  intros Hg Hl. induction Hl as [|x l Hx Hl IH]; simpl; constructor; auto.
  intros Hin. apply in_map_iff in Hin. destruct Hin as (y & Ey & Hy).
  apply Hg in Ey. subst y. auto.
Qed.

Section StartMore.
Context `{World} `{Package}.

(** X5. A component without replicas counts as running.  With a replica
    count of zero or less, [IsRunning] of either component returns true
    and [frontend.Start] returns nil, all without any effect;
    [metaSrv.Start] still creates its ticker and returns nil at the first
    tick its [select] takes, without a single request. *)
Theorem no_replicas (f : frontend.t) (m : metaSrv.t) s0 sel binary s :
  config.Frontend.Replicas (frontend.config f) <= 0 ->
  config.MetaSrv.Replicas (metaSrv.config m) <= 0 ->
  select s0 = Some tick ->
  frontend.IsRunning f s = (true, s) /\
  frontend.Start f binary s = (None, s) /\
  metaSrv.IsRunning m s = (true, s) /\
  metaSrv.Start m (s0 :: sel) binary s
  = (Returned None,
     since s [NewTicker_ (500 * time.Millisecond); select_ tick; Stop_]).
Proof.
  intros Hf Hm Hs.
  unfold frontend.IsRunning, frontend.Start, metaSrv.IsRunning.
  rewrite metaSrv_Start_unfold.
  rewrite (to_nat_nonpos Hf), (to_nat_nonpos Hm). cbn [launch]. cbv [ret].
  rewrite (CHECKER_tick m s0 sel _ Hs).
  unfold metaSrv.IsRunning. rewrite (to_nat_nonpos Hm). simpl.
  rewrite !since_since. auto.
Qed.

(** While replica 0 is not healthy and the context is live, the loop
    [CHECKER] stays in its [select]. *)
Lemma CHECKER_waits (m : metaSrv.t) sel : forall s,
  0 < config.MetaSrv.Replicas (metaSrv.config m) ->
  (forall h, healthyAt (metaSrv_parses m) (metaSrv_url m) h 0 = false) ->
  Forall (fun o => ctxErr o = None) sel ->
  fst (metaSrv.CHECKER m sel s) = Blocked.
Proof.
  intros s Hn Hdown Hlive. revert s.
  induction Hlive as [|o sel Ho Hlive IH]; intros s; [reflexivity|].
  destruct (select o) as [[|e]|] eqn:Hs.
  - rewrite (CHECKER_tick m o sel s Hs).
    destruct (metaSrv.IsRunning m (since s [select_ tick])) as [up s'] eqn:Er.
    destruct up; [|apply IH].
    exfalso.
    assert (Ht : fst (metaSrv.IsRunning m (since s [select_ tick])) = true)
      by (rewrite Er; reflexivity).
    unfold metaSrv.IsRunning in Ht. rewrite metaSrv_true_iff in Ht.
    specialize (Ht O ltac:(lia)). rewrite turn_O, Hdown in Ht. discriminate.
  - unfold select in Hs. rewrite Ho in Hs.
    destruct (tickReady o); discriminate.
  - rewrite (CHECKER_blocked m o sel s Hs). reflexivity.
Qed.

(** X6. [metaSrv.Start] has no timeout of its own.  Once its replicas are
    launched, as long as the context is not cancelled and the first
    replica is not healthy, [Start] does not return, however many ticks
    pass. *)
Theorem Start_waits_for_health (m : metaSrv.t) sel binary s s1 :
  metaSrv.Start_from m binary (metaSrv.bindAddrOf m)
    (Z.to_nat (config.MetaSrv.Replicas (metaSrv.config m))) 0 s
  = (None, s1) ->
  0 < config.MetaSrv.Replicas (metaSrv.config m) ->
  (forall h, healthyAt (metaSrv_parses m) (metaSrv_url m) h 0 = false) ->
  Forall (fun o => ctxErr o = None) sel ->
  fst (metaSrv.Start m sel binary s) = Blocked.
Proof.
  intros Hl Hn Hdown Hlive. rewrite metaSrv_Start_unfold.
  rewrite metaSrv_Start_from_launch in Hl. rewrite Hl.
  pose proof (CHECKER_waits m
                (since s1 [NewTicker_ (500 * time.Millisecond)])
                Hn Hdown Hlive) as Hb.
  destruct (metaSrv.CHECKER m sel _) as [r s2]. simpl in Hb. subst r.
  reflexivity.
Qed.

(** X7. [metaSrv.Start] does not leak its ticker.  It creates at most one
    ticker; whenever it returns, with nil or with an error, it has stopped
    as many tickers as it created, and a return from its first loop comes
    before any ticker and any request; a call that is still waiting holds
    one ticker and has stopped none. *)
Theorem Start_stops_its_ticker (m : metaSrv.t) sel binary s :
  exists new,
    effects (snd (metaSrv.Start m sel binary s)) = (effects s ++ new)%list /\
    (tickers new <= 1)%nat /\
    match fst (metaSrv.Start m sel binary s) with
    | Returned _ => stops new = tickers new
    | Blocked => tickers new = 1%nat /\ stops new = O
    end /\
    (forall e,
       fst (metaSrv.Start_from m binary (metaSrv.bindAddrOf m)
              (Z.to_nat (config.MetaSrv.Replicas (metaSrv.config m))) 0 s)
       = Some e ->
       tickers new = O /\ gets new = []).
Proof.
  rewrite metaSrv_Start_unfold, metaSrv_Start_from_launch.
  destruct (launch_effects (metaSrv_logDir m) (metaSrv_pidDir m)
              (metaSrv_opt m binary)
              (Z.to_nat (config.MetaSrv.Replicas (metaSrv.config m))) 0 s)
    as (new & k & E & Hq & _).
  destruct (launch_events_quiet _ Hq) as (T0 & S0 & G0).
  destruct (launch _ _ _ _ 0 s) as [[e|] s1]; simpl in E.
  { exists new. simpl. rewrite T0, S0. repeat split; auto. }
  match goal with
  | |- context [metaSrv.CHECKER m sel ?s1] =>
      destruct (CHECKER_frame m sel s1) as (polls & Ep & Hp);
      destruct (metaSrv.CHECKER m sel s1) as [r s2]
  end.
  simpl in Ep. subst s2. destruct (poll_events_no_ticker _ Hp) as [T1 S1].
  destruct r as [r|]; cbn [fst snd effects since].
  - exists (new ++ NewTicker_ (500 * time.Millisecond) :: polls ++ [Stop_])%list.
    rewrite E, <- !app_assoc. split; [reflexivity|].
    rewrite tickers_app, stops_app, T0, S0.
    change (NewTicker_ (500 * time.Millisecond) :: polls ++ [Stop_])%list
      with ([NewTicker_ (500 * time.Millisecond)] ++ polls ++ [Stop_])%list.
    rewrite !tickers_app, !stops_app, T1, S1. simpl.
    repeat split; auto; discriminate.
  - exists (new ++ NewTicker_ (500 * time.Millisecond) :: polls)%list.
    rewrite E, <- !app_assoc. split; [reflexivity|].
    rewrite tickers_app, stops_app, T0, S0.
    change (NewTicker_ (500 * time.Millisecond) :: polls)%list
      with ([NewTicker_ (500 * time.Millisecond)] ++ polls)%list.
    rewrite !tickers_app, !stops_app, T1, S1. simpl.
    repeat split; auto; discriminate.
Qed.

(** X8. [allocatedDirs] covers every launch.  After [Start] of either
    component, however it ended, the pid directories appended are exactly
    those of the launches it made, in order, and the log directories
    appended are those of the launches it made, in order, followed by at
    most one more (none when the loop of the launches ran to its end,
    whatever the readiness loop of the metasrv did after it): each
    [RunOptions] handed to [runBinary] names directories that are
    recorded. *)
Theorem Start_records_its_launches (f : frontend.t) (m : metaSrv.t)
    sel binary s :
  (exists new rest,
     effects (snd (frontend.Start f binary s)) = (effects s ++ new)%list /\
     pidsDirs (dirs (snd (frontend.Start f binary s)))
     = (pidsDirs (dirs s) ++ map RunOptions.pidDir (spawned new))%list /\
     logsDirs (dirs (snd (frontend.Start f binary s)))
     = (logsDirs (dirs s) ++ map RunOptions.logDir (spawned new) ++ rest)%list /\
     (List.length rest <= 1)%nat /\
     (fst (frontend.Start f binary s) = None -> rest = []))
  /\
  (exists new rest,
     effects (snd (metaSrv.Start m sel binary s)) = (effects s ++ new)%list /\
     pidsDirs (dirs (snd (metaSrv.Start m sel binary s)))
     = (pidsDirs (dirs s) ++ map RunOptions.pidDir (spawned new))%list /\
     logsDirs (dirs (snd (metaSrv.Start m sel binary s)))
     = (logsDirs (dirs s) ++ map RunOptions.logDir (spawned new) ++ rest)%list /\
     (List.length rest <= 1)%nat /\
     (fst (metaSrv.Start_from m binary (metaSrv.bindAddrOf m)
             (Z.to_nat (config.MetaSrv.Replicas (metaSrv.config m))) 0 s)
      = None ->
      rest = [])).
Proof.
  split.
  - rewrite frontend_Start_launch.
    destruct (launch_records (frontend_logDir f) (frontend_pidDir f)
                (frontend_opt f binary) (fun _ => eq_refl) (fun _ => eq_refl)
                (Z.to_nat (config.Frontend.Replicas (frontend.config f))) 0 s)
      as (new & rest & E & _ & Hp & Hl & Hr & Hn).
    exists new, rest. auto.
  - destruct (metaSrv_Start_dirs m sel binary s) as [Ed Er].
    destruct (metaSrv_Start_effects m sel binary s) as (more & Em & Hq).
    destruct (launch_records (metaSrv_logDir m) (metaSrv_pidDir m)
                (metaSrv_opt m binary) (fun _ => eq_refl) (fun _ => eq_refl)
                (Z.to_nat (config.MetaSrv.Replicas (metaSrv.config m))) 0 s)
      as (new & rest & E & _ & Hp & Hl & Hr & Hn).
    exists (new ++ more)%list, rest.
    rewrite Ed, Em, E, spawned_app, Hq, app_nil_r, <- app_assoc.
    repeat split; auto.
    rewrite metaSrv_Start_from_launch. exact Hn.
Qed.

(** X9. The launches of one [Start] have pairwise different names
    [component.i]: no two [RunOptions] handed to [runBinary] by a call of
    [Start] share their [Name]. *)
Theorem Start_names_differ (f : frontend.t) (m : metaSrv.t) sel binary s :
  (exists new,
     effects (snd (frontend.Start f binary s)) = (effects s ++ new)%list /\
     NoDup (map RunOptions.Name (spawned new)))
  /\
  (exists new,
     effects (snd (metaSrv.Start m sel binary s)) = (effects s ++ new)%list /\
     NoDup (map RunOptions.Name (spawned new))).
Proof.
  assert (names : forall name k,
            NoDup (map (Sprintf_s_d name) (indices 0 k))).
  { intros name k. apply NoDup_map_injective; [|apply indices_NoDup].
    intros a b. apply Sprintf_s_d_inj. }
  split.
  - rewrite frontend_Start_launch.
    destruct (launch_effects (frontend_logDir f) (frontend_pidDir f)
                (frontend_opt f binary)
                (Z.to_nat (config.Frontend.Replicas (frontend.config f))) 0 s)
      as (new & k & E & _ & _ & Hs).
    exists new. split; [exact E|]. rewrite Hs, map_map. apply names.
  - destruct (metaSrv_Start_effects m sel binary s) as (more & Em & Hq).
    destruct (launch_effects (metaSrv_logDir m) (metaSrv_pidDir m)
                (metaSrv_opt m binary)
                (Z.to_nat (config.MetaSrv.Replicas (metaSrv.config m))) 0 s)
      as (new & k & E & _ & _ & Hs).
    exists (new ++ more)%list. rewrite Em, E, <- app_assoc.
    split; [reflexivity|].
    rewrite spawned_app, Hq, app_nil_r, Hs, map_map. apply names.
Qed.

End StartMore.

(* ================================================================== *)
(** * Addresses, arguments and repeated starts *)

Lemma append_inj_r (s : string) : forall a b : string,
  (a ++ s)%string = (b ++ s)%string -> a = b.
Proof.
  assert (absurd : forall c (b : string), s <> String c (b ++ s)).
  { intros c b E. apply (f_equal String.length) in E. simpl in E.
    rewrite GoStringFacts.length_app in E. lia. }
  induction a as [|c a IH]; intros [|d b]; simpl; intros E.
  - reflexivity.
  - exfalso. apply (absurd d b E).
  - exfalso. apply (absurd c a). symmetry. exact E.
  - injection E as -> E. f_equal. apply IH, E.
Qed.

Lemma JoinHostPort_inj host a b :
  net.JoinHostPort host a = net.JoinHostPort host b -> a = b.
Proof.
  unfold net.JoinHostPort. destruct (GoString.hasByte host ":"); intros E.
  - apply (append_inj_l "[") in E. apply append_inj_l in E.
    apply (append_inj_l "]:") in E. exact E.
  - apply append_inj_l in E. apply (append_inj_l ":") in E. exact E.
Qed.

Section Addresses.
Context `{World} `{Package}.

Lemma FormatAddrArg_inj addr host p i j :
  parsesAs addr host p -> FormatAddrArg addr i = FormatAddrArg addr j -> i = j.
Proof.
  intros Hv. rewrite !(FormatAddrArg_parsesAs _ Hv). intros E.
  apply JoinHostPort_inj, Itoa_inj in E. lia.
Qed.

Lemma nth_error_map_indices (A : Type) (g : Z -> A) k i x :
  nth_error (map g (indices 0 k)) i = Some x -> x = g (Z.of_nat i).
Proof.
  destruct (Nat.lt_ge_cases i k) as [Hi|Hi].
  - rewrite nth_error_map, nth_error_indices by exact Hi.
    intros [= <-]. reflexivity.
  - intros E.
    assert (N : nth_error (map g (indices 0 k)) i = None)
      by (apply nth_error_None; rewrite length_map, indices_length; exact Hi).
    rewrite N in E. discriminate.
Qed.

(** The requests of one check, apart from what came before. *)
Lemma frontend_IsRunning_gets (f : frontend.t) s :
  exists new k,
    effects (snd (frontend.IsRunning f s)) = (effects s ++ new)%list /\
    gets new = map (frontend_url f) (indices 0 k) /\
    (k <= Z.to_nat (config.Frontend.Replicas (frontend.config f)))%nat /\
    (fst (frontend.IsRunning f s) = true ->
     k = Z.to_nat (config.Frontend.Replicas (frontend.config f))).
Proof.
  unfold frontend.IsRunning.
  destruct (frontend_frame f
              (Z.to_nat (config.Frontend.Replicas (frontend.config f))) 0 s)
    as (new & E & _).
  destruct (frontend_gets f
              (Z.to_nat (config.Frontend.Replicas (frontend.config f))) 0 s)
    as (k & Hk & Eg & Ht).
  exists new, k. rewrite E in *. cbn [since effects] in *.
  rewrite gets_app in Eg. apply app_inv_head in Eg. auto.
Qed.

Lemma metaSrv_IsRunning_gets (m : metaSrv.t) s :
  exists new k,
    effects (snd (metaSrv.IsRunning m s)) = (effects s ++ new)%list /\
    gets new = map (metaSrv_url m) (indices 0 k) /\
    (k <= Z.to_nat (config.MetaSrv.Replicas (metaSrv.config m)))%nat /\
    (fst (metaSrv.IsRunning m s) = true ->
     k = Z.to_nat (config.MetaSrv.Replicas (metaSrv.config m))).
Proof.
  unfold metaSrv.IsRunning.
  destruct (metaSrv_frame m
              (Z.to_nat (config.MetaSrv.Replicas (metaSrv.config m))) 0 s)
    as (new & E & _).
  destruct (metaSrv_gets m
              (Z.to_nat (config.MetaSrv.Replicas (metaSrv.config m))) 0 s)
    as (k & Hk & Eg & Ht).
  exists new, k. rewrite E in *. cbn [since effects] in *.
  rewrite gets_app in Eg. apply app_inv_head in Eg. auto.
Qed.

(** X10. Every replica gets an address of its own.  For a valid
    [host:port] address the addresses derived for two different replica
    indices differ; so no two requests of one [frontend.IsRunning] go to
    the same URL, nor two of one [metaSrv.IsRunning]; and a check that
    returns true has made as many requests as there are replicas. *)
Theorem replica_addresses_differ addr host p :
  parsesAs addr host p ->
  (forall i j, FormatAddrArg addr i = FormatAddrArg addr j -> i = j) /\
  (forall (f : frontend.t) s,
     config.Frontend.HTTPAddr (frontend.config f) = addr ->
     exists new,
       effects (snd (frontend.IsRunning f s)) = (effects s ++ new)%list /\
       NoDup (gets new) /\
       (fst (frontend.IsRunning f s) = true ->
        List.length (gets new)
        = Z.to_nat (config.Frontend.Replicas (frontend.config f)))) /\
  (forall (m : metaSrv.t) s,
     config.MetaSrv.HTTPAddr (metaSrv.config m) = addr ->
     exists new,
       effects (snd (metaSrv.IsRunning m s)) = (effects s ++ new)%list /\
       NoDup (gets new) /\
       (fst (metaSrv.IsRunning m s) = true ->
        List.length (gets new)
        = Z.to_nat (config.MetaSrv.Replicas (metaSrv.config m)))).
Proof.
  intros Hv. split; [|split].
  - intros i j. apply (FormatAddrArg_inj _ _ Hv).
  - intros f s <-.
    destruct (frontend_IsRunning_gets f s) as (new & k & E & Eg & _ & Ht).
    exists new. split; [exact E|]. rewrite Eg, length_map, indices_length.
    split; [|exact Ht].
    apply NoDup_map_injective; [|apply indices_NoDup].
    intros i j Eu. unfold frontend_url in Eu.
    apply (append_inj_l "http://"), append_inj_r in Eu.
    apply (FormatAddrArg_inj _ _ Hv Eu).
  - intros m s <-.
    destruct (metaSrv_IsRunning_gets m s) as (new & k & E & Eg & _ & Ht).
    exists new. split; [exact E|]. rewrite Eg, length_map, indices_length.
    split; [|exact Ht].
    apply NoDup_map_injective; [|apply indices_NoDup].
    intros i j Eu. rewrite !(metaSrv_url_valid _ _ Hv) in Eu.
    apply (append_inj_l "http://localhost:"), append_inj_r, Itoa_inj in Eu.
    lia.
Qed.

(** X11. A replica is probed where it was told to listen.  Take the
    launches of a [frontend.Start] and the requests of a
    [frontend.IsRunning], made at any time: the launch of index [i]
    carries [--http-addr=a] as its fifth argument and the request of index
    [i] is the GET of [http://a/health], with the same [a].  For the
    metasrv [--http-addr=a] is the sixth argument of the launch, and the
    request goes to the port that [net.SplitHostPort] finds in this [a],
    on [localhost].  A [Start] whose loop of launches ran to its end has
    made one launch per replica, and a check that returned true one
    request per replica. *)
Theorem probe_matches_launch (f : frontend.t) (m : metaSrv.t) sel binary
    (s s' : State) :
  (exists launches probes,
     effects (snd (frontend.Start f binary s)) = (effects s ++ launches)%list /\
     effects (snd (frontend.IsRunning f s')) = (effects s' ++ probes)%list /\
     (fst (frontend.Start f binary s) = None ->
      List.length (spawned launches)
      = Z.to_nat (config.Frontend.Replicas (frontend.config f))) /\
     (fst (frontend.IsRunning f s') = true ->
      List.length (gets probes)
      = Z.to_nat (config.Frontend.Replicas (frontend.config f))) /\
     forall i o u,
       nth_error (spawned launches) i = Some o ->
       nth_error (gets probes) i = Some u ->
       exists a,
         nth_error (RunOptions.args o) 4 = Some ("--http-addr=" ++ a) /\
         u = "http://" ++ a ++ "/health")
  /\
  (exists launches probes,
     effects (snd (metaSrv.Start m sel binary s)) = (effects s ++ launches)%list /\
     effects (snd (metaSrv.IsRunning m s')) = (effects s' ++ probes)%list /\
     (fst (metaSrv.Start_from m binary (metaSrv.bindAddrOf m)
             (Z.to_nat (config.MetaSrv.Replicas (metaSrv.config m))) 0 s)
      = None ->
      List.length (spawned launches)
      = Z.to_nat (config.MetaSrv.Replicas (metaSrv.config m))) /\
     (fst (metaSrv.IsRunning m s') = true ->
      List.length (gets probes)
      = Z.to_nat (config.MetaSrv.Replicas (metaSrv.config m))) /\
     forall i o u,
       nth_error (spawned launches) i = Some o ->
       nth_error (gets probes) i = Some u ->
       exists a,
         nth_error (RunOptions.args o) 5 = Some ("--http-addr=" ++ a) /\
         u = "http://localhost:" ++ snd (fst (net.SplitHostPort a)) ++
             "/health").
Proof.
  split.
  - destruct (launch_spawned (frontend_logDir f) (frontend_pidDir f)
                (frontend_opt f binary)
                (Z.to_nat (config.Frontend.Replicas (frontend.config f))) 0 s)
      as (launches & k & E & _ & Hs & Hn).
    destruct (frontend_IsRunning_gets f s') as (probes & k' & E' & Eg & _ & Ht).
    rewrite frontend_Start_launch. exists launches, probes.
    split; [exact E|]. split; [exact E'|].
    rewrite Hs, Eg, !length_map, !indices_length.
    split; [exact Hn|]. split; [exact Ht|].
    intros i o u Ho Hu.
    apply nth_error_map_indices in Ho. apply nth_error_map_indices in Hu.
    subst o u.
    exists (FormatAddrArg (config.Frontend.HTTPAddr (frontend.config f))
              (Z.of_nat i)).
    split; [|reflexivity].
    unfold frontend_opt. cbn [RunOptions.args].
    unfold frontend.BuildArgs, GenerateAddrArg, append.
    destruct (Nat.ltb 0 (String.length
                           (config.Frontend.Config (frontend.config f))));
      destruct (Nat.ltb 0 (String.length
                             (config.Frontend.UserProvider (frontend.config f))));
      reflexivity.
  - destruct (metaSrv_Start_effects m sel binary s) as (more & Em & Hq).
    destruct (launch_spawned (metaSrv_logDir m) (metaSrv_pidDir m)
                (metaSrv_opt m binary)
                (Z.to_nat (config.MetaSrv.Replicas (metaSrv.config m))) 0 s)
      as (launches & k & E & _ & Hs & Hn).
    destruct (metaSrv_IsRunning_gets m s') as (probes & k' & E' & Eg & _ & Ht).
    exists (launches ++ more)%list, probes.
    rewrite Em, E, <- app_assoc. split; [reflexivity|]. split; [exact E'|].
    rewrite spawned_app, Hq, app_nil_r, Hs, Eg, !length_map, !indices_length.
    rewrite metaSrv_Start_from_launch.
    split; [exact Hn|]. split; [exact Ht|].
    intros i o u Ho Hu.
    apply nth_error_map_indices in Ho. apply nth_error_map_indices in Hu.
    subst o u.
    exists (FormatAddrArg (config.MetaSrv.HTTPAddr (metaSrv.config m))
              (Z.of_nat i)).
    split; [|reflexivity].
    unfold metaSrv_opt. cbn [RunOptions.args].
    rewrite BuildArgs_elements. reflexivity.
Qed.

(** X12. The replicas of a frontend differ in their four addresses only.
    Whatever the replica index, [frontend.BuildArgs] returns 8 arguments
    plus one for a configuration file and one for a user provider; the
    first four and those after the eighth do not depend on the index; and
    the optional ones come in this order, [-c=] before
    [--user-provider=]. *)
Theorem frontend_BuildArgs_replicas (f : frontend.t) i j :
  List.length (frontend.BuildArgs f i)
  = (8 + (if Nat.ltb 0 (String.length
                          (config.Frontend.Config (frontend.config f)))
          then 1 else 0)
       + (if Nat.ltb 0 (String.length
                          (config.Frontend.UserProvider (frontend.config f)))
          then 1 else 0))%nat
  /\
  firstn 4 (frontend.BuildArgs f i) = firstn 4 (frontend.BuildArgs f j)
  /\
  skipn 8 (frontend.BuildArgs f i) = skipn 8 (frontend.BuildArgs f j)
  /\
  skipn 8 (frontend.BuildArgs f i)
  = ((if Nat.ltb 0 (String.length
                      (config.Frontend.Config (frontend.config f)))
      then ["-c=" ++ config.Frontend.Config (frontend.config f)]%string
      else []) ++
     (if Nat.ltb 0 (String.length
                      (config.Frontend.UserProvider (frontend.config f)))
      then ["--user-provider=" ++
            config.Frontend.UserProvider (frontend.config f)]%string
      else []))%list.
Proof.
  unfold frontend.BuildArgs, GenerateAddrArg, append.
  destruct (Nat.ltb 0 (String.length
                         (config.Frontend.Config (frontend.config f))));
    destruct (Nat.ltb 0 (String.length
                           (config.Frontend.UserProvider (frontend.config f))));
    repeat split; reflexivity.
Qed.

(** X13. [metaSrv.Start] returns at the first tick that finds every
    replica healthy.  In a world where no directory creation and no launch
    fails, when the first [select] takes a tick and every replica is
    healthy in its turn of the check that follows, [Start] returns nil,
    after the launches, one ticker, one [select], one request and one
    closed body per replica, and the stop of the ticker. *)
Theorem Start_returns_when_healthy (m : metaSrv.t) s0 sel binary s :
  neverFails ->
  select s0 = Some tick ->
  (forall k,
     (k < Z.to_nat (config.MetaSrv.Replicas (metaSrv.config m)))%nat ->
     turn (metaSrv_parses m) (metaSrv_url m)
       (since
          (grown s
             (launched (metaSrv_logDir m) (metaSrv_pidDir m)
                (metaSrv_opt m binary) 0
                (Z.to_nat (config.MetaSrv.Replicas (metaSrv.config m))))
             (map (metaSrv_logDir m)
                (indices 0
                   (Z.to_nat (config.MetaSrv.Replicas (metaSrv.config m)))))
             (map (metaSrv_pidDir m)
                (indices 0
                   (Z.to_nat (config.MetaSrv.Replicas (metaSrv.config m))))))
          [NewTicker_ (500 * time.Millisecond); select_ tick])
       0 k = true) ->
  metaSrv.Start m (s0 :: sel) binary s
  = (Returned None,
     since
       (grown s
          (launched (metaSrv_logDir m) (metaSrv_pidDir m)
             (metaSrv_opt m binary) 0
             (Z.to_nat (config.MetaSrv.Replicas (metaSrv.config m))))
          (map (metaSrv_logDir m)
             (indices 0
                (Z.to_nat (config.MetaSrv.Replicas (metaSrv.config m)))))
          (map (metaSrv_pidDir m)
             (indices 0
                (Z.to_nat (config.MetaSrv.Replicas (metaSrv.config m))))))
       (NewTicker_ (500 * time.Millisecond) :: select_ tick ::
        probed (metaSrv_url m) 0
          (Z.to_nat (config.MetaSrv.Replicas (metaSrv.config m))) ++
        [Stop_])%list).
Proof.
  intros Hw Hs Hup.
  rewrite metaSrv_Start_unfold, (launch_neverFails _ _ _ _ _ _ Hw).
  rewrite (CHECKER_tick m s0 sel _ Hs), since_since.
  change ([NewTicker_ (500 * time.Millisecond)] ++ [select_ tick])%list
    with [NewTicker_ (500 * time.Millisecond); select_ tick].
  destruct (metaSrv_IsRunning_exact m
              (since
                 (grown s
                    (launched (metaSrv_logDir m) (metaSrv_pidDir m)
                       (metaSrv_opt m binary) 0
                       (Z.to_nat (config.MetaSrv.Replicas (metaSrv.config m))))
                    (map (metaSrv_logDir m)
                       (indices 0
                          (Z.to_nat
                             (config.MetaSrv.Replicas (metaSrv.config m)))))
                    (map (metaSrv_pidDir m)
                       (indices 0
                          (Z.to_nat
                             (config.MetaSrv.Replicas (metaSrv.config m))))))
                 [NewTicker_ (500 * time.Millisecond); select_ tick]))
    as [[_ E]|(k & Hk & _ & Hd & _)].
  - rewrite E, !since_since. reflexivity.
  - rewrite (Hup k Hk) in Hd. discriminate.
Qed.

(** X14. Nothing keeps [Start] from running twice.  A component comes
    from its constructor with empty [allocatedDirs]; in a world where no
    directory creation and no launch fails, one [Start] leaves in them the
    log directory and the pid directory of each replica, and a second
    [Start] launches every replica again, under the same name, and holds
    every directory twice. *)
Theorem Start_twice (cfg : config.Frontend.t) metaSrvAddr
    (cfg' : config.MetaSrv.t) mem wd sel sel' binary h :
  neverFails ->
  (dirs (snd (frontend.Start (fst (NewFrontend cfg metaSrvAddr wd)) binary
                (holding (snd (NewFrontend cfg metaSrvAddr wd)) h)))
   = {| logsDirs :=
          map (frontend_logDir (fst (NewFrontend cfg metaSrvAddr wd)))
            (indices 0 (Z.to_nat (config.Frontend.Replicas cfg)));
        pidsDirs :=
          map (frontend_pidDir (fst (NewFrontend cfg metaSrvAddr wd)))
            (indices 0 (Z.to_nat (config.Frontend.Replicas cfg))) |}
   /\
   dirs (snd (frontend.Start (fst (NewFrontend cfg metaSrvAddr wd)) binary
                (snd (frontend.Start (fst (NewFrontend cfg metaSrvAddr wd))
                        binary
                        (holding (snd (NewFrontend cfg metaSrvAddr wd)) h)))))
   = {| logsDirs :=
          (map (frontend_logDir (fst (NewFrontend cfg metaSrvAddr wd)))
             (indices 0 (Z.to_nat (config.Frontend.Replicas cfg))) ++
           map (frontend_logDir (fst (NewFrontend cfg metaSrvAddr wd)))
             (indices 0 (Z.to_nat (config.Frontend.Replicas cfg))))%list;
        pidsDirs :=
          (map (frontend_pidDir (fst (NewFrontend cfg metaSrvAddr wd)))
             (indices 0 (Z.to_nat (config.Frontend.Replicas cfg))) ++
           map (frontend_pidDir (fst (NewFrontend cfg metaSrvAddr wd)))
             (indices 0 (Z.to_nat (config.Frontend.Replicas cfg))))%list |}
   /\
   spawned
     (effects
        (snd (frontend.Start (fst (NewFrontend cfg metaSrvAddr wd)) binary
                (snd (frontend.Start (fst (NewFrontend cfg metaSrvAddr wd))
                        binary
                        (holding (snd (NewFrontend cfg metaSrvAddr wd)) h))))))
   = (spawned h ++
      map (frontend_opt (fst (NewFrontend cfg metaSrvAddr wd)) binary)
        (indices 0 (Z.to_nat (config.Frontend.Replicas cfg))) ++
      map (frontend_opt (fst (NewFrontend cfg metaSrvAddr wd)) binary)
        (indices 0 (Z.to_nat (config.Frontend.Replicas cfg))))%list)
  /\
  (dirs (snd (metaSrv.Start (fst (NewMetaSrv cfg' wd mem)) sel binary
                (holding (snd (NewMetaSrv cfg' wd mem)) h)))
   = {| logsDirs :=
          map (metaSrv_logDir (fst (NewMetaSrv cfg' wd mem)))
            (indices 0 (Z.to_nat (config.MetaSrv.Replicas cfg')));
        pidsDirs :=
          map (metaSrv_pidDir (fst (NewMetaSrv cfg' wd mem)))
            (indices 0 (Z.to_nat (config.MetaSrv.Replicas cfg'))) |}
   /\
   dirs (snd (metaSrv.Start (fst (NewMetaSrv cfg' wd mem)) sel' binary
                (snd (metaSrv.Start (fst (NewMetaSrv cfg' wd mem)) sel binary
                        (holding (snd (NewMetaSrv cfg' wd mem)) h)))))
   = {| logsDirs :=
          (map (metaSrv_logDir (fst (NewMetaSrv cfg' wd mem)))
             (indices 0 (Z.to_nat (config.MetaSrv.Replicas cfg'))) ++
           map (metaSrv_logDir (fst (NewMetaSrv cfg' wd mem)))
             (indices 0 (Z.to_nat (config.MetaSrv.Replicas cfg'))))%list;
        pidsDirs :=
          (map (metaSrv_pidDir (fst (NewMetaSrv cfg' wd mem)))
             (indices 0 (Z.to_nat (config.MetaSrv.Replicas cfg'))) ++
           map (metaSrv_pidDir (fst (NewMetaSrv cfg' wd mem)))
             (indices 0 (Z.to_nat (config.MetaSrv.Replicas cfg'))))%list |}
   /\
   spawned
     (effects
        (snd (metaSrv.Start (fst (NewMetaSrv cfg' wd mem)) sel' binary
                (snd (metaSrv.Start (fst (NewMetaSrv cfg' wd mem)) sel binary
                        (holding (snd (NewMetaSrv cfg' wd mem)) h))))))
   = (spawned h ++
      map (metaSrv_opt (fst (NewMetaSrv cfg' wd mem)) binary)
        (indices 0 (Z.to_nat (config.MetaSrv.Replicas cfg'))) ++
      map (metaSrv_opt (fst (NewMetaSrv cfg' wd mem)) binary)
        (indices 0 (Z.to_nat (config.MetaSrv.Replicas cfg'))))%list).
Proof.
  intros Hw. split.
  - rewrite !frontend_Start_launch, !(launch_neverFails _ _ _ _ _ _ Hw).
    cbn [snd fst NewFrontend frontend.config]. rewrite grown_grown.
    cbn [grown dirs effects holding logsDirs pidsDirs app].
    rewrite !spawned_app, !spawned_launched. auto.
  - set (m := fst (NewMetaSrv cfg' wd mem)).
    set (s := holding (snd (NewMetaSrv cfg' wd mem)) h).
    destruct (metaSrv_Start_dirs m sel binary s) as [D1 _].
    destruct (metaSrv_Start_dirs m sel' binary
                (snd (metaSrv.Start m sel binary s))) as [D2 _].
    destruct (metaSrv_Start_effects m sel binary s) as (more & E1 & Q1).
    destruct (metaSrv_Start_effects m sel' binary
                (snd (metaSrv.Start m sel binary s))) as (more' & E2 & Q2).
    rewrite (launch_neverFails _ _ _ _ _ _ Hw) in D1, E1.
    rewrite (launch_neverFails _ _ _ _ _ _ Hw) in D2, E2.
    rewrite D2, E2. cbn [snd grown dirs effects logsDirs pidsDirs].
    rewrite D1, E1. cbn [snd grown dirs effects logsDirs pidsDirs].
    subst m s. cbn [fst snd NewMetaSrv metaSrv.config holding dirs effects
                    logsDirs pidsDirs app].
    rewrite !spawned_app, !spawned_launched, Q1, Q2, !app_nil_r, <- !app_assoc.
    auto.
Qed.

End Addresses.

(* ================================================================== *)
(** * The pace of the readiness loop *)

Lemma ticks_app a b : ticks (a ++ b)%list = (ticks a + ticks b)%nat.
Proof. unfold ticks. rewrite filter_app, List.length_app. reflexivity. Qed.

Lemma probe_events_no_tick new :
  forallb isProbeEvent new = true -> ticks new = O.
Proof.
  induction new as [|e new IH]; simpl; [auto|].
  intros Hp. apply andb_prop in Hp as [He Hn].
  specialize (IH Hn). unfold ticks in *.
  destruct e; try discriminate; simpl; auto.
Qed.

Lemma launch_events_no_tick new :
  forallb isLaunchEvent new = true -> ticks new = O.
Proof.
  induction new as [|e new IH]; simpl; [auto|].
  intros Hp. apply andb_prop in Hp as [He Hn].
  specialize (IH Hn). unfold ticks in *.
  destruct e; try discriminate; simpl; auto.
Qed.

Section Pace.
Context `{World} `{Package}.

(** One check requests at most one endpoint per replica. *)
Lemma metaSrv_IsRunning_requests (m : metaSrv.t) s :
  exists new,
    snd (metaSrv.IsRunning m s) = since s new /\
    ticks new = O /\
    (List.length (gets new)
     <= Z.to_nat (config.MetaSrv.Replicas (metaSrv.config m)))%nat.
Proof.
  destruct (metaSrv_IsRunning_frame m s) as (new & E & Hp).
  exists new. split; [exact E|]. split; [apply probe_events_no_tick, Hp|].
  destruct (metaSrv_gets m
              (Z.to_nat (config.MetaSrv.Replicas (metaSrv.config m))) 0 s)
    as (k & Hk & Eg & _).
  fold (metaSrv.IsRunning m s) in Eg. rewrite E in Eg.
  cbn [since effects] in Eg. rewrite gets_app in Eg.
  apply app_inv_head in Eg. rewrite Eg, length_map, indices_length.
  exact Hk.
Qed.

Lemma CHECKER_pace (m : metaSrv.t) sel : forall s,
  exists polls,
    snd (metaSrv.CHECKER m sel s) = since s polls /\
    (List.length (gets polls)
     <= Z.to_nat (config.MetaSrv.Replicas (metaSrv.config m)) * ticks polls)%nat.
Proof.
  induction sel as [|s0 sel IH]; intros s.
  - exists []. simpl. rewrite since_nil. split; [reflexivity|lia].
  - destruct (select s0) as [[|e]|] eqn:Hs.
    + rewrite (CHECKER_tick m s0 sel s Hs).
      destruct (metaSrv_IsRunning_requests m (since s [select_ tick]))
        as (new & E & Ht & Hg).
      destruct (metaSrv.IsRunning m (since s [select_ tick])) as [up s'].
      simpl in E. subst s'. destruct up.
      * exists ([select_ tick] ++ new)%list. rewrite since_since.
        split; [reflexivity|].
        rewrite gets_app, ticks_app, Ht. simpl. lia.
      * destruct (IH (since (since s [select_ tick]) new))
          as (polls & E & Hq).
        exists (([select_ tick] ++ new) ++ polls)%list.
        rewrite E, !since_since. split; [reflexivity|].
        rewrite !gets_app, !ticks_app, !List.length_app, Ht. simpl.
        change (ticks [select_ tick]) with 1%nat. nia.
    + rewrite (CHECKER_done m s0 sel s Hs). exists [select_ (done e)].
      split; [reflexivity|]. simpl. lia.
    + rewrite (CHECKER_blocked m s0 sel s Hs). exists []. simpl.
      rewrite since_nil. split; [reflexivity|lia].
Qed.

(** X15. [metaSrv.Start] checks the health once per tick, no more.  The
    requests [Start] makes are at most the replica count times the ticks
    its [select] took: no request before the first tick, and between two
    ticks at most one request per replica. *)
Theorem Start_polls_once_per_tick (m : metaSrv.t) sel binary s :
  exists new,
    effects (snd (metaSrv.Start m sel binary s)) = (effects s ++ new)%list /\
    (List.length (gets new)
     <= Z.to_nat (config.MetaSrv.Replicas (metaSrv.config m)) * ticks new)%nat.
Proof.
  rewrite metaSrv_Start_unfold.
  destruct (launch_effects (metaSrv_logDir m) (metaSrv_pidDir m)
              (metaSrv_opt m binary)
              (Z.to_nat (config.MetaSrv.Replicas (metaSrv.config m))) 0 s)
    as (new & k & E & Hq & _).
  destruct (launch_events_quiet _ Hq) as (_ & _ & G0).
  pose proof (launch_events_no_tick _ Hq) as T0.
  destruct (launch _ _ _ _ 0 s) as [[e|] s1]; simpl in E.
  { exists new. simpl. rewrite G0. split; [exact E|]. simpl. lia. }
  match goal with
  | |- context [metaSrv.CHECKER m sel ?s1] =>
      destruct (CHECKER_pace m sel s1) as (polls & Ep & Hp);
      destruct (metaSrv.CHECKER m sel s1) as [r s2]
  end.
  simpl in Ep. subst s2.
  destruct r as [r|]; cbn [fst snd effects since].
  - exists (new ++ [NewTicker_ (500 * time.Millisecond)] ++ polls ++ [Stop_])%list.
    rewrite E, <- !app_assoc. split; [reflexivity|].
    rewrite !gets_app, !ticks_app, !List.length_app, G0, T0. simpl. lia.
  - exists (new ++ [NewTicker_ (500 * time.Millisecond)] ++ polls)%list.
    rewrite E, <- !app_assoc. split; [reflexivity|].
    rewrite !gets_app, !ticks_app, !List.length_app, G0, T0. simpl. lia.
Qed.

(** X16. The replicas of a metasrv share their store and server
    addresses.  Whatever the replica index, [metaSrv.BuildArgs] returns 7
    arguments plus one for the memory store and one for a configuration
    file; the first five, with [--store-addr=] and [--server-addr=] as
    configured, depend neither on the index nor on the bind address; the
    sixth and the seventh are the HTTP address and the bind address
    derived for the index. *)
Theorem metaSrv_BuildArgs_replicas (m : metaSrv.t) i j b b' :
  List.length (metaSrv.BuildArgs m i b)
  = (7 + (if metaSrv.useMemoryMeta m then 1 else 0)
       + (if Nat.ltb 0 (String.length
                          (config.MetaSrv.Config (metaSrv.config m)))
          then 1 else 0))%nat
  /\
  firstn 5 (metaSrv.BuildArgs m i b) = firstn 5 (metaSrv.BuildArgs m j b')
  /\
  nth_error (metaSrv.BuildArgs m i b) 3
  = Some ("--store-addr=" ++ config.MetaSrv.StoreAddr (metaSrv.config m))
  /\
  nth_error (metaSrv.BuildArgs m i b) 4
  = Some ("--server-addr=" ++ config.MetaSrv.ServerAddr (metaSrv.config m))
  /\
  nth_error (metaSrv.BuildArgs m i b) 5
  = Some ("--http-addr=" ++
          FormatAddrArg (config.MetaSrv.HTTPAddr (metaSrv.config m)) i)
  /\
  nth_error (metaSrv.BuildArgs m i b) 6
  = Some ("--bind-addr=" ++ FormatAddrArg b i).
Proof.
  rewrite !BuildArgs_elements.
  destruct (metaSrv.useMemoryMeta m);
    destruct (Nat.ltb 0 (String.length
                           (config.MetaSrv.Config (metaSrv.config m))));
    repeat split; reflexivity.
Qed.

End Pace.

(* ================================================================== *)
(** * The theorems at work on the examples *)

Example SplitHostPort_v4 :
  net.SplitHostPort "127.0.0.1:4000" = ("127.0.0.1", "4000", None).
Proof. reflexivity. Qed.

Example SplitHostPort_v6 :
  net.SplitHostPort "[::1]:80" = ("::1", "80", None).
Proof. reflexivity. Qed.

Example SplitHostPort_true :
  net.SplitHostPort "true"
  = ("", "", Some (errorString "address true: missing port in address")).
Proof. reflexivity. Qed.

Example Atoi_examples :
  strconv.Atoi "4000" = Some 4000 /\ strconv.Atoi "-7" = Some (-7) /\
  strconv.Atoi "+12" = Some 12 /\ strconv.Atoi "" = None /\
  strconv.Atoi "-" = None /\ strconv.Atoi "4x" = None /\
  strconv.Atoi "9223372036854775808" = None /\
  strconv.Itoa 4001 = "4001" /\ strconv.Itoa 0 = "0" /\
  strconv.Itoa (-3) = "-3".
Proof. repeat split; reflexivity. Qed.

Lemma parsesAs_example : parsesAs "127.0.0.1:4000" "127.0.0.1" 4000.
Proof. exists "4000". split; reflexivity. Qed.

Lemma calm_neverFails : @neverFails example.calm.
Proof. split; reflexivity. Qed.

(** C5 at [127.0.0.1:4000] and replica 1. *)
Lemma GenerateAddrArg_valid_witness :
  parsesAs "127.0.0.1:4000" "127.0.0.1" 4000 /\
  @GenerateAddrArg example.package "--http-addr" "127.0.0.1:4000" 1
    ["frontend"; "start"]
  = ["frontend"; "start"; "--http-addr=127.0.0.1:4001"].
Proof.
  split; [exact parsesAs_example|].
  exact (proj1 (@GenerateAddrArg_valid example.package "--http-addr"
                  "127.0.0.1:4000" "127.0.0.1" 4000 1 ["frontend"; "start"]
                  parsesAs_example)).
Defined.

(** C1 on two healthy replicas, and on a first replica that answers 503:
    the second is not asked. *)
Example IsRunning_two_healthy :
  @frontend.IsRunning example.calm example.package example.front example.fresh
  = (true,
     since example.fresh
       [Get_ "http://127.0.0.1:4000/health";
        Close_ "http://127.0.0.1:4000/health";
        Get_ "http://127.0.0.1:4001/health";
        Close_ "http://127.0.0.1:4001/health"]).
Proof. reflexivity. Qed.

Example IsRunning_first_down :
  gets (effects (snd
    (@frontend.IsRunning
       (example.world [] [] ["http://127.0.0.1:4000/health"])
       example.package example.front example.fresh)))
  = ["http://127.0.0.1:4000/health"]
  /\
  fst (@frontend.IsRunning
         (example.world [] [] ["http://127.0.0.1:4000/health"])
         example.package example.front example.fresh)
  = false.
Proof. split; reflexivity. Qed.



(** C3 as stated fails when a launch fails: of two configured replicas
    the first cannot be launched, and [Start] returns that error with one
    log directory and one pid directory ensured. *)
Lemma Start_spawn_failure_creates_fewer :
  config.Frontend.Replicas (frontend.config example.front) = 2
  /\
  fst (@frontend.Start (example.world [] ["frontend.0"] []) example.package
         example.front "greptime" example.fresh)
  = Some (errorString "exec: not started: frontend.0")
  /\
  ensured (effects (snd
    (@frontend.Start (example.world [] ["frontend.0"] []) example.package
       example.front "greptime" example.fresh)))
  = ["/d/logs/frontend.0"; "/d/pids/frontend.0"].
Proof. repeat split; reflexivity. Qed.

(** C3 as amended, in the calm world with two replicas. *)
Lemma Start_creates_directories_witness :
  @neverFails example.calm /\
  ensured (effects (snd
    (@frontend.Start example.calm example.package example.front "greptime"
       example.fresh)))
  = ["/d/logs/frontend.0"; "/d/pids/frontend.0";
     "/d/logs/frontend.1"; "/d/pids/frontend.1"].
Proof.
  split; [exact calm_neverFails|].
  destruct (@Start_creates_directories example.calm example.package
              example.front (example.meta false) [] "greptime" example.fresh
              calm_neverFails) as (_ & E & _).
  rewrite E. reflexivity.
Defined.

(** C7 as stated fails when a tick is already waiting at the first
    [select] (the goroutine was held up for the 500 milliseconds of the
    first tick) and the runtime picks it: with every replica healthy,
    [Start] returns nil although the context was cancelled before. *)
Lemma Start_cancelled_tick_pending :
  ctxErr example.cancelledLate = Some (errorString "context canceled")
  /\
  fst (@metaSrv.Start example.calm example.package (example.meta false)
         [example.cancelledLate] "greptime" example.fresh)
  = Returned None.
Proof. split; reflexivity. Qed.

(** C7 as amended, in the calm world. *)
Lemma Start_cancelled_witness :
  fst (@metaSrv.Start example.calm example.package (example.meta false)
         [example.cancelled] "greptime" example.fresh)
  = Returned
      (Some (errorString "status checking failed: context canceled"))
  /\
  gets (effects (snd
    (@metaSrv.Start example.calm example.package (example.meta false)
       [example.cancelled] "greptime" example.fresh)))
  = [].
Proof.
  rewrite (@Start_cancelled example.calm example.package (example.meta false)
             example.cancelled [] "greptime" example.fresh
             (snd (@metaSrv.Start_from example.calm example.package
                     (example.meta false) "greptime"
                     (metaSrv.bindAddrOf (example.meta false)) 2 0
                     example.fresh))
             (errorString "context canceled") eq_refl eq_refl eq_refl).
  split; reflexivity.
Defined.

(** C9 as stated fails when a pid directory cannot be ensured: the log
    directory of replica 1 is held, its pid directory is not. *)
Lemma Start_pid_dir_failure_unpaired :
  fst (@frontend.Start (example.world ["/d/pids/frontend.1"] [] [])
         example.package example.front "greptime" example.fresh)
  = Some (errorString "mkdir /d/pids/frontend.1: permission denied")
  /\
  dirs (snd
    (@frontend.Start (example.world ["/d/pids/frontend.1"] [] [])
       example.package example.front "greptime" example.fresh))
  = {| logsDirs := ["/d/logs/frontend.0"; "/d/logs/frontend.1"];
       pidsDirs := ["/d/pids/frontend.0"] |}.
Proof. split; reflexivity. Qed.

(** C6 and C10 at work: the metasrv with an empty [BindAddr], two replicas
    and a first tick with both healthy. *)
Example metaSrv_Start_ready :
  fst (@metaSrv.Start example.calm example.package (example.meta false)
         [example.ticked] "greptime" example.fresh)
  = Returned None
  /\
  map (fun o => filter (fun a => HasPrefix a "--bind-addr=") (RunOptions.args o))
    (spawned (effects (snd
       (@metaSrv.Start example.calm example.package (example.meta false)
          [example.ticked] "greptime" example.fresh))))
  = [["--bind-addr=127.0.0.1:3002"]; ["--bind-addr=127.0.0.1:3003"]].
Proof. split; reflexivity. Qed.

(** The in-memory flag of the metasrv goes through the address helper
    with the text [true], which is no address.  Whether the argument
    [--use-memory-store=true] comes out depends on what the helper does
    then: with a helper that returns such a text as it is, it does; with
    one that goes on with an empty host and the port 0, the argument is
    [--use-memory-store=:0] for replica 0. *)
Example memory_store_unchanged :
  existsb (String.eqb "--use-memory-store=true")
    (@metaSrv.BuildArgs example.package (example.meta true) 0 "127.0.0.1:3002")
  = true.
Proof. reflexivity. Qed.

Example memory_store_zeroing :
  existsb (String.eqb "--use-memory-store=true")
    (@metaSrv.BuildArgs example.zeroing (example.meta true) 0 "127.0.0.1:3002")
  = false
  /\
  existsb (String.eqb "--use-memory-store=:0")
    (@metaSrv.BuildArgs example.zeroing (example.meta true) 0 "127.0.0.1:3002")
  = true.
Proof. split; reflexivity. Qed.

(** C6 in a world where the replicas get healthy after the first request:
    the first tick finds replica 0 not healthy, the second finds both
    healthy, and [Start] returns nil. *)
Lemma Start_readiness_witness :
  fst (@metaSrv.Start example.warming example.package (example.meta false)
         [example.ticked; example.ticked] "greptime" example.fresh)
  = Returned None
  /\
  gets (effects (snd
    (@metaSrv.Start example.warming example.package (example.meta false)
       [example.ticked; example.ticked] "greptime" example.fresh)))
  = ["http://localhost:4000/health"; "http://localhost:4000/health";
     "http://localhost:4001/health"].
Proof.
  destruct (@Start_readiness example.warming example.package
              (example.meta false) example.front [] "greptime" example.fresh)
    as (_ & _ & _ & Hpoll & _).
  destruct (Hpoll
              (snd (@metaSrv.Start_from example.warming example.package
                      (example.meta false) "greptime"
                      (metaSrv.bindAddrOf (example.meta false)) 2 0
                      example.fresh))
              [example.ticked])
    as (_ & _ & _ & Htick).
  - reflexivity.
  - repeat constructor.
  - intros j Hj. destruct j as [|j]; [reflexivity|]. simpl in Hj. lia.
  - change [example.ticked; example.ticked]
      with ([example.ticked] ++ example.ticked :: [])%list.
    rewrite (Htick example.ticked [] eq_refl eq_refl).
    split; reflexivity.
Defined.

(** C9 as amended, where the pid directory of replica 1 cannot be
    ensured. *)
Lemma allocatedDirs_grow_witness :
  logsDirs (dirs (snd
    (@frontend.Start (example.world ["/d/pids/frontend.1"] [] [])
       example.package example.front "greptime" example.fresh)))
  = ["/d/logs/frontend.0"; "/d/logs/frontend.1"]
  /\
  pidsDirs (dirs (snd
    (@frontend.Start (example.world ["/d/pids/frontend.1"] [] [])
       example.package example.front "greptime" example.fresh)))
  = ["/d/pids/frontend.0"].
Proof.
  destruct (@allocatedDirs_grow (example.world ["/d/pids/frontend.1"] [] [])
              example.package example.front (example.meta false) []
              "greptime" example.fresh)
    as (_ & _ & _ & Hpid & _).
  destruct (Hpid 1%nat
              (errorString "mkdir /d/pids/frontend.1: permission denied"))
    as (_ & El & Ep).
  - simpl. lia.
  - reflexivity.
  - reflexivity.
  - rewrite El, Ep. split; reflexivity.
Defined.

(** C10 in the calm world: the two launches of a metasrv with an empty
    [BindAddr]. *)
Lemma metaSrv_bind_addr_witness :
  map (fun o =>
         filter (fun a => GoString.HasPrefix a "--bind-addr=")
           (RunOptions.args o))
    (spawned (effects (snd
       (@metaSrv.Start example.calm example.package (example.meta false)
          [example.ticked] "greptime" example.fresh))))
  = [["--bind-addr=127.0.0.1:3002"]; ["--bind-addr=127.0.0.1:3003"]].
Proof.
  destruct (@metaSrv_bind_addr example.calm example.package
              (example.meta false) "greptime")
    as (_ & _ & _ & Hall & _).
  destruct (Hall [example.ticked] example.fresh)
    as (new & k & E & _ & Hm & Hn).
  rewrite E. change (effects example.fresh ++ new)%list with new.
  rewrite Hm, (Hn eq_refl). reflexivity.
Defined.

(* ================================================================== *)
(** * The further theorems on the examples *)

(** X5 on a frontend with no replica and a metasrv with the count -1. *)
Lemma no_replicas_witness :
  @frontend.IsRunning example.calm example.package example.idleFront
    example.fresh
  = (true, example.fresh)
  /\
  @frontend.Start example.calm example.package example.idleFront "greptime"
    example.fresh
  = (None, example.fresh)
  /\
  @metaSrv.IsRunning example.calm example.package example.idleMeta
    example.fresh
  = (true, example.fresh)
  /\
  @metaSrv.Start example.calm example.package example.idleMeta
    [example.ticked] "greptime" example.fresh
  = (Returned None,
     since example.fresh
       [NewTicker_ (500 * time.Millisecond); select_ tick; Stop_]).
Proof.
  apply (@no_replicas example.calm example.package example.idleFront
           example.idleMeta example.ticked [] "greptime" example.fresh).
  - simpl. lia.
  - simpl. lia.
  - reflexivity.
Defined.

(** X6 in a world where the first replica answers 503: three ticks pass
    and [Start] is still waiting. *)
Lemma Start_waits_for_health_witness :
  fst (@metaSrv.Start example.stuck example.package (example.meta false)
         [example.ticked; example.ticked; example.ticked] "greptime"
         example.fresh)
  = Blocked.
Proof.
  apply (@Start_waits_for_health example.stuck example.package
           (example.meta false)
           [example.ticked; example.ticked; example.ticked] "greptime"
           example.fresh
           (snd (@metaSrv.Start_from example.stuck example.package
                   (example.meta false) "greptime"
                   (metaSrv.bindAddrOf (example.meta false)) 2 0
                   example.fresh))).
  - reflexivity.
  - simpl. lia.
  - intros h. reflexivity.
  - repeat constructor.
Defined.

(** X10 at [127.0.0.1:4000]: the requests of a check of two healthy
    replicas. *)
Lemma replica_addresses_differ_witness :
  parsesAs "127.0.0.1:4000" "127.0.0.1" 4000 /\
  NoDup
    (gets (effects (snd
       (@frontend.IsRunning example.calm example.package example.front
          example.fresh)))) /\
  NoDup
    (gets (effects (snd
       (@metaSrv.IsRunning example.calm example.package (example.meta false)
          example.fresh)))).
Proof.
  split; [exact parsesAs_example|].
  destruct (@replica_addresses_differ example.calm example.package
              "127.0.0.1:4000" "127.0.0.1" 4000 parsesAs_example)
    as (_ & Hf & Hm).
  destruct (Hf example.front example.fresh eq_refl) as (newf & Ef & Nf & _).
  destruct (Hm (example.meta false) example.fresh eq_refl)
    as (newm & Em & Nm & _).
  rewrite Ef, Em. split; assumption.
Defined.

(** X13 in the calm world: two replicas, both healthy at the first
    tick. *)
Lemma Start_returns_when_healthy_witness :
  @neverFails example.calm /\
  select example.ticked = Some tick /\
  fst (@metaSrv.Start example.calm example.package (example.meta false)
         [example.ticked] "greptime" example.fresh)
  = Returned None /\
  gets (effects (snd
    (@metaSrv.Start example.calm example.package (example.meta false)
       [example.ticked] "greptime" example.fresh)))
  = ["http://localhost:4000/health"; "http://localhost:4001/health"].
Proof.
  split; [exact calm_neverFails|]. split; [reflexivity|].
  rewrite (@Start_returns_when_healthy example.calm example.package
             (example.meta false) example.ticked [] "greptime" example.fresh
             calm_neverFails eq_refl).
  - split; reflexivity.
  - intros k Hk. destruct k as [|[|k]]; [reflexivity|reflexivity|].
    simpl in Hk. lia.
Defined.

(** X14 in the calm world: a frontend of two replicas started twice. *)
Lemma Start_twice_witness :
  @neverFails example.calm /\
  dirs (snd
    (@frontend.Start example.calm example.package example.front "greptime"
       (snd (@frontend.Start example.calm example.package example.front
               "greptime" example.fresh))))
  = {| logsDirs := ["/d/logs/frontend.0"; "/d/logs/frontend.1";
                    "/d/logs/frontend.0"; "/d/logs/frontend.1"];
       pidsDirs := ["/d/pids/frontend.0"; "/d/pids/frontend.1";
                    "/d/pids/frontend.0"; "/d/pids/frontend.1"] |}.
Proof.
  split; [exact calm_neverFails|].
  destruct (@Start_twice example.calm example.package example.frontCfg
              "127.0.0.1:3002" example.metaCfg false example.roots [] []
              "greptime" [] calm_neverFails) as [(_ & E & _) _].
  exact E.
Defined.

(** X11 and X12 on the examples: the launch of replica 1 of the frontend
    and the endpoint probed for it, and the arguments of a frontend with a
    configuration file and a user provider. *)
Example frontend_replica_1 :
  RunOptions.args
    (@frontend_opt example.calm example.package example.front "greptime" 1)
  = ["--log-level=debug"; "frontend"; "start";
     "--metasrv-addrs=127.0.0.1:3002";
     "--http-addr=127.0.0.1:4001"; "--rpc-addr=127.0.0.1:4002";
     "--mysql-addr=127.0.0.1:4003"; "--postgres-addr=127.0.0.1:4004"]
  /\
  @frontend_url example.package example.front 1
  = "http://127.0.0.1:4001/health"
  /\
  skipn 8 (@frontend.BuildArgs example.package example.idleFront 0)
  = ["-c=/etc/frontend.toml"; "--user-provider=static_user_provider"].
Proof. repeat split; reflexivity. Qed.
